(** * voicehearth-processor: the recording pipeline

    A shallow embedding of [src/pipeline.ts] and, further down, of the
    route of [src/index.ts] that starts it.  [processRecording] is an
    [async] function that talks to four collaborators (the Supabase
    client, [fetch], the file system and ffmpeg) and reports its progress
    in the [purchases] table.  It is embedded as a computation in a small
    state-and-exception monad:

    - the state ([World]) holds the chronological list of the calls the
      pipeline made ([trace]), the [purchases] row selected by
      [.eq("id", purchaseId)] and whether the session's scratch directory
      exists;
    - what the collaborators answer is read from an environment ([Env]),
      one answer per call site (per loop iteration for the calls made
      inside the page loop), so that every behaviour of the outside world
      during one invocation is some [Env];
    - [throw], [try]/[catch] and [try]/[finally] are the JavaScript ones.

    Modelling assumptions on code that is not part of [pipeline.ts]:
    [getSupabase ()] returns a client; the client's query and storage
    builders resolve to a [{ data, error }] object and do not reject; an
    [update] on the [purchases] row is applied; fluent-ffmpeg keeps the
    settings of a command as its builder methods are called, and splits
    the options given in an array as [Builder.split_option] does. *)

From Stdlib Require Import List String Ascii ZArith Bool Lia Floats DecimalString.
Import ListNotations.
Open Scope string_scope.

Set Implicit Arguments.

(* ------------------------------------------------------------------ *)
(** ** JavaScript values used by the pipeline *)

(** What a [throw] carries: an [Error] object with its [message], or any
    other value (for which [error instanceof Error] is false). *)
Inductive Thrown : Type :=
| JsError (message : string)
| JsValue (description : string).

Inductive Outcome (A : Type) : Type :=
| Ok (a : A)
| Throws (e : Thrown).
Arguments Ok {A} a.
Arguments Throws {A} e.

Definition Buffer := list Byte.byte.

(** Truthiness of a string and of an optional string ([undefined] and the
    empty string are falsy). *)
Definition truthy_string (s : string) : bool := negb (s =? "").

Definition truthy (v : option string) : bool :=
  match v with
  | Some s => truthy_string s
  | None => false
  end.

Definition is_some {A} (v : option A) : bool :=
  match v with Some _ => true | None => false end.

(** [`${n}`] for an integer-valued number. *)
Definition show_int (n : Z) : string := NilZero.string_of_int (Z.to_int n).

(** [`${v}`] for an optional string: [undefined] prints as "undefined". *)
Definition show_opt (v : option string) : string :=
  match v with Some s => s | None => "undefined" end.

Definition newline : string := String (ascii_of_nat 10) EmptyString.

(** [Array.prototype.join]. *)
Definition join (sep : string) (l : list string) : string := String.concat sep l.

(** [s.split(" ")]: the pieces of [s] between its spaces; there is one
    more piece than there are spaces. *)
Fixpoint split_space (s : string) : list string :=
  match s with
  | EmptyString => [""]
  | String c rest =>
      if Ascii.eqb c " " then "" :: split_space rest
      else match split_space rest with
           | piece :: pieces => String c piece :: pieces
           | [] => [String c ""]
           end
  end.

(** JavaScript numbers are IEEE 754 doubles. *)
Definition is_nan (x : float) : bool := negb (PrimFloat.eqb x x).

Definition truthy_number (x : float) : bool :=
  negb (is_nan x) && negb (PrimFloat.eqb x 0%float).

(** [Math.max(a, b)]: NaN if either argument is NaN, and [+0] is larger
    than [-0]. *)
Definition Math_max (a b : float) : float :=
  if is_nan a || is_nan b then nan
  else if PrimFloat.ltb a b then b
  else if PrimFloat.ltb b a then a
  else match PrimFloat.classify a with
       | NZero => b
       | _ => a
       end.

(* ------------------------------------------------------------------ *)
(** ** Data of the pipeline *)

Definition PAGE_GAP_SECONDS : float := 0.75%float.

Inductive ProcessingStep : Type :=
| downloading
| stitching
| polishing
| mixing_music
| encoding
| uploading.

Record ProcessOptions : Type := {
  sessionId : string;
  storyTitle : string;
  readerName : option string;
  musicTrack : option string;
  purchaseId : string
}.

(** A row of [recording_pages], as selected by the page lookup. *)
Record Page : Type := {
  page_index : Z;
  audio_url : option string;
  duration_seconds : option float
}.

(** The columns of a [purchases] row that the pipeline writes. *)
Record Purchase : Type := {
  processing_step : option ProcessingStep;
  processing_status : option string;
  error_message : option string;
  final_audio_url : option string
}.

(** A fluent-ffmpeg command, as the builder calls configured it. *)
Record FfmpegCommand : Type := {
  cmd_inputs : list string;
  cmd_inputFormat : option string;
  cmd_inputOptions : list string;
  cmd_duration : option float;
  cmd_audioFilters : list string;
  cmd_complexFilter : list string;
  cmd_outputOptions : list string;
  cmd_audioBitrate : option string;
  cmd_audioChannels : option Z;
  cmd_audioFrequency : option Z;
  cmd_format : option string;
  cmd_output : option string
}.

Module Builder.

(** How fluent-ffmpeg takes the options given to it as one array
    ([inputOptions(array)], [outputOptions(array)]): an option that
    [split(" ")] cuts in exactly two pieces is added as two arguments, any
    other option as it is. *)
Definition split_option (option : string) : list string :=
  let split := split_space option in
  if (List.length split =? 2)%nat then split else [option].

Definition split_options (options : list string) : list string :=
  flat_map split_option options.

Definition Ffmpeg (src : option string) : FfmpegCommand :=
  {| cmd_inputs := match src with Some p => [p] | None => [] end;
     cmd_inputFormat := None; cmd_inputOptions := [];
     cmd_duration := None; cmd_audioFilters := [];
     cmd_complexFilter := []; cmd_outputOptions := [];
     cmd_audioBitrate := None; cmd_audioChannels := None;
     cmd_audioFrequency := None; cmd_format := None;
     cmd_output := None |}.

Definition input (p : string) (c : FfmpegCommand) : FfmpegCommand :=
  {| cmd_inputs := cmd_inputs c ++ [p];
     cmd_inputFormat := cmd_inputFormat c; cmd_inputOptions := cmd_inputOptions c;
     cmd_duration := cmd_duration c; cmd_audioFilters := cmd_audioFilters c;
     cmd_complexFilter := cmd_complexFilter c; cmd_outputOptions := cmd_outputOptions c;
     cmd_audioBitrate := cmd_audioBitrate c; cmd_audioChannels := cmd_audioChannels c;
     cmd_audioFrequency := cmd_audioFrequency c; cmd_format := cmd_format c;
     cmd_output := cmd_output c |}.

Definition inputFormat (f : string) (c : FfmpegCommand) : FfmpegCommand :=
  {| cmd_inputs := cmd_inputs c;
     cmd_inputFormat := Some f; cmd_inputOptions := cmd_inputOptions c;
     cmd_duration := cmd_duration c; cmd_audioFilters := cmd_audioFilters c;
     cmd_complexFilter := cmd_complexFilter c; cmd_outputOptions := cmd_outputOptions c;
     cmd_audioBitrate := cmd_audioBitrate c; cmd_audioChannels := cmd_audioChannels c;
     cmd_audioFrequency := cmd_audioFrequency c; cmd_format := cmd_format c;
     cmd_output := cmd_output c |}.

Definition inputOptions (l : list string) (c : FfmpegCommand) : FfmpegCommand :=
  {| cmd_inputs := cmd_inputs c;
     cmd_inputFormat := cmd_inputFormat c;
     cmd_inputOptions := cmd_inputOptions c ++ split_options l;
     cmd_duration := cmd_duration c; cmd_audioFilters := cmd_audioFilters c;
     cmd_complexFilter := cmd_complexFilter c; cmd_outputOptions := cmd_outputOptions c;
     cmd_audioBitrate := cmd_audioBitrate c; cmd_audioChannels := cmd_audioChannels c;
     cmd_audioFrequency := cmd_audioFrequency c; cmd_format := cmd_format c;
     cmd_output := cmd_output c |}.

Definition duration (d : float) (c : FfmpegCommand) : FfmpegCommand :=
  {| cmd_inputs := cmd_inputs c;
     cmd_inputFormat := cmd_inputFormat c; cmd_inputOptions := cmd_inputOptions c;
     cmd_duration := Some d; cmd_audioFilters := cmd_audioFilters c;
     cmd_complexFilter := cmd_complexFilter c; cmd_outputOptions := cmd_outputOptions c;
     cmd_audioBitrate := cmd_audioBitrate c; cmd_audioChannels := cmd_audioChannels c;
     cmd_audioFrequency := cmd_audioFrequency c; cmd_format := cmd_format c;
     cmd_output := cmd_output c |}.

Definition audioFilters (l : list string) (c : FfmpegCommand) : FfmpegCommand :=
  {| cmd_inputs := cmd_inputs c;
     cmd_inputFormat := cmd_inputFormat c; cmd_inputOptions := cmd_inputOptions c;
     cmd_duration := cmd_duration c; cmd_audioFilters := cmd_audioFilters c ++ l;
     cmd_complexFilter := cmd_complexFilter c; cmd_outputOptions := cmd_outputOptions c;
     cmd_audioBitrate := cmd_audioBitrate c; cmd_audioChannels := cmd_audioChannels c;
     cmd_audioFrequency := cmd_audioFrequency c; cmd_format := cmd_format c;
     cmd_output := cmd_output c |}.

Definition complexFilter (l : list string) (c : FfmpegCommand) : FfmpegCommand :=
  {| cmd_inputs := cmd_inputs c;
     cmd_inputFormat := cmd_inputFormat c; cmd_inputOptions := cmd_inputOptions c;
     cmd_duration := cmd_duration c; cmd_audioFilters := cmd_audioFilters c;
     cmd_complexFilter := l; cmd_outputOptions := cmd_outputOptions c;
     cmd_audioBitrate := cmd_audioBitrate c; cmd_audioChannels := cmd_audioChannels c;
     cmd_audioFrequency := cmd_audioFrequency c; cmd_format := cmd_format c;
     cmd_output := cmd_output c |}.

Definition outputOptions (l : list string) (c : FfmpegCommand) : FfmpegCommand :=
  {| cmd_inputs := cmd_inputs c;
     cmd_inputFormat := cmd_inputFormat c; cmd_inputOptions := cmd_inputOptions c;
     cmd_duration := cmd_duration c; cmd_audioFilters := cmd_audioFilters c;
     cmd_complexFilter := cmd_complexFilter c;
     cmd_outputOptions := cmd_outputOptions c ++ split_options l;
     cmd_audioBitrate := cmd_audioBitrate c; cmd_audioChannels := cmd_audioChannels c;
     cmd_audioFrequency := cmd_audioFrequency c; cmd_format := cmd_format c;
     cmd_output := cmd_output c |}.

Definition audioBitrate (b : string) (c : FfmpegCommand) : FfmpegCommand :=
  {| cmd_inputs := cmd_inputs c;
     cmd_inputFormat := cmd_inputFormat c; cmd_inputOptions := cmd_inputOptions c;
     cmd_duration := cmd_duration c; cmd_audioFilters := cmd_audioFilters c;
     cmd_complexFilter := cmd_complexFilter c; cmd_outputOptions := cmd_outputOptions c;
     cmd_audioBitrate := Some b; cmd_audioChannels := cmd_audioChannels c;
     cmd_audioFrequency := cmd_audioFrequency c; cmd_format := cmd_format c;
     cmd_output := cmd_output c |}.

Definition audioChannels (n : Z) (c : FfmpegCommand) : FfmpegCommand :=
  {| cmd_inputs := cmd_inputs c;
     cmd_inputFormat := cmd_inputFormat c; cmd_inputOptions := cmd_inputOptions c;
     cmd_duration := cmd_duration c; cmd_audioFilters := cmd_audioFilters c;
     cmd_complexFilter := cmd_complexFilter c; cmd_outputOptions := cmd_outputOptions c;
     cmd_audioBitrate := cmd_audioBitrate c; cmd_audioChannels := Some n;
     cmd_audioFrequency := cmd_audioFrequency c; cmd_format := cmd_format c;
     cmd_output := cmd_output c |}.

Definition audioFrequency (n : Z) (c : FfmpegCommand) : FfmpegCommand :=
  {| cmd_inputs := cmd_inputs c;
     cmd_inputFormat := cmd_inputFormat c; cmd_inputOptions := cmd_inputOptions c;
     cmd_duration := cmd_duration c; cmd_audioFilters := cmd_audioFilters c;
     cmd_complexFilter := cmd_complexFilter c; cmd_outputOptions := cmd_outputOptions c;
     cmd_audioBitrate := cmd_audioBitrate c; cmd_audioChannels := cmd_audioChannels c;
     cmd_audioFrequency := Some n; cmd_format := cmd_format c;
     cmd_output := cmd_output c |}.

Definition format (f : string) (c : FfmpegCommand) : FfmpegCommand :=
  {| cmd_inputs := cmd_inputs c;
     cmd_inputFormat := cmd_inputFormat c; cmd_inputOptions := cmd_inputOptions c;
     cmd_duration := cmd_duration c; cmd_audioFilters := cmd_audioFilters c;
     cmd_complexFilter := cmd_complexFilter c; cmd_outputOptions := cmd_outputOptions c;
     cmd_audioBitrate := cmd_audioBitrate c; cmd_audioChannels := cmd_audioChannels c;
     cmd_audioFrequency := cmd_audioFrequency c; cmd_format := Some f;
     cmd_output := cmd_output c |}.

Definition output (p : string) (c : FfmpegCommand) : FfmpegCommand :=
  {| cmd_inputs := cmd_inputs c;
     cmd_inputFormat := cmd_inputFormat c; cmd_inputOptions := cmd_inputOptions c;
     cmd_duration := cmd_duration c; cmd_audioFilters := cmd_audioFilters c;
     cmd_complexFilter := cmd_complexFilter c; cmd_outputOptions := cmd_outputOptions c;
     cmd_audioBitrate := cmd_audioBitrate c; cmd_audioChannels := cmd_audioChannels c;
     cmd_audioFrequency := cmd_audioFrequency c; cmd_format := cmd_format c;
     cmd_output := Some p |}.

End Builder.

(** [c .> f] is the method chain [c.f(...)]. *)
Notation "c .> f" := (f c) (at level 45, left associativity, only parsing).

(* ------------------------------------------------------------------ *)
(** ** Call sites, events and the outside world *)

(** Where in [processRecording] a collaborator is called: iteration [k]
    of the page loop, or one of the later blocks of the function. *)
Inductive Site : Type :=
| AtPage (k : nat)
| AtSilence
| AtConcat
| AtPolish
| AtMusic
| AtEncode
| AtUpload.

Inductive FileData : Type :=
| Bytes (b : Buffer)
| Text (s : string).

(** One call made by the pipeline, with its arguments. *)
Inductive Event : Type :=
| EvMkdir (path : string)
| EvRm (path : string)
| EvUpdateStep (purchase_id : string) (step : ProcessingStep)
| EvMarkFailed (purchase_id : string) (error : string)
| EvMarkCompleted (purchase_id : string) (audioPath : string)
| EvConsoleError (session : string) (message : string)
| EvListPages (session : string)
| EvCreateSignedUrl (site : Site) (audio : option string) (ttl : Z)
| EvFetch (site : Site) (url : string)
| EvWriteFile (site : Site) (path : string) (data : FileData)
| EvReadFile (site : Site) (path : string)
| EvFfmpeg (site : Site) (cmd : FfmpegCommand)
| EvFfprobe (site : Site) (path : string)
| EvUpload (site : Site) (key : string) (data : Buffer)
           (contentType : string) (upsert : bool).

(** [{ data: pages, error: pagesError }] of the page lookup. *)
Record PagesReply : Type := {
  pages_data : option (list Page);
  pages_error : option string
}.

(** [{ data: signedUrlData, error: urlError }] of [createSignedUrl];
    [signed_url] is the value of [signedUrlData?.signedUrl]. *)
Record SignedUrlReply : Type := {
  signed_url : option string;
  url_error : option string
}.

(** A [Response]: its [ok] flag and what [arrayBuffer()] resolves to. *)
Record Response : Type := {
  ok : bool;
  arrayBuffer : Outcome Buffer
}.

(** The runtime and the collaborators during one invocation. *)
Record Env : Type := {
  path_join : string -> string -> string;
  Number_toString : float -> string;
  APP_URL : option string;
  mkdirSync_reply : option Thrown;
  rmSync_reply : option Thrown;
  listPages_reply : PagesReply;
  createSignedUrl_reply : Site -> SignedUrlReply;
  fetch_reply : Site -> Outcome Response;
  writeFileSync_reply : Site -> option Thrown;
  readFileSync_reply : Site -> Outcome Buffer;
  ffmpeg_reply : Site -> option Thrown;
  ffprobe_reply : Site -> Outcome (option float);
  upload_reply : Site -> option string
}.

Record World : Type := {
  trace : list Event;
  purchase : Purchase;
  workspace_exists : bool
}.

(* ------------------------------------------------------------------ *)
(** ** The monad *)

Definition M (A : Type) : Type := World -> Outcome A * World.

Definition ret {A} (a : A) : M A := fun w => (Ok a, w).

Definition throw {A} (e : Thrown) : M A := fun w => (Throws e, w).

Definition bind {A B} (m : M A) (k : A -> M B) : M B :=
  fun w =>
    match m w with
    | (Ok a, w') => k a w'
    | (Throws e, w') => (Throws e, w')
    end.

Notation "x <- m ;; k" := (bind m (fun x => k))
  (at level 61, m at next level, right associativity).
Notation "m ;; k" := (bind m (fun _ => k))
  (at level 61, right associativity).

(** [try { m } catch (error) { handler error }]. *)
Definition try_catch {A} (m : M A) (handler : Thrown -> M A) : M A :=
  fun w =>
    match m w with
    | (Ok a, w') => (Ok a, w')
    | (Throws e, w') => handler e w'
    end.

(** [try { m } finally { fin }]: [fin] runs on both exits, and an
    exception of [fin] replaces the pending completion. *)
Definition try_finally {A} (m : M A) (fin : M unit) : M A :=
  fun w =>
    match m w with
    | (r, w') =>
        match fin w' with
        | (Ok _, w'') => (r, w'')
        | (Throws e, w'') => (Throws e, w'')
        end
    end.

Definition emit (e : Event) : M unit :=
  fun w => (Ok tt, {| trace := trace w ++ [e];
                      purchase := purchase w;
                      workspace_exists := workspace_exists w |}).

Definition update_purchase (f : Purchase -> Purchase) : M unit :=
  fun w => (Ok tt, {| trace := trace w;
                      purchase := f (purchase w);
                      workspace_exists := workspace_exists w |}).

Definition set_workspace (b : bool) : M unit :=
  fun w => (Ok tt, {| trace := trace w;
                      purchase := purchase w;
                      workspace_exists := b |}).

Definition settle {A} (r : Outcome A) : M A := fun w => (r, w).

Definition raise_if (r : option Thrown) : M unit :=
  match r with
  | None => ret tt
  | Some e => throw e
  end.

(* ------------------------------------------------------------------ *)
(** ** Writes to the [purchases] row *)

Definition set_step (step : ProcessingStep) (p : Purchase) : Purchase :=
  {| processing_step := Some step;
     processing_status := processing_status p;
     error_message := error_message p;
     final_audio_url := final_audio_url p |}.

Definition set_failed (error : string) (p : Purchase) : Purchase :=
  {| processing_step := processing_step p;
     processing_status := Some "failed";
     error_message := Some error;
     final_audio_url := final_audio_url p |}.

Definition set_completed (audioPath : string) (p : Purchase) : Purchase :=
  {| processing_step := processing_step p;
     processing_status := Some "completed";
     error_message := error_message p;
     final_audio_url := Some audioPath |}.

(** [error instanceof Error ? error.message : "Unknown processing error"]. *)
Definition message_of (error : Thrown) : string :=
  match error with
  | JsError message => message
  | JsValue _ => "Unknown processing error"
  end.

(** [`file '${p}'`]. *)
Definition file_line (p : string) : string := "file '" ++ p ++ "'".

(** The loop that fills [concatEntries]: at index [i] it pushes the line
    of [wavFiles[i]] and, when [i < wavFiles.length - 1], the line of the
    silence clip.  [rest] is [wavFiles] from index [i] on and [len] is
    [wavFiles.length]. *)
Fixpoint concat_loop (silencePath : string) (len : Z) (i : Z) (rest : list string)
  : list string :=
  match rest with
  | [] => []
  | w :: rest' =>
      file_line w ::
      (if (i <? len - 1)%Z then [file_line silencePath] else []) ++
      concat_loop silencePath len (i + 1) rest'
  end.

Definition concatEntries (wavFiles : list string) (silencePath : string) : list string :=
  concat_loop silencePath (Z.of_nat (List.length wavFiles)) 0 wavFiles.

(** [metadata.format.duration || 0]. *)
Definition or_zero (d : option float) : float :=
  match d with
  | Some x => if truthy_number x then x else 0%float
  | None => 0%float
  end.

(** [pagesError || !pages || pages.length === 0]. *)
Definition no_pages (r : PagesReply) : bool :=
  is_some (pages_error r) ||
  match pages_data r with
  | None => true
  | Some pages => (List.length pages =? 0)%nat
  end.

Definition pages_of (r : PagesReply) : list Page :=
  match pages_data r with
  | Some pages => pages
  | None => []
  end.

Section Pipeline.

Variable env : Env.

(** *** The helpers of [pipeline.ts] and the collaborators *)

Definition updateStep (purchaseId : string) (step : ProcessingStep) : M unit :=
  emit (EvUpdateStep purchaseId step) ;;
  update_purchase (set_step step).

Definition markFailed (purchaseId : string) (error : string) : M unit :=
  emit (EvMarkFailed purchaseId error) ;;
  update_purchase (set_failed error).

Definition markCompleted (purchaseId : string) (audioPath : string) : M unit :=
  emit (EvMarkCompleted purchaseId audioPath) ;;
  update_purchase (set_completed audioPath).

Definition runFfmpeg (site : Site) (command : FfmpegCommand) : M unit :=
  emit (EvFfmpeg site command) ;;
  raise_if (ffmpeg_reply env site).

(** [resolve(metadata.format.duration || 0)], or [reject(err)]. *)
Definition getAudioDuration (site : Site) (filePath : string) : M float :=
  emit (EvFfprobe site filePath) ;;
  d <- settle (ffprobe_reply env site) ;;
  ret (or_zero d).

Definition mkdirSync (path : string) : M unit :=
  emit (EvMkdir path) ;;
  raise_if (mkdirSync_reply env) ;;
  set_workspace true.

Definition rmSync (path : string) : M unit :=
  emit (EvRm path) ;;
  raise_if (rmSync_reply env) ;;
  set_workspace false.

Definition writeFileSync (site : Site) (path : string) (data : FileData) : M unit :=
  emit (EvWriteFile site path data) ;;
  raise_if (writeFileSync_reply env site).

Definition readFileSync (site : Site) (path : string) : M Buffer :=
  emit (EvReadFile site path) ;;
  settle (readFileSync_reply env site).

Definition fetch (site : Site) (url : string) : M Response :=
  emit (EvFetch site url) ;;
  settle (fetch_reply env site).

Definition listPages (session : string) : M PagesReply :=
  emit (EvListPages session) ;;
  ret (listPages_reply env).

Definition createSignedUrl (site : Site) (audio : option string) (ttl : Z)
  : M SignedUrlReply :=
  emit (EvCreateSignedUrl site audio ttl) ;;
  ret (createSignedUrl_reply env site).

Definition upload (site : Site) (key : string) (data : Buffer)
           (contentType : string) (upsert : bool) : M (option string) :=
  emit (EvUpload site key data contentType upsert) ;;
  ret (upload_reply env site).

Definition console_error (session message : string) : M unit :=
  emit (EvConsoleError session message).

(** *** Step 1: download pages *)

Definition normalize_command (rawPath wavPath : string) : FfmpegCommand :=
  Builder.Ffmpeg (Some rawPath)
    .> Builder.audioChannels 1
    .> Builder.audioFrequency 44100
    .> Builder.format "wav"
    .> Builder.output wavPath.

(** [for (const page of pages) { ... }]; [k] counts the iterations. *)
Fixpoint download_pages (tmpDir : string) (k : nat) (pages : list Page)
         (wavFiles : list string) : M (list string) :=
  match pages with
  | [] => ret wavFiles
  | page :: rest =>
      r <- createSignedUrl (AtPage k) (audio_url page) 300 ;;
      if is_some (url_error r) || negb (truthy (signed_url r)) then
        throw (JsError ("Failed to get signed URL for page " ++ show_int (page_index page)))
      else
        response <- fetch (AtPage k) (show_opt (signed_url r)) ;;
        if negb (ok response) then
          throw (JsError ("Failed to download page " ++ show_int (page_index page)))
        else
          buffer <- settle (arrayBuffer response) ;;
          let rawPath :=
            path_join env tmpDir ("page-" ++ show_int (page_index page) ++ ".raw") in
          writeFileSync (AtPage k) rawPath (Bytes buffer) ;;
          let wavPath :=
            path_join env tmpDir ("page-" ++ show_int (page_index page) ++ ".wav") in
          runFfmpeg (AtPage k) (normalize_command rawPath wavPath) ;;
          download_pages tmpDir (S k) rest (wavFiles ++ [wavPath])
  end.

Definition step_download (o : ProcessOptions) (tmpDir : string) : M (list string) :=
  updateStep (purchaseId o) downloading ;;
  r <- listPages (sessionId o) ;;
  if no_pages r then
    throw (JsError "No recording pages found for session")
  else
    download_pages tmpDir 0 (pages_of r) [].

(** *** Step 2: generate silence and concat *)

Definition silence_command (silencePath : string) : FfmpegCommand :=
  Builder.Ffmpeg None
    .> Builder.input "anullsrc=r=44100:cl=mono"
    .> Builder.inputFormat "lavfi"
    .> Builder.duration PAGE_GAP_SECONDS
    .> Builder.audioChannels 1
    .> Builder.audioFrequency 44100
    .> Builder.format "wav"
    .> Builder.output silencePath.

Definition concat_command (concatListPath concatenatedPath : string) : FfmpegCommand :=
  Builder.Ffmpeg None
    .> Builder.input concatListPath
    .> Builder.inputOptions ["-f"; "concat"; "-safe"; "0"]
    .> Builder.audioChannels 1
    .> Builder.audioFrequency 44100
    .> Builder.format "wav"
    .> Builder.output concatenatedPath.

Definition step_stitch (o : ProcessOptions) (tmpDir : string) (wavFiles : list string)
  : M string :=
  updateStep (purchaseId o) stitching ;;
  let silencePath := path_join env tmpDir "silence.wav" in
  runFfmpeg AtSilence (silence_command silencePath) ;;
  let concatListPath := path_join env tmpDir "concat.txt" in
  writeFileSync AtConcat concatListPath
    (Text (join newline (concatEntries wavFiles silencePath))) ;;
  let concatenatedPath := path_join env tmpDir "concatenated.wav" in
  runFfmpeg AtConcat (concat_command concatListPath concatenatedPath) ;;
  ret concatenatedPath.

(** *** Step 3: apply audio filters *)

Definition polish_command (concatenatedPath polishedPath : string) : FfmpegCommand :=
  Builder.Ffmpeg (Some concatenatedPath)
    .> Builder.audioFilters ["highpass=f=80"; "loudnorm=I=-16:TP=-1.5:LRA=11"]
    .> Builder.audioChannels 1
    .> Builder.audioFrequency 44100
    .> Builder.format "wav"
    .> Builder.output polishedPath.

Definition step_polish (o : ProcessOptions) (tmpDir concatenatedPath : string)
  : M string :=
  updateStep (purchaseId o) polishing ;;
  let polishedPath := path_join env tmpDir "polished.wav" in
  runFfmpeg AtPolish (polish_command concatenatedPath polishedPath) ;;
  ret polishedPath.

(** *** Step 4: mix background music (if selected) *)

Definition fade_out_start (voiceDuration : float) : float :=
  Math_max 0%float (PrimFloat.sub voiceDuration 5%float).

Definition music_filter (voiceDuration : float) : string :=
  "[1:a]aloop=loop=-1:size=2e+09,atrim=duration="
    ++ Number_toString env voiceDuration
    ++ ",afade=t=in:st=0:d=3,afade=t=out:st="
    ++ Number_toString env (fade_out_start voiceDuration)
    ++ ":d=5,volume=0.1[music]".

Definition amix_filter : string :=
  "[0:a][music]amix=inputs=2:duration=first:dropout_transition=2[out]".

Definition mix_command (polishedPath musicPath mixedPath : string)
           (voiceDuration : float) : FfmpegCommand :=
  Builder.Ffmpeg None
    .> Builder.input polishedPath
    .> Builder.input musicPath
    .> Builder.complexFilter [music_filter voiceDuration; amix_filter]
    .> Builder.outputOptions ["-map"; "[out]"]
    .> Builder.audioChannels 1
    .> Builder.audioFrequency 44100
    .> Builder.format "wav"
    .> Builder.output mixedPath.

Definition music_url (o : ProcessOptions) : string :=
  show_opt (APP_URL env) ++ "/music/" ++ show_opt (musicTrack o) ++ ".mp3".

(** The part of the block after [updateStep]; it yields [inputForEncode]. *)
Definition mix_music (o : ProcessOptions) (tmpDir polishedPath : string) : M string :=
  musicResponse <- fetch AtMusic (music_url o) ;;
  if ok musicResponse then
    musicBuffer <- settle (arrayBuffer musicResponse) ;;
    let musicPath := path_join env tmpDir "music.mp3" in
    writeFileSync AtMusic musicPath (Bytes musicBuffer) ;;
    voiceDuration <- getAudioDuration AtMusic polishedPath ;;
    let mixedPath := path_join env tmpDir "mixed.wav" in
    runFfmpeg AtMusic (mix_command polishedPath musicPath mixedPath voiceDuration) ;;
    ret mixedPath
  else
    ret polishedPath.

Definition step_mix (o : ProcessOptions) (tmpDir polishedPath : string) : M string :=
  if truthy (musicTrack o) then
    updateStep (purchaseId o) mixing_music ;;
    mix_music o tmpDir polishedPath
  else
    ret polishedPath.

(** *** Step 5: encode to MP3 *)

Definition metadata_options (o : ProcessOptions) : list string :=
  ["-metadata"; "title=" ++ storyTitle o; "-metadata"; "album=VoiceHearth"] ++
  (if truthy (readerName o)
   then ["-metadata"; "artist=Read by " ++ show_opt (readerName o)]
   else []).

Definition encode_command (o : ProcessOptions) (inputForEncode mp3Path : string)
  : FfmpegCommand :=
  Builder.Ffmpeg (Some inputForEncode)
    .> Builder.audioBitrate "192k"
    .> Builder.audioChannels 1
    .> Builder.audioFrequency 44100
    .> Builder.format "mp3"
    .> Builder.outputOptions (metadata_options o)
    .> Builder.output mp3Path.

Definition step_encode (o : ProcessOptions) (tmpDir inputForEncode : string)
  : M string :=
  updateStep (purchaseId o) encoding ;;
  let mp3Path := path_join env tmpDir "output.mp3" in
  runFfmpeg AtEncode (encode_command o inputForEncode mp3Path) ;;
  ret mp3Path.

(** *** Step 6: upload *)

Definition output_storage_path (o : ProcessOptions) : string :=
  "processed/" ++ sessionId o ++ ".mp3".

Definition step_upload (o : ProcessOptions) (mp3Path : string) : M string :=
  updateStep (purchaseId o) uploading ;;
  let outputStoragePath := output_storage_path o in
  mp3Data <- readFileSync AtUpload mp3Path ;;
  uploadError <- upload AtUpload outputStoragePath mp3Data "audio/mpeg" true ;;
  match uploadError with
  | Some message =>
      throw (JsError ("Failed to upload processed MP3: " ++ message))
  | None => ret outputStoragePath
  end.

(** *** [processRecording] *)

Definition tmp_dir (o : ProcessOptions) : string := path_join env "/tmp" (sessionId o).

(** The [try] block. *)
Definition try_block (o : ProcessOptions) : M string :=
  let tmpDir := tmp_dir o in
  mkdirSync tmpDir ;;
  wavFiles <- step_download o tmpDir ;;
  concatenatedPath <- step_stitch o tmpDir wavFiles ;;
  polishedPath <- step_polish o tmpDir concatenatedPath ;;
  inputForEncode <- step_mix o tmpDir polishedPath ;;
  mp3Path <- step_encode o tmpDir inputForEncode ;;
  outputStoragePath <- step_upload o mp3Path ;;
  markCompleted (purchaseId o) outputStoragePath ;;
  ret outputStoragePath.

(** The [catch (error)] block. *)
Definition catch_block (o : ProcessOptions) (error : Thrown) : M string :=
  let message := message_of error in
  console_error (sessionId o) message ;;
  markFailed (purchaseId o) message ;;
  throw error.

(** The [finally] block. *)
Definition finally_block (o : ProcessOptions) : M unit :=
  try_catch (rmSync (tmp_dir o)) (fun _ => ret tt).

Definition processRecording (o : ProcessOptions) : M string :=
  try_finally (try_catch (try_block o) (catch_block o)) (finally_block o).

End Pipeline.

(** One invocation, started on a [purchases] row [p0], with or without a
    scratch directory already there. *)
Definition initial (p0 : Purchase) (exists0 : bool) : World :=
  {| trace := []; purchase := p0; workspace_exists := exists0 |}.

Definition run (env : Env) (o : ProcessOptions) (p0 : Purchase) (exists0 : bool)
  : Outcome string * World :=
  processRecording env o (initial p0 exists0).

(* ------------------------------------------------------------------ *)
(** ** Vocabulary of the properties *)

(** The step under which a call site is written in [processRecording]. *)
Definition stage_of_site (s : Site) : ProcessingStep :=
  match s with
  | AtPage _ => downloading
  | AtSilence | AtConcat => stitching
  | AtPolish => polishing
  | AtMusic => mixing_music
  | AtEncode => encoding
  | AtUpload => uploading
  end.

(** The stage an action belongs to; the writes to the job record, the
    console and the creation and removal of the workspace belong to none. *)
Definition stage_of (e : Event) : option ProcessingStep :=
  match e with
  | EvListPages _ => Some downloading
  | EvCreateSignedUrl s _ _ => Some (stage_of_site s)
  | EvFetch s _ => Some (stage_of_site s)
  | EvWriteFile s _ _ => Some (stage_of_site s)
  | EvReadFile s _ => Some (stage_of_site s)
  | EvFfmpeg s _ => Some (stage_of_site s)
  | EvFfprobe s _ => Some (stage_of_site s)
  | EvUpload s _ _ _ _ => Some (stage_of_site s)
  | EvMkdir _ | EvRm _ | EvUpdateStep _ _ | EvMarkFailed _ _
  | EvMarkCompleted _ _ | EvConsoleError _ _ => None
  end.

Definition step_of (e : Event) : option ProcessingStep :=
  match e with
  | EvUpdateStep _ s => Some s
  | _ => None
  end.

(** The steps recorded to the status sink, in the order of the writes. *)
Fixpoint steps_of (tr : list Event) : list ProcessingStep :=
  match tr with
  | [] => []
  | e :: tr' =>
      match step_of e with
      | Some s => s :: steps_of tr'
      | None => steps_of tr'
      end
  end.

(** The step the job record shows after the calls of [tr], once one of
    them has written a step. *)
Definition current_step (tr : list Event) : option ProcessingStep :=
  last (map Some (steps_of tr)) None.

Definition is_terminal (e : Event) : bool :=
  match e with
  | EvMarkFailed _ _ | EvMarkCompleted _ _ => true
  | _ => false
  end.

Definition is_transcode (e : Event) : bool :=
  match e with
  | EvFfmpeg _ _ => true
  | _ => false
  end.

Definition rank (s : ProcessingStep) : nat :=
  match s with
  | downloading => 0
  | stitching => 1
  | polishing => 2
  | mixing_music => 3
  | encoding => 4
  | uploading => 5
  end.

(** Strictly increasing in the order of the enumeration. *)
Fixpoint increasing (l : list ProcessingStep) : Prop :=
  match l with
  | [] => True
  | s :: l' =>
      match l' with
      | [] => True
      | s' :: _ => rank s < rank s'
      end /\ increasing l'
  end.

Definition prefix {A} (l1 l2 : list A) : Prop := exists l, l2 = (l1 ++ l)%list.

(** The steps of a complete run. *)
Definition expected_steps (o : ProcessOptions) : list ProcessingStep :=
  [downloading; stitching; polishing] ++
  (if truthy (musicTrack o) then [mixing_music] else []) ++
  [encoding; uploading].

(** The errors that [processRecording] itself creates. *)
Inductive pipeline_error : Thrown -> Prop :=
| NoPagesError :
    pipeline_error (JsError "No recording pages found for session")
| SignedUrlError n :
    pipeline_error (JsError ("Failed to get signed URL for page " ++ show_int n))
| DownloadError n :
    pipeline_error (JsError ("Failed to download page " ++ show_int n))
| UploadError message :
    pipeline_error (JsError ("Failed to upload processed MP3: " ++ message)).

(** The errors that a collaborator raises inside the [try] block. *)
Inductive raised_by (env : Env) : Thrown -> Prop :=
| by_mkdirSync e : mkdirSync_reply env = Some e -> raised_by env e
| by_fetch s e : fetch_reply env s = Throws e -> raised_by env e
| by_arrayBuffer s r e :
    fetch_reply env s = Ok r -> arrayBuffer r = Throws e -> raised_by env e
| by_writeFileSync s e : writeFileSync_reply env s = Some e -> raised_by env e
| by_readFileSync s e : readFileSync_reply env s = Throws e -> raised_by env e
| by_ffmpeg s e : ffmpeg_reply env s = Some e -> raised_by env e
| by_ffprobe s e : ffprobe_reply env s = Throws e -> raised_by env e.

Definition wav_path (env : Env) (tmpDir : string) (page : Page) : string :=
  path_join env tmpDir ("page-" ++ show_int (page_index page) ++ ".wav").

(** The concat list of a session, from the pages the lookup returned. *)
Definition manifest (env : Env) (o : ProcessOptions) (pages : list Page) : list string :=
  concatEntries (map (wav_path env (tmp_dir env o)) pages)
                (path_join env (tmp_dir env o) "silence.wav").

(** The mix command of a session whose polished track lasts [d] seconds. *)
Definition session_mix_command (env : Env) (o : ProcessOptions) (d : float)
  : FfmpegCommand :=
  mix_command env
    (path_join env (tmp_dir env o) "polished.wav")
    (path_join env (tmp_dir env o) "music.mp3")
    (path_join env (tmp_dir env o) "mixed.wav") d.

(** *** The filter graph of the mix

    The two strings given to [complexFilter] are a filter graph in
    ffmpeg's syntax: chains of filters separated by commas, between
    labelled streams.  [mix_graph] is that graph as a structure and
    [print_chain] writes it back; the numbers the source writes out are
    kept as text, the two it computes are printed by the runtime. *)

Inductive FilterNumber : Type :=
| Written (text : string)
| Computed (x : float).

Inductive Filter : Type :=
| aloop (loop : Z) (size : FilterNumber)
| atrim (duration : FilterNumber)
| afade (type : string) (start : FilterNumber) (d : FilterNumber)
| volume (gain : FilterNumber)
| amix (inputs : Z) (duration : string) (dropout_transition : FilterNumber).

Record Chain : Type := {
  chain_inputs : list string;
  chain_filters : list Filter;
  chain_output : string
}.

Definition mix_graph (voiceDuration : float) : list Chain :=
  [ {| chain_inputs := ["1:a"];
       chain_filters :=
         [aloop (-1) (Written "2e+09");
          atrim (Computed voiceDuration);
          afade "in" (Written "0") (Written "3");
          afade "out" (Computed (fade_out_start voiceDuration)) (Written "5");
          volume (Written "0.1")];
       chain_output := "music" |};
    {| chain_inputs := ["0:a"; "music"];
       chain_filters := [amix 2 "first" (Written "2")];
       chain_output := "out" |} ].

Definition print_filter_number (env : Env) (n : FilterNumber) : string :=
  match n with
  | Written text => text
  | Computed x => Number_toString env x
  end.

Definition print_filter (env : Env) (f : Filter) : string :=
  match f with
  | aloop loop size =>
      "aloop=loop=" ++ show_int loop ++ ":size=" ++ print_filter_number env size
  | atrim duration => "atrim=duration=" ++ print_filter_number env duration
  | afade type start d =>
      "afade=t=" ++ type ++ ":st=" ++ print_filter_number env start
        ++ ":d=" ++ print_filter_number env d
  | volume gain => "volume=" ++ print_filter_number env gain
  | amix inputs duration dropout_transition =>
      "amix=inputs=" ++ show_int inputs ++ ":duration=" ++ duration
        ++ ":dropout_transition=" ++ print_filter_number env dropout_transition
  end.

Definition print_label (label : string) : string := "[" ++ label ++ "]".

Definition print_chain (env : Env) (c : Chain) : string :=
  join "" (map print_label (chain_inputs c))
    ++ join "," (map (print_filter env) (chain_filters c))
    ++ print_label (chain_output c).

(** How long a stream lasts.  What follows is the behaviour that
    ffmpeg documents for the five filters of the graph: [aloop] with
    [loop=-1] repeats a stream that is not empty without end, [atrim]
    cuts a stream at [duration] seconds, [afade] and [volume] keep its
    length, and [amix] with [duration=first] ends with its first input.
    A filter used otherwise has no length here. *)
Inductive Length : Type :=
| Seconds (t : float)
| Endless.

Definition shorter (a b : Length) : Length :=
  match a, b with
  | Seconds x, Seconds y => if PrimFloat.ltb y x then Seconds y else Seconds x
  | Seconds x, Endless => Seconds x
  | Endless, _ => b
  end.

Definition filter_length (f : Filter) (inputs : list Length) : option Length :=
  match f, inputs with
  | aloop loop _, [l] =>
      if (loop =? -1)%Z then
        match l with
        | Seconds t => if PrimFloat.eqb t 0%float then Some l else Some Endless
        | Endless => Some Endless
        end
      else None
  | atrim (Computed d), [l] => Some (shorter (Seconds d) l)
  | afade _ _ _, [l] => Some l
  | volume _, [l] => Some l
  | amix _ duration _, l :: _ => if duration =? "first" then Some l else None
  | _, _ => None
  end.

(** The stream that leaves a chain of filters fed with [inputs]. *)
Fixpoint chain_length (filters : list Filter) (inputs : list Length) : option Length :=
  match filters with
  | [] => match inputs with [l] => Some l | _ => None end
  | f :: rest =>
      match filter_length f inputs with
      | Some l => chain_length rest [l]
      | None => None
      end
  end.

Fixpoint stream (label : string) (streams : list (string * Length)) : option Length :=
  match streams with
  | [] => None
  | (name, l) :: rest => if name =? label then Some l else stream label rest
  end.

Fixpoint streams_of (labels : list string) (streams : list (string * Length))
  : option (list Length) :=
  match labels with
  | [] => Some []
  | label :: rest =>
      match stream label streams, streams_of rest streams with
      | Some l, Some ls => Some (l :: ls)
      | _, _ => None
      end
  end.

(** The length of the stream labelled [wanted] that the graph [g] makes
    from the input [streams]. *)
Fixpoint graph_length (g : list Chain) (streams : list (string * Length))
         (wanted : string) : option Length :=
  match g with
  | [] => stream wanted streams
  | c :: rest =>
      match streams_of (chain_inputs c) streams with
      | Some inputs =>
          match chain_length (chain_filters c) inputs with
          | Some l => graph_length rest ((chain_output c, l) :: streams) wanted
          | None => None
          end
      | None => None
      end
  end.

(** Every mix command of [tr] directly follows a probe of [polished]. *)
Definition probed_before_mix (polished : string) (tr : list Event) : Prop :=
  forall cmd,
    In (EvFfmpeg AtMusic cmd) tr ->
    exists pre post,
      tr = (pre ++ EvFfprobe AtMusic polished :: EvFfmpeg AtMusic cmd :: post)%list.

(** [m] maintains the property [P] of the trace. *)
Definition keeps (P : list Event -> Prop) {A} (m : M A) : Prop :=
  forall w, P (trace w) -> P (trace (snd (m w))).

(** [inputForEncode] when the encoder is reached: the mixed track if
    music was selected and its response was [ok], else the polished one. *)
Definition encoder_input (env : Env) (o : ProcessOptions) : string :=
  if truthy (musicTrack o) then
    match fetch_reply env AtMusic with
    | Ok r => if ok r then path_join env (tmp_dir env o) "mixed.wav"
              else path_join env (tmp_dir env o) "polished.wav"
    | Throws _ => path_join env (tmp_dir env o) "polished.wav"
    end
  else path_join env (tmp_dir env o) "polished.wav".

(** What the arguments of a call are, for the calls whose arguments the
    properties below speak about. *)
Definition event_ok (env : Env) (o : ProcessOptions) (e : Event) : Prop :=
  match e with
  | EvWriteFile AtConcat p d =>
      no_pages (listPages_reply env) = false /\
      p = path_join env (tmp_dir env o) "concat.txt" /\
      d = Text (join newline (manifest env o (pages_of (listPages_reply env))))
  | EvFetch AtMusic url => url = music_url env o
  | EvFfmpeg AtMusic cmd =>
      exists r dur,
        fetch_reply env AtMusic = Ok r /\ ok r = true /\
        ffprobe_reply env AtMusic = Ok dur /\
        cmd = session_mix_command env o (or_zero dur)
  | EvFfmpeg AtEncode cmd =>
      cmd = encode_command o (encoder_input env o)
                           (path_join env (tmp_dir env o) "output.mp3")
  | EvUpload _ key _ contentType upsert =>
      key = output_storage_path o /\ contentType = "audio/mpeg" /\ upsert = true
  | _ => True
  end.

(** A section of a trace: a step write followed by the calls of that stage. *)
Definition section_events (pid : string) (sec : ProcessingStep * list Event)
  : list Event :=
  EvUpdateStep pid (fst sec) :: snd sec.

Definition flatten (pid : string) (secs : list (ProcessingStep * list Event))
  : list Event :=
  flat_map (section_events pid) secs.

Definition section_ok (env : Env) (o : ProcessOptions)
           (sec : ProcessingStep * list Event) : Prop :=
  Forall (fun e => stage_of e = Some (fst sec) /\ event_ok env o e) (snd sec).

Definition record_steps (steps : list ProcessingStep) (p : Purchase) : Purchase :=
  fold_left (fun p s => set_step s p) steps p.

(** *** The continuations of the [try] block after each step *)

Definition k_upload (env : Env) (o : ProcessOptions) (mp3Path : string) : M string :=
  outputStoragePath <- step_upload env o mp3Path ;;
  markCompleted (purchaseId o) outputStoragePath ;;
  ret outputStoragePath.

Definition k_encode (env : Env) (o : ProcessOptions) (inputForEncode : string)
  : M string :=
  mp3Path <- step_encode env o (tmp_dir env o) inputForEncode ;;
  k_upload env o mp3Path.

Definition k_mix (env : Env) (o : ProcessOptions) (polishedPath : string) : M string :=
  inputForEncode <- step_mix env o (tmp_dir env o) polishedPath ;;
  k_encode env o inputForEncode.

Definition k_polish (env : Env) (o : ProcessOptions) (concatenatedPath : string)
  : M string :=
  polishedPath <- step_polish env o (tmp_dir env o) concatenatedPath ;;
  k_mix env o polishedPath.

Definition k_stitch (env : Env) (o : ProcessOptions) (wavFiles : list string)
  : M string :=
  concatenatedPath <- step_stitch env o (tmp_dir env o) wavFiles ;;
  k_polish env o concatenatedPath.

Definition k_download (env : Env) (o : ProcessOptions) : M string :=
  wavFiles <- step_download env o (tmp_dir env o) ;;
  k_stitch env o wavFiles.

(** *** Specifications of a stage and of a continuation *)

(** [m] writes step [s] and then only makes calls of stage [s]; its result
    satisfies [Q] and its errors are the pipeline's or a collaborator's. *)
Definition stage_spec (env : Env) (o : ProcessOptions) {A}
           (s : ProcessingStep) (Q : A -> Prop) (m : M A) : Prop :=
  forall w, exists evs,
    trace (snd (m w)) = (trace w ++ EvUpdateStep (purchaseId o) s :: evs)%list /\
    Forall (fun e => stage_of e = Some s /\ event_ok env o e) evs /\
    purchase (snd (m w)) = set_step s (purchase w) /\
    workspace_exists (snd (m w)) = workspace_exists w /\
    (forall a, fst (m w) = Ok a -> Q a) /\
    (forall e, fst (m w) = Throws e -> pipeline_error e \/ raised_by env e).

Definition completion (pid : string) (r : Outcome string) : list Event :=
  match r with
  | Ok k => [EvMarkCompleted pid k]
  | Throws _ => []
  end.

Definition complete (r : Outcome string) (p : Purchase) : Purchase :=
  match r with
  | Ok k => set_completed k p
  | Throws _ => p
  end.

(** [m] runs the stages [steps] in this order, stopping at the first one
    that throws, and marks the job completed after the last. *)
Definition run_spec (env : Env) (o : ProcessOptions)
           (steps : list ProcessingStep) (m : M string) : Prop :=
  forall w, exists secs,
    trace (snd (m w)) =
      (trace w ++ flatten (purchaseId o) secs ++ completion (purchaseId o) (fst (m w)))%list /\
    Forall (section_ok env o) secs /\
    prefix (map fst secs) steps /\
    purchase (snd (m w)) = complete (fst (m w)) (record_steps (map fst secs) (purchase w)) /\
    workspace_exists (snd (m w)) = workspace_exists w /\
    (forall k, fst (m w) = Ok k -> map fst secs = steps /\ k = output_storage_path o) /\
    (forall e, fst (m w) = Throws e -> pipeline_error e \/ raised_by env e).

(** The steps from the music block on. *)
Definition steps_from_mix (o : ProcessOptions) : list ProcessingStep :=
  ((if truthy (musicTrack o) then [mixing_music] else []) ++ [encoding; uploading])%list.

(** The calls between the last stage and the removal of the workspace. *)
Definition ending (o : ProcessOptions) (r : Outcome string) : list Event :=
  match r with
  | Ok k => [EvMarkCompleted (purchaseId o) k]
  | Throws e => [EvConsoleError (sessionId o) (message_of e);
                 EvMarkFailed (purchaseId o) (message_of e)]
  end.

Definition settle_job (r : Outcome string) (p : Purchase) : Purchase :=
  match r with
  | Ok k => set_completed k p
  | Throws e => set_failed (message_of e) p
  end.

Definition workspace_after (env : Env) (exists0 : bool) : bool :=
  match rmSync_reply env with
  | None => false
  | Some _ =>
      match mkdirSync_reply env with
      | None => true
      | Some _ => exists0
      end
  end.

(** The concat list as the specification words it: the page clips in
    order with one silence clip between consecutive pages. *)
Fixpoint interleave (silence : string) (clips : list string) : list string :=
  match clips with
  | [] => []
  | [c] => [c]
  | c :: rest => c :: silence :: interleave silence rest
  end.

(** The environment of [env] with another answer of the page lookup. *)
Definition with_pages (env : Env) (r : PagesReply) : Env :=
  {| path_join := path_join env;
     Number_toString := Number_toString env;
     APP_URL := APP_URL env;
     mkdirSync_reply := mkdirSync_reply env;
     rmSync_reply := rmSync_reply env;
     listPages_reply := r;
     createSignedUrl_reply := createSignedUrl_reply env;
     fetch_reply := fetch_reply env;
     writeFileSync_reply := writeFileSync_reply env;
     readFileSync_reply := readFileSync_reply env;
     ffmpeg_reply := ffmpeg_reply env;
     ffprobe_reply := ffprobe_reply env;
     upload_reply := upload_reply env |}.

(** Every action of [tr] is made while the job record shows the step of
    its stage, the record showing [cur] before [tr]; and every step write
    is on the job [pid]. *)
Fixpoint staged (pid : string) (cur : option ProcessingStep) (tr : list Event) : Prop :=
  match tr with
  | [] => True
  | e :: tr' =>
      match stage_of e with
      | Some s => cur = Some s
      | None => True
      end /\
      match e with
      | EvUpdateStep p _ => p = pid
      | _ => True
      end /\
      staged pid (match step_of e with Some s => Some s | None => cur end) tr'
  end.

(** The step shown after [tr] when it was [cur] before. *)
Definition step_after (cur : option ProcessingStep) (tr : list Event)
  : option ProcessingStep :=
  last (map Some (steps_of tr)) cur.

(* ------------------------------------------------------------------ *)
(** ** A sample session *)

Module Sample.

(** [path.join] on segments that need no normalisation. *)
Definition join2 (a b : string) : string := a ++ "/" ++ b.

Fixpoint digits (k : nat) (n : Z) : string :=
  match k with
  | O => ""
  | S k' => digits k' (n / 10) ++ show_int (n mod 10)
  end.

Fixpoint strip_zeros (k : nat) (n : Z) : nat * Z :=
  match k with
  | O => (O, n)
  | S k' => if (n mod 10 =? 0)%Z then strip_zeros k' (n / 10) else (k, n)
  end.

(** The exact decimal expansion of a double; it is what JavaScript
    prints for the durations used below. *)
Definition print_number (x : float) : string :=
  match Prim2SF x with
  | S754_zero _ => "0"
  | S754_infinity false => "Infinity"
  | S754_infinity true => "-Infinity"
  | S754_nan => "NaN"
  | S754_finite sign m e =>
      (if sign then "-" else "") ++
      (if (0 <=? e)%Z then show_int (Z.pos m * 2 ^ e)
       else
         let k := Z.to_nat (- e) in
         let n := (Z.pos m * 5 ^ Z.of_nat k)%Z in
         let whole := (n / 10 ^ Z.of_nat k)%Z in
         let frac := (n mod 10 ^ Z.of_nat k)%Z in
         match strip_zeros k frac with
         | (O, _) => show_int whole
         | (k', f) => show_int whole ++ "." ++ digits k' f
         end)
  end.

Definition opts : ProcessOptions :=
  {| sessionId := "s1"; storyTitle := "The Owl"; readerName := Some "Ada";
     musicTrack := Some "calm"; purchaseId := "p1" |}.

Definition opts_no_music : ProcessOptions :=
  {| sessionId := "s1"; storyTitle := "The Owl"; readerName := None;
     musicTrack := None; purchaseId := "p1" |}.

Definition page (i : Z) : Page :=
  {| page_index := i;
     audio_url := Some ("s1/page-" ++ show_int i ++ ".webm");
     duration_seconds := None |}.

Definition three_pages : PagesReply :=
  {| pages_data := Some [page 0; page 1; page 2]; pages_error := None |}.

Definition fresh : Purchase :=
  {| processing_step := None; processing_status := Some "processing";
     error_message := None; final_audio_url := None |}.

Definition ok_response : Outcome Response :=
  Ok {| ok := true; arrayBuffer := Ok [Byte.x52; Byte.x49; Byte.x46; Byte.x46] |}.

Definition not_found : Outcome Response :=
  Ok {| ok := false; arrayBuffer := Ok [] |}.

(** A world in which every collaborator succeeds, but for the answers
    given as arguments. *)
Definition world (rm : option Thrown) (pages : PagesReply)
           (fetched : Site -> Outcome Response) (ffmpeg : Site -> option Thrown)
           (probe : Outcome (option float)) : Env :=
  {| path_join := join2;
     Number_toString := print_number;
     APP_URL := Some "https://voicehearth.example";
     mkdirSync_reply := None;
     rmSync_reply := rm;
     listPages_reply := pages;
     createSignedUrl_reply :=
       fun _ => {| signed_url := Some "https://storage.example/signed";
                   url_error := None |};
     fetch_reply := fetched;
     writeFileSync_reply := fun _ => None;
     readFileSync_reply := fun _ => Ok [Byte.x49; Byte.x44; Byte.x33];
     ffmpeg_reply := ffmpeg;
     ffprobe_reply := fun _ => probe;
     upload_reply := fun _ => None |}.

Definition happy : Env :=
  world None three_pages (fun _ => ok_response) (fun _ => None) (Ok (Some 12.5%float)).

(** The music file is missing: the server answers 404. *)
Definition music_missing : Env :=
  world None three_pages
        (fun s => match s with AtMusic => not_found | _ => ok_response end)
        (fun _ => None) (Ok (Some 12.5%float)).

(** The music host cannot be reached: [fetch] rejects. *)
Definition music_unreachable : Env :=
  world None three_pages
        (fun s => match s with
                  | AtMusic => Throws (JsError "fetch failed")
                  | _ => ok_response
                  end)
        (fun _ => None) (Ok (Some 12.5%float)).

(** No page has audio. *)
Definition no_audio : Env :=
  world None {| pages_data := Some []; pages_error := None |}
        (fun _ => ok_response) (fun _ => None) (Ok (Some 12.5%float)).

(** Transcoding the first page fails with an [Error] whose message is
    empty, and the scratch directory cannot be removed. *)
Definition stuck : Env :=
  world (Some (JsError "EBUSY: resource busy or locked, rmdir '/tmp/s1'"))
        three_pages (fun _ => ok_response)
        (fun s => match s with AtPage 0 => Some (JsError "") | _ => None end)
        (Ok (Some 12.5%float)).

(** A short voice track. *)
Definition short_voice : Env :=
  world None three_pages (fun _ => ok_response) (fun _ => None) (Ok (Some 3%float)).

(** A world like [happy] but for the signed URLs, the page responses,
    ffmpeg and the upload. *)
Definition world_of (signed : Site -> SignedUrlReply)
           (fetched : Site -> Outcome Response) (ffmpeg : Site -> option Thrown)
           (uploaded : Site -> option string) : Env :=
  {| path_join := join2;
     Number_toString := print_number;
     APP_URL := Some "https://voicehearth.example";
     mkdirSync_reply := None;
     rmSync_reply := None;
     listPages_reply := three_pages;
     createSignedUrl_reply := signed;
     fetch_reply := fetched;
     writeFileSync_reply := fun _ => None;
     readFileSync_reply := fun _ => Ok [Byte.x49; Byte.x44; Byte.x33];
     ffmpeg_reply := ffmpeg;
     ffprobe_reply := fun _ => Ok (Some 12.5%float);
     upload_reply := uploaded |}.

Definition granted : SignedUrlReply :=
  {| signed_url := Some "https://storage.example/signed"; url_error := None |}.

(** The encoder fails. *)
Definition encoder_fails : Env :=
  world_of (fun _ => granted) (fun _ => ok_response)
           (fun s => match s with
                     | AtEncode => Some (JsError "ffmpeg exited with code 1")
                     | _ => None
                     end)
           (fun _ => None).

(** The bucket refuses the upload. *)
Definition upload_fails : Env :=
  world_of (fun _ => granted) (fun _ => ok_response) (fun _ => None)
           (fun _ => Some "Bucket not found").

(** The signed URL of the second page is refused. *)
Definition url_refused : Env :=
  world_of (fun s => match s with
                     | AtPage 1 => {| signed_url := None;
                                      url_error := Some "Object not found" |}
                     | _ => granted
                     end)
           (fun _ => ok_response) (fun _ => None) (fun _ => None).

(** The audio of the third page is gone. *)
Definition page_gone : Env :=
  world_of (fun _ => granted)
           (fun s => match s with AtPage 2 => not_found | _ => ok_response end)
           (fun _ => None) (fun _ => None).

End Sample.

(** The calls of [tr] before, and after, the first one that satisfies [P]. *)
Fixpoint before (P : Event -> bool) (tr : list Event) : list Event :=
  match tr with
  | [] => []
  | e :: tr' => if P e then [] else e :: before P tr'
  end.

Fixpoint after (P : Event -> bool) (tr : list Event) : list Event :=
  match tr with
  | [] => []
  | e :: tr' => if P e then tr' else after P tr'
  end.

Definition is_music_fetch (e : Event) : bool :=
  match e with
  | EvFetch AtMusic _ => true
  | _ => false
  end.

Definition is_page_lookup (e : Event) : bool :=
  match e with
  | EvListPages _ => true
  | _ => false
  end.

(** C1 in the words of the specification: whenever an invocation throws,
    the job record is failed with a message that is not empty and the
    workspace directory is gone. *)
Definition C1_as_stated : Prop :=
  forall env o p0 exists0 e,
    fst (run env o p0 exists0) = Throws e ->
    processing_status (purchase (snd (run env o p0 exists0))) = Some "failed" /\
    (exists m, error_message (purchase (snd (run env o p0 exists0))) = Some m /\ m <> "") /\
    workspace_exists (snd (run env o p0 exists0)) = false.

(** C5 in the words of the specification: an invocation that succeeds
    returns the key [processed/{session}.mp3] and leaves the job completed
    with that key as its final reference and with no error message. *)
Definition C5_as_stated : Prop :=
  forall env o p0 exists0 k,
    fst (run env o p0 exists0) = Ok k ->
    k = "processed/" ++ sessionId o ++ ".mp3" /\
    processing_status (purchase (snd (run env o p0 exists0))) = Some "completed" /\
    final_audio_url (purchase (snd (run env o p0 exists0))) = Some k /\
    error_message (purchase (snd (run env o p0 exists0))) = None.

(** The job record that the failed run of the sample session leaves when
    the music host cannot be reached. *)
Definition after_failed_run : Purchase :=
  purchase (snd (run Sample.music_unreachable Sample.opts Sample.fresh false)).

(* ------------------------------------------------------------------ *)
(** ** Calls that fail *)

Definition is_throw {A} (r : Outcome A) : bool :=
  match r with
  | Throws _ => true
  | Ok _ => false
  end.

(** Whether the answer to the call [c] makes [processRecording] throw:
    a collaborator that raises, a page lookup without pages, a signed URL
    that is refused, a page response that is not [ok], a body that cannot
    be read, an upload that returns an error.  A music response that is
    not [ok] and a failing removal of the workspace do not. *)
Definition failing (env : Env) (c : Event) : bool :=
  match c with
  | EvMkdir _ => is_some (mkdirSync_reply env)
  | EvListPages _ => no_pages (listPages_reply env)
  | EvCreateSignedUrl site _ _ =>
      is_some (url_error (createSignedUrl_reply env site))
      || negb (truthy (signed_url (createSignedUrl_reply env site)))
  | EvFetch site _ =>
      match fetch_reply env site with
      | Throws _ => true
      | Ok r =>
          if ok r then is_throw (arrayBuffer r)
          else match site with AtMusic => false | _ => true end
      end
  | EvWriteFile site _ _ => is_some (writeFileSync_reply env site)
  | EvReadFile site _ => is_throw (readFileSync_reply env site)
  | EvFfmpeg site _ => is_some (ffmpeg_reply env site)
  | EvFfprobe site _ => is_throw (ffprobe_reply env site)
  | EvUpload site _ _ _ _ => is_some (upload_reply env site)
  | EvRm _ | EvUpdateStep _ _ | EvMarkFailed _ _
  | EvMarkCompleted _ _ | EvConsoleError _ _ => false
  end.

(** The error that [processRecording] throws when the call [c] fails. *)
Definition error_of (env : Env) (c : Event) (e : Thrown) : Prop :=
  match c with
  | EvMkdir _ => mkdirSync_reply env = Some e
  | EvListPages _ => e = JsError "No recording pages found for session"
  | EvCreateSignedUrl site _ _ =>
      exists k page,
        site = AtPage k /\
        nth_error (pages_of (listPages_reply env)) k = Some page /\
        e = JsError ("Failed to get signed URL for page " ++ show_int (page_index page))
  | EvFetch site _ =>
      fetch_reply env site = Throws e \/
      exists r,
        fetch_reply env site = Ok r /\
        ((ok r = true /\ arrayBuffer r = Throws e) \/
         (ok r = false /\
          exists k page,
            site = AtPage k /\
            nth_error (pages_of (listPages_reply env)) k = Some page /\
            e = JsError ("Failed to download page " ++ show_int (page_index page))))
  | EvWriteFile site _ _ => writeFileSync_reply env site = Some e
  | EvReadFile site _ => readFileSync_reply env site = Throws e
  | EvFfmpeg site _ => ffmpeg_reply env site = Some e
  | EvFfprobe site _ => ffprobe_reply env site = Throws e
  | EvUpload site _ _ _ _ =>
      exists message,
        upload_reply env site = Some message /\
        e = JsError ("Failed to upload processed MP3: " ++ message)
  | EvRm _ | EvUpdateStep _ _ | EvMarkFailed _ _
  | EvMarkCompleted _ _ | EvConsoleError _ _ => False
  end.

Definition all_ok (env : Env) (evs : list Event) : bool :=
  forallb (fun c => negb (failing env c)) evs.

(** How the calls [evs] of a computation relate to its result [r]: no
    call fails when it returns; when it throws, the last call is the one
    that fails, no call before it does, and the error is that call's. *)
Definition verdict (env : Env) {A} (evs : list Event) (r : Outcome A) : Prop :=
  match r with
  | Ok _ => all_ok env evs = true
  | Throws e =>
      evs <> [] /\
      all_ok env (removelast evs) = true /\
      failing env (last evs (EvRm "")) = true /\
      error_of env (last evs (EvRm "")) e
  end.

(* ------------------------------------------------------------------ *)
(** ** Arguments of the calls *)

Fixpoint count_spaces (s : string) : nat :=
  match s with
  | EmptyString => 0
  | String c rest => (if Ascii.eqb c " " then 1 else 0) + count_spaces rest
  end.

Fixpoint has_slash (s : string) : bool :=
  match s with
  | EmptyString => false
  | String c rest => Ascii.eqb c "/" || has_slash rest
  end.

(** A file name that is one segment of a path: it has no separator and
    is neither empty nor one of the names "." and "..". *)
Definition plain_name (name : string) : bool :=
  negb (has_slash name) && negb (name =? "") && negb (name =? ".") && negb (name =? "..").

(** [p] is what [path.join(tmpDir, name)] returns for a plain file name:
    an entry of the session's scratch directory. *)
Definition in_workspace (env : Env) (o : ProcessOptions) (p : string) : Prop :=
  exists name, plain_name name = true /\ p = path_join env (tmp_dir env o) name.

(** The artist, among the metadata of the encoder. *)
Definition artist_options (o : ProcessOptions) : list string :=
  if truthy (readerName o)
  then ["-metadata"; "artist=Read by " ++ show_opt (readerName o)]
  else [].

(** The output options of the command submitted at [site], as
    fluent-ffmpeg holds them. *)
Definition output_options_at (o : ProcessOptions) (site : Site) : list string :=
  match site with
  | AtEncode => Builder.split_options (metadata_options o)
  | AtMusic => ["-map"; "[out]"]
  | _ => []
  end.

(** The canonical working format: one channel at 44.1 kHz. *)
Definition canonical (cmd : FfmpegCommand) : Prop :=
  cmd_audioChannels cmd = Some 1%Z /\ cmd_audioFrequency cmd = Some 44100%Z.

(** What [processRecording] passes to its collaborators. *)
Definition event_wf (env : Env) (o : ProcessOptions) (e : Event) : Prop :=
  match e with
  | EvMkdir p | EvRm p => p = tmp_dir env o
  | EvUpdateStep pid _ | EvMarkFailed pid _ | EvMarkCompleted pid _ => pid = purchaseId o
  | EvConsoleError s _ | EvListPages s => s = sessionId o
  | EvCreateSignedUrl site audio ttl =>
      ttl = 300%Z /\
      exists k page,
        site = AtPage k /\
        nth_error (pages_of (listPages_reply env)) k = Some page /\
        audio = audio_url page
  | EvFetch site url =>
      match site with
      | AtMusic => url = music_url env o
      | _ => url = show_opt (signed_url (createSignedUrl_reply env site))
      end
  | EvWriteFile _ p _ | EvReadFile _ p | EvFfprobe _ p => in_workspace env o p
  | EvFfmpeg site cmd =>
      canonical cmd /\
      (exists p, cmd_output cmd = Some p /\ in_workspace env o p) /\
      match site with
      | AtEncode => cmd_format cmd = Some "mp3" /\ cmd_audioBitrate cmd = Some "192k"
      | _ => cmd_format cmd = Some "wav" /\ cmd_audioBitrate cmd = None
      end /\
      match site with
      | AtSilence =>
          cmd_inputs cmd = ["anullsrc=r=44100:cl=mono"] /\ cmd_inputFormat cmd = Some "lavfi"
      | _ => Forall (in_workspace env o) (cmd_inputs cmd) /\ cmd_inputFormat cmd = None
      end /\
      cmd_outputOptions cmd = output_options_at o site
  | EvUpload _ _ _ _ _ => True
  end.

(** The calls of the [catch] block. *)
Definition catch_calls (o : ProcessOptions) (r : Outcome string) : list Event :=
  match r with
  | Ok _ => []
  | Throws e => [EvConsoleError (sessionId o) (message_of e);
                 EvMarkFailed (purchaseId o) (message_of e)]
  end.

(** [m] extends the trace by calls that are well formed and that agree
    with its result. *)
Definition call_spec (env : Env) (o : ProcessOptions) {A} (m : M A) : Prop :=
  forall w, exists evs,
    trace (snd (m w)) = (trace w ++ evs)%list /\
    verdict env evs (fst (m w)) /\
    Forall (event_wf env o) evs.

(** Iteration [k] of the page loop goes through. *)
Definition page_goes_through (env : Env) (k : nat) : Prop :=
  failing env (EvCreateSignedUrl (AtPage k) None 300) = false /\
  failing env (EvFetch (AtPage k) "") = false /\
  writeFileSync_reply env (AtPage k) = None /\
  ffmpeg_reply env (AtPage k) = None.

(** The body that iteration [k] downloads, when it goes through. *)
Definition page_buffer (env : Env) (k : nat) : Buffer :=
  match fetch_reply env (AtPage k) with
  | Ok r => match arrayBuffer r with Ok b => b | Throws _ => [] end
  | Throws _ => []
  end.

(** The calls of iteration [k] on [page], when it goes through. *)
Definition page_calls (env : Env) (tmpDir : string) (k : nat) (page : Page)
  : list Event :=
  let rawPath := path_join env tmpDir ("page-" ++ show_int (page_index page) ++ ".raw") in
  [EvCreateSignedUrl (AtPage k) (audio_url page) 300;
   EvFetch (AtPage k) (show_opt (signed_url (createSignedUrl_reply env (AtPage k))));
   EvWriteFile (AtPage k) rawPath (Bytes (page_buffer env k));
   EvFfmpeg (AtPage k) (normalize_command rawPath (wav_path env tmpDir page))].

Fixpoint loop_calls (env : Env) (tmpDir : string) (k : nat) (pages : list Page)
  : list Event :=
  match pages with
  | [] => []
  | page :: rest => (page_calls env tmpDir k page ++ loop_calls env tmpDir (S k) rest)%list
  end.

Fixpoint count (P : Event -> bool) (tr : list Event) : nat :=
  match tr with
  | [] => 0
  | e :: tr' => (if P e then 1 else 0) + count P tr'
  end.

Definition is_mkdir (e : Event) : bool :=
  match e with EvMkdir _ => true | _ => false end.

Definition is_rm (e : Event) : bool :=
  match e with EvRm _ => true | _ => false end.

Definition is_completed (e : Event) : bool :=
  match e with EvMarkCompleted _ _ => true | _ => false end.

Definition is_failed (e : Event) : bool :=
  match e with EvMarkFailed _ _ => true | _ => false end.

(** The environment of [env] with another outcome of the removal of the
    workspace. *)
Definition with_rm (env : Env) (r : option Thrown) : Env :=
  {| path_join := path_join env;
     Number_toString := Number_toString env;
     APP_URL := APP_URL env;
     mkdirSync_reply := mkdirSync_reply env;
     rmSync_reply := r;
     listPages_reply := listPages_reply env;
     createSignedUrl_reply := createSignedUrl_reply env;
     fetch_reply := fetch_reply env;
     writeFileSync_reply := writeFileSync_reply env;
     readFileSync_reply := readFileSync_reply env;
     ffmpeg_reply := ffmpeg_reply env;
     ffprobe_reply := ffprobe_reply env;
     upload_reply := upload_reply env |}.

(* ------------------------------------------------------------------ *)
(** ** The HTTP entry point ([index.ts])

    A request to [POST /process] goes through [express.json()], then
    through [authenticate], then through the route.  [req.body] is
    whatever JSON the client sent: nothing makes its fields strings. *)

(** A value of [req.body] or of one of its properties: what [JSON.parse]
    builds, and [undefined] for what is absent.  An object holds one
    property per name. *)
#[warnings="-register-all"] Inductive JsonValue : Type :=
| JUndefined
| JNull
| JBool (b : bool)
| JNumber (x : float)
| JString (s : string)
| JArray (items : list JsonValue)
| JObject (properties : list (string * JsonValue)).

(** [!v] is false. *)
Definition truthy_value (v : JsonValue) : bool :=
  match v with
  | JUndefined | JNull => false
  | JBool b => b
  | JNumber x => truthy_number x
  | JString s => truthy_string s
  | JArray _ | JObject _ => true
  end.

(** [`${v}`], the text of [v] in a template literal; [number] prints the
    numbers. *)
Fixpoint text_of (number : float -> string) (v : JsonValue) : string :=
  match v with
  | JUndefined => "undefined"
  | JNull => "null"
  | JBool true => "true"
  | JBool false => "false"
  | JNumber x => number x
  | JString s => s
  | JArray items =>
      join "," (map (fun item =>
                       match item with
                       | JUndefined | JNull => ""
                       | _ => text_of number item
                       end) items)
  | JObject _ => "[object Object]"
  end.

Fixpoint property (key : string) (properties : list (string * JsonValue)) : JsonValue :=
  match properties with
  | [] => JUndefined
  | (name, v) :: rest => if name =? key then v else property key rest
  end.

(** [v.key], for the keys the route reads, on a value that is neither
    [undefined] nor [null]. *)
Definition get (v : JsonValue) (key : string) : JsonValue :=
  match v with
  | JObject properties => property key properties
  | _ => JUndefined
  end.

(** What [express.json()] makes of the request: it fails, and Express
    answers with the status of the error (400 for a body that does not
    parse), or it leaves a value in [req.body]. *)
Inductive BodyParser : Type :=
| ParseFails (status : Z)
| ParseLeaves (body : JsonValue).

Record Request : Type := {
  authorization : option string;
  parsed : BodyParser
}.

Definition body (req : Request) : JsonValue :=
  match parsed req with
  | ParseLeaves b => b
  | ParseFails _ => JUndefined
  end.

(** The [TypeError]s the runtime throws at the route: for the
    destructuring of a body that is [undefined] or [null], and for
    [path.join("/tmp", v)] when [v] is not a string. *)
Record TypeErrors : Type := {
  cannot_destructure : JsonValue -> Thrown;
  invalid_path : JsonValue -> Thrown
}.

(** The JSON payloads the server answers with. *)
Inductive Json : Type :=
| JsonFailure (error : string)
| JsonStarted (message : string).

(** What the server does while it handles a request: the route answers,
    Express answers to the error of a middleware, [processRecording]
    makes its calls, the route logs, or the promise of the route is
    rejected. *)
Inductive ServerEvent : Type :=
| SvReply (status : Z) (payload : Json)
| SvErrorReply (status : Z)
| SvCall (e : Event)
| SvLog (line : string)
| SvLogError (line : string) (error : Thrown)
| SvRejection (error : Thrown).

(** A handler, given the request, the [purchases] row and whether the
    scratch directory exists, yields what the server did and what it
    left; [None] for a request that the embedding of the pipeline has no
    counterpart for (see [representable]). *)
Definition Handler : Type :=
  Request -> Purchase -> bool -> option (list ServerEvent * Purchase * bool).

(** [app.use(express.json())]. *)
Definition express_json (next : Handler) : Handler :=
  fun req p exists0 =>
    match parsed req with
    | ParseFails status => Some ([SvErrorReply status], p, exists0)
    | ParseLeaves _ => next req p exists0
    end.

(** The middleware [authenticate]; [next] is the rest of the chain and
    [API_KEY] is the key the server started with (it exits at start when
    there is none). *)
Definition authenticate (API_KEY : string) (next : Handler) : Handler :=
  fun req p exists0 =>
    let authHeader := authorization req in
    if negb (truthy authHeader) || negb (show_opt authHeader =? "Bearer " ++ API_KEY)
    then Some ([SvReply 401 (JsonFailure "Unauthorized")], p, exists0)
    else next req p exists0.

(** An optional field of the options, as the pipeline uses it: it tests
    it for truthiness and prints it in a template. *)
Definition optional_text (number : float -> string) (v : JsonValue) : option string :=
  if truthy_value v then Some (text_of number v) else None.

(** The embedding of [processRecording] takes [readerName] and
    [musicTrack] as texts, truthy when they are not empty.  A value that
    is truthy and prints as the empty text (an array such as [[]]) has no
    counterpart there. *)
Definition representable (number : float -> string) (v : JsonValue) : bool :=
  negb (truthy_value v) || truthy_string (text_of number v).

(** The options the route passes to [processRecording], of which the
    pipeline reads these five.  It uses [storyTitle], [readerName] and
    [musicTrack] in templates only, and [purchaseId] in the filter
    [eq("id", purchaseId)], which the client writes as [`eq.${value}`]. *)
Definition process_options (env : Env) (session : string) (b : JsonValue)
  : ProcessOptions :=
  {| sessionId := session;
     storyTitle := text_of (Number_toString env) (get b "storyTitle");
     readerName := optional_text (Number_toString env) (get b "readerName");
     musicTrack := optional_text (Number_toString env) (get b "musicTrack");
     purchaseId := text_of (Number_toString env) (get b "purchaseId") |}.

(** The handler of [POST /process].  [processRecording] computes
    [path.join("/tmp", sessionId)] before its [try] block: a [sessionId]
    that is not a string makes it throw there, before any call and
    outside the [catch] block that records failures. *)
Definition process_route (errors : TypeErrors) (env : Env) : Handler :=
  fun req p exists0 =>
    let b := body req in
    match b with
    | JUndefined | JNull =>
        Some ([SvRejection (cannot_destructure errors b)], p, exists0)
    | _ =>
        let sessionId := get b "sessionId" in
        let storyTitle := get b "storyTitle" in
        let purchaseId := get b "purchaseId" in
        if negb (truthy_value sessionId) || negb (truthy_value storyTitle)
           || negb (truthy_value purchaseId)
        then
          Some ([SvReply 400
                   (JsonFailure "sessionId, storyTitle, and purchaseId are required")],
                p, exists0)
        else
          match sessionId with
          | JString session =>
              if representable (Number_toString env) (get b "readerName")
                 && representable (Number_toString env) (get b "musicTrack")
              then
                let r :=
                  processRecording env (process_options env session b)
                                   (initial p exists0) in
                Some ((SvReply 200 (JsonStarted "Processing started")
                         :: map SvCall (trace (snd r))
                         ++ [match fst r with
                             | Ok audioPath =>
                                 SvLog ("Completed processing for session "
                                          ++ session ++ ": " ++ audioPath)
                             | Throws error =>
                                 SvLogError ("Processing failed for session "
                                               ++ session ++ ":") error
                             end])%list,
                      purchase (snd r), workspace_exists (snd r))
              else None
          | _ =>
              Some ([SvReply 200 (JsonStarted "Processing started");
                     SvLogError ("Processing failed for session "
                                   ++ text_of (Number_toString env) sessionId ++ ":")
                                (invalid_path errors sessionId)],
                    p, exists0)
          end
    end.

(** [app.use(express.json())] and
    [app.post("/process", authenticate, ...)]. *)
Definition post_process (errors : TypeErrors) (API_KEY : string) (env : Env) : Handler :=
  express_json (authenticate API_KEY (process_route errors env)).



(** The request is let through by [express.json()], by [authenticate]
    and by the check of the required fields. *)
Definition accepted (API_KEY : string) (req : Request) : Prop :=
  (exists b, parsed req = ParseLeaves b) /\
  authorization req = Some ("Bearer " ++ API_KEY) /\
  truthy_value (get (body req) "sessionId") = true /\
  truthy_value (get (body req) "storyTitle") = true /\
  truthy_value (get (body req) "purchaseId") = true.

(** Sample requests, for a server whose key is "secret". *)
Module Requests.

Definition quote : string := String (ascii_of_nat 34) EmptyString.

Definition errors : TypeErrors :=
  {| cannot_destructure :=
       fun _ => JsError "Cannot destructure property 'sessionId' of 'req.body' as it is undefined.";
     invalid_path :=
       fun _ => JsError ("The " ++ quote ++ "path" ++ quote
                           ++ " argument must be of type string. Received type number (123)") |}.

Definition fields : JsonValue :=
  JObject [("sessionId", JString "s1");
           ("storyTitle", JString "The Owl");
           ("readerName", JString "Ada");
           ("musicTrack", JString "calm");
           ("musicVolume", JNumber 0.5%float);
           ("purchaseId", JString "p1")].


(** The same request without a purchase. *)
Definition request_without_purchase : Request :=
  {| authorization := Some "Bearer secret";
     parsed := ParseLeaves (JObject [("sessionId", JString "s1");
                                     ("storyTitle", JString "The Owl")]) |}.

(** A request with another key. *)
Definition request_with_wrong_key : Request :=
  {| authorization := Some "Bearer guess"; parsed := ParseLeaves fields |}.

(** A request with another key and a body that is not JSON. *)
Definition request_unparsable : Request :=
  {| authorization := Some "Bearer guess"; parsed := ParseFails 400 |}.

(** A request whose session is a number. *)
Definition request_with_numeric_session : Request :=
  {| authorization := Some "Bearer secret";
     parsed := ParseLeaves (JObject [("sessionId", JNumber 123%float);
                                     ("storyTitle", JString "The Owl");
                                     ("purchaseId", JString "p1")]) |}.

End Requests.

(* ================================================================== *)
(** * Proofs *)

Local Arguments String.append : simpl never.

(** ** Lists of steps *)

Lemma steps_of_app (a b : list Event) :
  steps_of (a ++ b) = (steps_of a ++ steps_of b)%list.
Proof.
  induction a as [|e a IH]; simpl; [reflexivity|].
  destruct (step_of e); simpl; now rewrite IH.
Qed.

Lemma steps_of_stage_events (s : ProcessingStep) (P : Event -> Prop) (evs : list Event) :
  Forall (fun e => stage_of e = Some s /\ P e) evs -> steps_of evs = [].
Proof.
  induction 1 as [|e evs [He _] _ IH]; simpl; [reflexivity|].
  destruct e; simpl in *; try discriminate; exact IH.
Qed.

Lemma steps_of_flatten env o pid secs :
  Forall (section_ok env o) secs -> steps_of (flatten pid secs) = map fst secs.
Proof.
  induction 1 as [|[s evs] secs Hs _ IH]; simpl; [reflexivity|].
  rewrite steps_of_app, IH.
  unfold section_ok in Hs; cbn [fst snd] in *.
  now rewrite (@steps_of_stage_events s _ evs Hs).
Qed.

Lemma prefix_nil {A} (l : list A) : prefix [] l.
Proof. now exists l. Qed.

Lemma prefix_refl {A} (l : list A) : prefix l l.
Proof. exists []. now rewrite app_nil_r. Qed.

Lemma prefix_cons {A} (a : A) (l1 l2 : list A) : prefix l1 l2 -> prefix (a :: l1) (a :: l2).
Proof. intros [l ->]. now exists l. Qed.

Lemma increasing_prefix (l1 l2 : list ProcessingStep) :
  prefix l1 l2 -> increasing l2 -> increasing l1.
Proof.
  intros [l ->]. revert l.
  induction l1 as [|s l1 IH]; intros l H; simpl; [exact I|].
  simpl in H. destruct H as [H1 H2]. split.
  - destruct l1; [exact I | exact H1].
  - now apply (IH l).
Qed.

Lemma increasing_expected (o : ProcessOptions) : increasing (expected_steps o).
Proof.
  unfold expected_steps. destruct (truthy (musicTrack o)); simpl; repeat split; lia.
Qed.

Lemma pipeline_error_message (e : Thrown) : pipeline_error e -> message_of e <> "".
Proof.
  destruct 1; cbn; discriminate.
Qed.

(** ** The monad's primitive steps *)

Ltac exec :=
  unfold updateStep, markFailed, markCompleted, runFfmpeg, getAudioDuration,
    mkdirSync, rmSync, writeFileSync, readFileSync, fetch, listPages,
    createSignedUrl, upload, console_error, update_purchase, set_workspace,
    emit, settle, raise_if, bind, ret, throw, try_catch, try_finally in *;
  cbn [fst snd trace purchase workspace_exists] in *.

Ltac split_reply :=
  match goal with
  | |- context [match ?x with _ => _ end] =>
      lazymatch x with
      | context [match _ with _ => _ end] => fail
      | _ => destruct x eqn:?
      end
  | |- context [if ?x then _ else _] =>
      lazymatch x with
      | context [if _ then _ else _] => fail
      | _ => destruct x eqn:?
      end
  end;
  cbn [fst snd trace purchase workspace_exists] in *.

Ltac norm_trace :=
  repeat rewrite <- app_assoc; cbn [app].

Create HintDb errors.
#[local] Hint Constructors pipeline_error raised_by : errors.

Ltac provenance :=
  let e := fresh "e" in
  let H := fresh "H" in
  intros e H; try discriminate H; injection H as <-;
  solve [ left; constructor | right; eauto with errors ].

(** Gives a name to the world a computation is resumed in. *)
Ltac name_world w' :=
  match goal with
  | |- context [Build_World ?t ?p ?x] =>
      let Ew := fresh "Ew" in
      remember (Build_World t p x) as w' eqn:Ew;
      let Ht := fresh "Htrace" in
      let Hp := fresh "Hpurchase" in
      let Hx := fresh "Hexists" in
      pose proof (f_equal trace Ew) as Ht;
      pose proof (f_equal purchase Ew) as Hp;
      pose proof (f_equal workspace_exists Ew) as Hx;
      cbn [trace purchase workspace_exists] in Ht, Hp, Hx; clear Ew
  end.

(** Closes a branch whose events are all on display. *)
Ltac finish_branch :=
  eexists; norm_trace;
  split; [reflexivity|];
  split; [repeat constructor|];
  split; [reflexivity|];
  split; [reflexivity|];
  split; [try discriminate | try discriminate; try provenance].

Section StageProofs.

Variable env : Env.
Variable o : ProcessOptions.

Lemma download_pages_spec (pages : list Page) :
  forall k wavFiles w, exists evs,
    let r := download_pages env (tmp_dir env o) k pages wavFiles w in
    trace (snd r) = (trace w ++ evs)%list /\
    Forall (fun e => stage_of e = Some downloading /\ event_ok env o e) evs /\
    purchase (snd r) = purchase w /\
    workspace_exists (snd r) = workspace_exists w /\
    (forall a, fst r = Ok a ->
               a = (wavFiles ++ map (wav_path env (tmp_dir env o)) pages)%list) /\
    (forall e, fst r = Throws e -> pipeline_error e \/ raised_by env e).
Proof.
  induction pages as [|page rest IH]; intros k wavFiles w.
  - exists []. cbn. rewrite !app_nil_r. repeat split; try constructor.
    + intros a [= <-]. reflexivity.
    + discriminate.
  - cbn [download_pages]. exec.
    repeat split_reply; try solve [finish_branch].
    name_world w1.
    match goal with
    | |- context [download_pages _ _ _ _ ?ws w1] =>
        destruct (IH (S k) ws w1) as (evs & Ht & Hf & Hp & Hw & Hok & Herr)
    end.
    eexists. rewrite Ht, Hp, Hw, Htrace, Hpurchase, Hexists. norm_trace.
    split; [reflexivity|].
    split; [repeat (constructor; [split; [reflexivity|exact I]|]); exact Hf|].
    split; [reflexivity|].
    split; [reflexivity|].
    split; [|exact Herr].
    intros x Hx. rewrite (Hok x Hx), <- app_assoc. reflexivity.
Qed.

Lemma step_download_spec :
  stage_spec env o downloading
    (fun wavFiles =>
       no_pages (listPages_reply env) = false /\
       wavFiles = map (wav_path env (tmp_dir env o)) (pages_of (listPages_reply env)))
    (step_download env o (tmp_dir env o)).
Proof.
  intros w. unfold step_download. exec.
  split_reply; [finish_branch|].
  name_world w1.
  match goal with
  | |- context [download_pages _ _ _ ?ps ?ws w1] =>
      destruct (download_pages_spec ps 0 ws w1) as (evs & Ht & Hf & Hp & Hw & Hok & Herr)
  end.
  cbn zeta in *.
  eexists. rewrite Ht, Hp, Hw, Htrace, Hpurchase, Hexists. norm_trace.
  split; [reflexivity|].
  split; [constructor; [split; [reflexivity|exact I]|exact Hf]|].
  split; [reflexivity|].
  split; [reflexivity|].
  split; [|exact Herr].
  intros x Hx. split; [reflexivity|]. exact (Hok x Hx).
Qed.

Lemma step_stitch_spec (wavFiles : list string) :
  no_pages (listPages_reply env) = false ->
  wavFiles = map (wav_path env (tmp_dir env o)) (pages_of (listPages_reply env)) ->
  stage_spec env o stitching
    (fun p => p = path_join env (tmp_dir env o) "concatenated.wav")
    (step_stitch env o (tmp_dir env o) wavFiles).
Proof.
  intros Hn -> w. unfold step_stitch. exec.
  repeat split_reply.
  all: eexists; norm_trace.
  all: split; [reflexivity|].
  all: split; [repeat (constructor; [split; [reflexivity|cbn; auto]|]); constructor|].
  all: repeat split; try discriminate; try provenance.
  intros x [= <-]. reflexivity.
Qed.

Ltac event_facts :=
  cbn;
  first [ exact I
        | reflexivity
        | repeat split; reflexivity
        | do 2 eexists; repeat split; first [eassumption | reflexivity] ].

Ltac stage_events :=
  repeat (constructor; [split; [reflexivity|event_facts]|]); constructor.

Lemma step_polish_spec (concatenatedPath : string) :
  stage_spec env o polishing
    (fun p => p = path_join env (tmp_dir env o) "polished.wav")
    (step_polish env o (tmp_dir env o) concatenatedPath).
Proof.
  intros w. unfold step_polish. exec.
  repeat split_reply.
  all: eexists; norm_trace.
  all: split; [reflexivity|].
  all: split; [stage_events|].
  all: repeat split; try discriminate; try provenance.
  intros x [= <-]. reflexivity.
Qed.

Lemma mix_music_spec (polishedPath : string) :
  truthy (musicTrack o) = true ->
  polishedPath = path_join env (tmp_dir env o) "polished.wav" ->
  stage_spec env o mixing_music
    (fun p => p = encoder_input env o)
    (updateStep (purchaseId o) mixing_music ;;
     mix_music env o (tmp_dir env o) polishedPath).
Proof.
  intros Hm -> w. unfold mix_music. exec.
  repeat split_reply.
  all: eexists; norm_trace.
  all: split; [reflexivity|].
  all: split; [stage_events|].
  all: repeat split; try discriminate; try provenance.
  all: intros x [= <-]; unfold encoder_input; rewrite Hm.
  all: match goal with H : fetch_reply _ _ = _ |- _ => rewrite H end.
  all: match goal with H : ok _ = _ |- _ => rewrite H end; reflexivity.
Qed.

Lemma step_mix_skipped (polishedPath : string) :
  truthy (musicTrack o) = false ->
  polishedPath = path_join env (tmp_dir env o) "polished.wav" ->
  forall w, step_mix env o (tmp_dir env o) polishedPath w = (Ok (encoder_input env o), w).
Proof.
  intros Hm -> w. unfold step_mix, encoder_input. rewrite Hm. reflexivity.
Qed.

Lemma step_encode_spec (inputForEncode : string) :
  inputForEncode = encoder_input env o ->
  stage_spec env o encoding
    (fun p => p = path_join env (tmp_dir env o) "output.mp3")
    (step_encode env o (tmp_dir env o) inputForEncode).
Proof.
  intros -> w. unfold step_encode. exec.
  repeat split_reply.
  all: eexists; norm_trace.
  all: split; [reflexivity|].
  all: split; [stage_events|].
  all: repeat split; try discriminate; try provenance.
  intros x [= <-]. reflexivity.
Qed.

Lemma step_upload_spec (mp3Path : string) :
  stage_spec env o uploading
    (fun k => k = output_storage_path o)
    (step_upload env o mp3Path).
Proof.
  intros w. unfold step_upload. exec.
  repeat split_reply.
  all: eexists; norm_trace.
  all: split; [reflexivity|].
  all: split; [stage_events|].
  all: repeat split; try discriminate; try provenance.
  intros x [= <-]. reflexivity.
Qed.

(** ** Composition of the stages *)

Lemma run_spec_done (out : string) :
  out = output_storage_path o ->
  run_spec env o [] (markCompleted (purchaseId o) out ;; ret out).
Proof.
  intros -> w. exists []. exec. cbn. norm_trace.
  split; [reflexivity|].
  split; [constructor|].
  split; [apply prefix_nil|].
  split; [reflexivity|].
  split; [reflexivity|].
  split; [|discriminate].
  intros x [= <-]. split; reflexivity.
Qed.

Lemma run_spec_stage {A} (s : ProcessingStep) (Q : A -> Prop) (m : M A)
      (k : A -> M string) (steps : list ProcessingStep) :
  stage_spec env o s Q m ->
  (forall a, Q a -> run_spec env o steps (k a)) ->
  run_spec env o (s :: steps) (bind m k).
Proof.
  intros Hm Hk w.
  destruct (Hm w) as (evs & Ht & Hf & Hp & Hw & HQ & He).
  unfold bind. destruct (m w) as [[a|e] w1]; cbn [fst snd] in *.
  - destruct (Hk a (HQ a eq_refl) w1) as (secs & Ht' & Hf' & Hpre & Hp' & Hw' & Hok & He').
    exists ((s, evs) :: secs).
    rewrite Ht', Hp', Hw', Ht, Hp, Hw. cbn. norm_trace.
    split; [reflexivity|].
    split; [constructor; assumption|].
    split; [now apply prefix_cons|].
    split; [reflexivity|].
    split; [reflexivity|].
    split; [|exact He'].
    intros x Hx. destruct (Hok x Hx) as [-> ->]. split; reflexivity.
  - exists [(s, evs)].
    rewrite Ht, Hp, Hw. cbn. norm_trace. rewrite !app_nil_r.
    split; [reflexivity|].
    split; [repeat constructor; assumption|].
    split; [apply prefix_cons, prefix_nil|].
    split; [reflexivity|].
    split; [reflexivity|].
    split; [discriminate|].
    intros e' [= <-]. now apply He.
Qed.

Lemma k_upload_spec (mp3Path : string) :
  run_spec env o [uploading] (k_upload env o mp3Path).
Proof.
  unfold k_upload. eapply run_spec_stage; [apply step_upload_spec|].
  intros a Ha. now apply run_spec_done.
Qed.

Lemma k_encode_spec (inputForEncode : string) :
  inputForEncode = encoder_input env o ->
  run_spec env o [encoding; uploading] (k_encode env o inputForEncode).
Proof.
  intros Hi. unfold k_encode.
  eapply run_spec_stage; [now apply step_encode_spec|].
  intros a _. apply k_upload_spec.
Qed.

Lemma k_mix_spec (polishedPath : string) :
  polishedPath = path_join env (tmp_dir env o) "polished.wav" ->
  run_spec env o (steps_from_mix o) (k_mix env o polishedPath).
Proof.
  intros Hp. unfold k_mix, steps_from_mix.
  destruct (truthy (musicTrack o)) eqn:Hm.
  - unfold step_mix. rewrite Hm. cbn [app].
    eapply run_spec_stage; [now apply mix_music_spec|].
    intros a Ha. now apply k_encode_spec.
  - cbn [app]. intros w. unfold bind.
    rewrite (step_mix_skipped Hm Hp).
    now apply k_encode_spec.
Qed.

Lemma k_polish_spec (concatenatedPath : string) :
  run_spec env o (polishing :: (steps_from_mix o)) (k_polish env o concatenatedPath).
Proof.
  unfold k_polish. eapply run_spec_stage; [apply step_polish_spec|].
  intros a Ha. now apply k_mix_spec.
Qed.

Lemma k_stitch_spec (wavFiles : list string) :
  no_pages (listPages_reply env) = false ->
  wavFiles = map (wav_path env (tmp_dir env o)) (pages_of (listPages_reply env)) ->
  run_spec env o (stitching :: polishing :: (steps_from_mix o)) (k_stitch env o wavFiles).
Proof.
  intros Hn Hw. unfold k_stitch.
  eapply run_spec_stage; [now apply step_stitch_spec|].
  intros a Ha. apply k_polish_spec.
Qed.

Lemma k_download_spec : run_spec env o (expected_steps o) (k_download env o).
Proof.
  unfold k_download.
  change (expected_steps o) with (downloading :: stitching :: polishing :: (steps_from_mix o)).
  eapply run_spec_stage; [apply step_download_spec|].
  intros a [Hn Ha]. now apply k_stitch_spec.
Qed.

End StageProofs.

(** ** The shape of every run *)

Lemma try_block_unfold env o :
  try_block env o = (mkdirSync env (tmp_dir env o) ;; k_download env o).
Proof. reflexivity. Qed.

Theorem run_structure (env : Env) (o : ProcessOptions) (p0 : Purchase) (exists0 : bool) :
  exists secs,
    trace (snd (run env o p0 exists0)) =
      (EvMkdir (tmp_dir env o) :: flatten (purchaseId o) secs
         ++ ending o (fst (run env o p0 exists0)) ++ [EvRm (tmp_dir env o)])%list /\
    Forall (section_ok env o) secs /\
    prefix (map fst secs) (expected_steps o) /\
    purchase (snd (run env o p0 exists0)) =
      settle_job (fst (run env o p0 exists0)) (record_steps (map fst secs) p0) /\
    workspace_exists (snd (run env o p0 exists0)) = workspace_after env exists0 /\
    (forall k, fst (run env o p0 exists0) = Ok k ->
               map fst secs = expected_steps o /\ k = output_storage_path o) /\
    (forall e, fst (run env o p0 exists0) = Throws e ->
               pipeline_error e \/ raised_by env e).
Proof.
  unfold run, processRecording, finally_block, catch_block, workspace_after, initial.
  rewrite try_block_unfold. exec.
  destruct (mkdirSync_reply env) as [e0|] eqn:Hmk; cbn [fst snd trace purchase workspace_exists].
  - exists []. destruct (rmSync_reply env) eqn:Hrm; cbn.
    all: split; [reflexivity|].
    all: split; [constructor|].
    all: split; [apply prefix_nil|].
    all: split; [reflexivity|].
    all: split; [reflexivity|].
    all: split; [discriminate|].
    all: intros e' [= <-]; right; eauto with errors.
  - name_world w1.
    destruct (k_download_spec env o w1) as (secs & Ht & Hf & Hpre & Hp & Hw & Hok & Herr).
    exists secs.
    destruct (k_download env o w1) as [[k|e] w2]; cbn [fst snd completion complete] in *.
    all: destruct (rmSync_reply env) eqn:Hrm; cbn [fst snd trace purchase workspace_exists].
    all: rewrite ?Ht, ?Hp, ?Hw, ?Htrace, ?Hpurchase, ?Hexists; cbn; norm_trace.
    all: rewrite ?app_nil_r.
    all: split; [reflexivity|].
    all: split; [assumption|].
    all: split; [assumption|].
    all: split; [reflexivity|].
    all: split; [reflexivity|].
    all: split; [first [exact Hok | discriminate] | first [exact Herr | discriminate]].
Qed.

(** ** Consequences of the shape *)

Unset Implicit Arguments.

(** What a stage returns. *)
Lemma stage_spec_result (env : Env) (o : ProcessOptions) {A} (s : ProcessingStep)
      (Q : A -> Prop) (m : M A) :
  stage_spec env o s Q m -> forall w a, fst (m w) = Ok a -> Q a.
Proof.
  intros H w a Ha. destruct (H w) as (evs & _ & _ & _ & _ & HQ & _). now apply HQ.
Qed.

Lemma in_flatten env o pid secs e :
  Forall (section_ok env o) secs -> In e (flatten pid secs) ->
  (exists s, e = EvUpdateStep pid s) \/
  (exists s, stage_of e = Some s /\ event_ok env o e).
Proof.
  induction 1 as [|[s evs] secs Hs _ IH]; cbn; [tauto|].
  intros [<-|Hin]; [left; now exists s|].
  apply in_app_or in Hin. destruct Hin as [Hin|Hin]; [|now apply IH].
  right. exists s. unfold section_ok in Hs. cbn in Hs.
  rewrite Forall_forall in Hs. now apply Hs.
Qed.

(** Every call of a run is the creation or removal of the workspace, a
    step write, a call of some stage, or one of the closing calls. *)
Lemma run_events env o p0 exists0 e :
  In e (trace (snd (run env o p0 exists0))) ->
  e = EvMkdir (tmp_dir env o) \/
  (exists s, e = EvUpdateStep (purchaseId o) s) \/
  (exists s, stage_of e = Some s /\ event_ok env o e) \/
  In e (ending o (fst (run env o p0 exists0))) \/
  e = EvRm (tmp_dir env o).
Proof.
  destruct (run_structure env o p0 exists0) as (secs & Ht & Hf & _).
  rewrite Ht. cbn [In]. intros [<-|Hin]; [now left|].
  apply in_app_or in Hin. destruct Hin as [Hin|Hin].
  - destruct (in_flatten _ _ _ _ _ Hf Hin) as [H|H]; [right; left|right; right; left]; exact H.
  - apply in_app_or in Hin. destruct Hin as [Hin|[<-|[]]].
    + right; right; right; left. exact Hin.
    + right; right; right; right. reflexivity.
Qed.

Lemma run_event_ok env o p0 exists0 e :
  In e (trace (snd (run env o p0 exists0))) -> event_ok env o e.
Proof.
  intros Hin. destruct (run_events _ _ _ _ _ Hin) as [-> | [[s ->] | [[s [_ H]] | [H | ->]]]];
    try exact I; try exact H.
  destruct (fst (run env o p0 exists0)); cbn in H;
    repeat (destruct H as [<-|H]; [exact I|]); destruct H.
Qed.

Lemma run_steps env o p0 exists0 :
  exists secs,
    Forall (section_ok env o) secs /\
    steps_of (trace (snd (run env o p0 exists0))) = map fst secs /\
    prefix (map fst secs) (expected_steps o) /\
    (forall k, fst (run env o p0 exists0) = Ok k -> map fst secs = expected_steps o).
Proof.
  destruct (run_structure env o p0 exists0) as (secs & Ht & Hf & Hpre & _ & _ & Hok & _).
  exists secs. split; [exact Hf|]. split; [|split; [exact Hpre|]].
  - rewrite Ht. cbn [steps_of step_of].
    rewrite !steps_of_app, (steps_of_flatten (purchaseId o) Hf).
    destruct (fst (run env o p0 exists0)); cbn; now rewrite app_nil_r.
  - intros k Hk. now destruct (Hok k Hk).
Qed.

Lemma last_cons {A} (x d : A) (l : list A) : last (x :: l) d = last l x.
Proof.
  revert x d. induction l as [|y l IH]; intros x d; [reflexivity|].
  change (last (x :: y :: l) d) with (last (y :: l) d). now rewrite !IH.
Qed.

Lemma last_app {A} (la lb : list A) (d : A) : last (la ++ lb) d = last lb (last la d).
Proof.
  revert d. induction la as [|x la IH]; intros d; [reflexivity|].
  cbn [app]. now rewrite !last_cons, IH.
Qed.

Lemma step_after_app cur a b :
  step_after cur (a ++ b) = step_after (step_after cur a) b.
Proof.
  unfold step_after. now rewrite steps_of_app, map_app, last_app.
Qed.

Lemma staged_app pid cur a b :
  staged pid cur (a ++ b) <-> staged pid cur a /\ staged pid (step_after cur a) b.
Proof.
  revert cur. induction a as [|e a IH]; intros cur; cbn [app staged].
  - unfold step_after; cbn. tauto.
  - rewrite IH.
    assert (E : step_after cur (e :: a)
                = step_after (match step_of e with Some s => Some s | None => cur end) a).
    { change (e :: a) with ([e] ++ a)%list. rewrite step_after_app. f_equal.
      unfold step_after; cbn. destruct (step_of e); reflexivity. }
    rewrite E. tauto.
Qed.

Lemma staged_stage_events pid s (P : Event -> Prop) evs :
  Forall (fun e => stage_of e = Some s /\ P e) evs ->
  staged pid (Some s) evs /\ step_after (Some s) evs = Some s.
Proof.
  induction 1 as [|e evs [He _] _ [IH1 IH2]]; [split; [exact I|reflexivity]|].
  assert (Hs : step_of e = None) by (destruct e; cbn in *; congruence).
  split.
  - cbn [staged]. rewrite He, Hs. repeat split; try exact IH1.
    destruct e; cbn in *; congruence || exact I.
  - change (e :: evs) with ([e] ++ evs)%list. rewrite step_after_app.
    unfold step_after at 2. cbn. now rewrite Hs.
Qed.

Lemma staged_flatten env o pid secs :
  Forall (section_ok env o) secs -> forall cur, staged pid cur (flatten pid secs).
Proof.
  induction 1 as [|[s evs] secs Hs _ IH]; intros cur; [exact I|].
  cbn [flatten flat_map section_events fst snd app staged stage_of step_of].
  repeat split.
  apply staged_app. destruct (staged_stage_events pid s (event_ok env o) evs Hs) as [H1 H2].
  split; [exact H1|apply IH].
Qed.

Lemma staged_run env o p0 exists0 :
  staged (purchaseId o) None (trace (snd (run env o p0 exists0))).
Proof.
  destruct (run_structure env o p0 exists0) as (secs & Ht & Hf & _).
  rewrite Ht. cbn [staged stage_of step_of]. repeat split.
  apply staged_app. split; [now apply (staged_flatten env o)|].
  destruct (fst (run env o p0 exists0)); cbn; repeat split.
Qed.

Lemma staged_split pid cur pre e post s :
  staged pid cur (pre ++ e :: post) -> stage_of e = Some s ->
  step_after cur pre = Some s.
Proof.
  intros H He. apply staged_app in H. destruct H as [_ H].
  cbn [staged] in H. rewrite He in H. tauto.
Qed.

Lemma staged_step_written pid pre : forall cur s,
  staged pid cur pre -> step_after cur pre = Some s ->
  cur = Some s \/ In (EvUpdateStep pid s) pre.
Proof.
  induction pre as [|e pre IH]; intros cur s Hst Hs.
  - left. exact Hs.
  - change (e :: pre) with ([e] ++ pre)%list in Hs. rewrite step_after_app in Hs.
    cbn [staged] in Hst. destruct Hst as (_ & Hpid & Hst).
    assert (E : step_after cur [e] = match step_of e with Some s => Some s | None => cur end).
    { unfold step_after. cbn. destruct (step_of e); reflexivity. }
    rewrite E in Hs. destruct (IH _ _ Hst Hs) as [H|H].
    + destruct e; cbn in H; try (left; exact H).
      injection H as ->. subst. right. now left.
    + right. now right.
Qed.

Lemma split_in_tail {A} (P : A -> bool) (a b pre : list A) (e : A) (post : list A) :
  Forall (fun x => P x = false) a -> (a ++ b)%list = (pre ++ e :: post)%list ->
  P e = true -> exists c, b = (c ++ e :: post)%list.
Proof.
  intros Ha. revert pre. induction Ha as [|x a Hx _ IH]; intros pre Heq He; cbn in Heq.
  - now exists pre.
  - destruct pre as [|y pre]; cbn in Heq; injection Heq as <- Heq.
    + congruence.
    + now apply (IH pre).
Qed.

Lemma flatten_not_terminal env o pid secs :
  Forall (section_ok env o) secs ->
  Forall (fun e => is_terminal e = false) (flatten pid secs).
Proof.
  intros Hf. apply Forall_forall. intros e He.
  destruct (in_flatten _ _ _ _ _ Hf He) as [[s ->]|[s [Hs _]]]; [reflexivity|].
  destruct e; cbn in *; congruence.
Qed.

Lemma NoDup_prefix {A} (l1 l2 : list A) : prefix l1 l2 -> NoDup l2 -> NoDup l1.
Proof. intros [l ->] H. now apply NoDup_app_remove_r in H. Qed.

Lemma NoDup_expected o : NoDup (expected_steps o).
Proof.
  unfold expected_steps. destruct (truthy (musicTrack o)); cbn;
    repeat (constructor; [cbn; intuition discriminate|]); constructor.
Qed.

(* ================================================================== *)
(** * The properties of the specification *)

(** C4. In every invocation the steps written to the status sink are
    strictly increasing in the order downloading, stitching, polishing,
    mixing_music, encoding, uploading: they are an initial segment of the
    steps of a complete run, without repetition; no step is written after
    [markFailed] or [markCompleted]; and without a music track the step
    mixing_music is never written. *)
Theorem C4_steps_move_forward (env : Env) (o : ProcessOptions) (p0 : Purchase)
        (exists0 : bool) :
  let tr := trace (snd (run env o p0 exists0)) in
  increasing (steps_of tr) /\
  NoDup (steps_of tr) /\
  prefix (steps_of tr) (expected_steps o) /\
  (forall pre e post,
      tr = (pre ++ e :: post)%list -> is_terminal e = true -> steps_of post = []) /\
  (truthy (musicTrack o) = false -> ~ In mixing_music (steps_of tr)).
Proof.
  intros tr.
  destruct (run_steps env o p0 exists0) as (secs & Hf & Hs & Hpre & _).
  fold tr in Hs. rewrite Hs.
  split; [exact (increasing_prefix Hpre (increasing_expected o))|].
  split; [exact (NoDup_prefix _ _ Hpre (NoDup_expected o))|].
  split; [exact Hpre|].
  split.
  - intros pre e post Htr He.
    destruct (run_structure env o p0 exists0) as (secs' & Ht & Hf' & _).
    fold tr in Ht. rewrite Htr in Ht.
    change (EvMkdir (tmp_dir env o) :: flatten (purchaseId o) secs' ++ ?b)%list
      with ((EvMkdir (tmp_dir env o) :: flatten (purchaseId o) secs') ++ b)%list in Ht.
    symmetry in Ht. apply split_in_tail with (P := is_terminal) in Ht; [|  |exact He].
    + destruct Ht as [c Hc].
      assert (E : steps_of (c ++ e :: post) = []).
      { rewrite <- Hc. destruct (fst (run env o p0 exists0)); reflexivity. }
      rewrite steps_of_app in E. apply app_eq_nil in E. destruct E as [_ E].
      destruct e; cbn in He; try discriminate; exact E.
    + constructor; [reflexivity|]. exact (flatten_not_terminal _ _ _ _ Hf').
  - intros Hm Hin. destruct Hpre as [l Hl].
    assert (H : In mixing_music (expected_steps o)) by (rewrite Hl; apply in_or_app; now left).
    unfold expected_steps in H. rewrite Hm in H. cbn in H. intuition discriminate.
Qed.

(** C8. In every invocation, each call that belongs to a stage (a page
    lookup, signed URL request, download, file write or read, probe,
    transcode or upload) is made after the step of its stage was written
    to the status sink, and while that step is the one the job record
    shows. *)
Theorem C8_step_written_before_stage (env : Env) (o : ProcessOptions) (p0 : Purchase)
        (exists0 : bool) (pre : list Event) (e : Event) (post : list Event)
        (s : ProcessingStep) :
  trace (snd (run env o p0 exists0)) = (pre ++ e :: post)%list ->
  stage_of e = Some s ->
  In (EvUpdateStep (purchaseId o) s) pre /\ current_step pre = Some s.
Proof.
  intros Htr He.
  pose proof (staged_run env o p0 exists0) as Hst. rewrite Htr in Hst.
  pose proof (staged_split _ _ _ _ _ _ Hst He) as Hs.
  split; [|exact Hs].
  apply staged_app in Hst. destruct Hst as [Hst _].
  destruct (staged_step_written _ _ _ _ Hst Hs) as [H|H]; [discriminate|exact H].
Qed.

(** The music block starts with the step write and then the fetch; when
    the response is not [ok] nothing else is done and [inputForEncode]
    stays the polished track. *)
Lemma step_mix_begins (env : Env) (o : ProcessOptions) (tmpDir polishedPath : string)
      (w : World) :
  truthy (musicTrack o) = true ->
  exists rest,
    trace (snd (step_mix env o tmpDir polishedPath w)) =
      (trace w ++ EvUpdateStep (purchaseId o) mixing_music
         :: EvFetch AtMusic (music_url env o) :: rest)%list /\
    (forall r, fetch_reply env AtMusic = Ok r -> ok r = false ->
               rest = [] /\ fst (step_mix env o tmpDir polishedPath w) = Ok polishedPath).
Proof.
  intros Hm. unfold step_mix, mix_music. rewrite Hm. exec.
  repeat split_reply.
  all: eexists; norm_trace; (split; [reflexivity|]).
  all: intros r [= <-] Hr; try congruence.
  split; reflexivity.
Qed.

(** C10. When a music track was selected, the step mixing_music is
    written before the music is fetched: a run that fetches the music has
    written mixing_music before it, the job record shows that step at the
    fetch, and the step is part of the recorded sequence also when the
    fetch does not yield an [ok] response, in which case no mix is run
    and the polished track stays the encoder input. *)
Theorem C10_mixing_step_precedes_fetch (env : Env) (o : ProcessOptions) (p0 : Purchase)
        (exists0 : bool) (pre : list Event) (url : string) (post : list Event) :
  trace (snd (run env o p0 exists0)) = (pre ++ EvFetch AtMusic url :: post)%list ->
  truthy (musicTrack o) = true /\
  url = music_url env o /\
  In (EvUpdateStep (purchaseId o) mixing_music) pre /\
  current_step pre = Some mixing_music /\
  In mixing_music (steps_of (trace (snd (run env o p0 exists0)))) /\
  ((forall r, fetch_reply env AtMusic = Ok r -> ok r = false) ->
   forall cmd, ~ In (EvFfmpeg AtMusic cmd) (trace (snd (run env o p0 exists0)))) /\
  (forall tmpDir polishedPath w,
      exists rest,
        trace (snd (step_mix env o tmpDir polishedPath w)) =
          (trace w ++ EvUpdateStep (purchaseId o) mixing_music
             :: EvFetch AtMusic (music_url env o) :: rest)%list /\
        (forall r, fetch_reply env AtMusic = Ok r -> ok r = false ->
                   rest = [] /\
                   fst (step_mix env o tmpDir polishedPath w) = Ok polishedPath)).
Proof.
  intros Htr.
  pose proof (staged_run env o p0 exists0) as Hst. rewrite Htr in Hst.
  pose proof (staged_split _ _ _ _ _ mixing_music Hst eq_refl) as Hs.
  assert (Hin : In (EvUpdateStep (purchaseId o) mixing_music) pre).
  { apply staged_app in Hst. destruct Hst as [Hst _].
    destruct (staged_step_written _ _ _ _ Hst Hs) as [H|H]; [discriminate|exact H]. }
  assert (Hsteps : In mixing_music (steps_of (trace (snd (run env o p0 exists0))))).
  { rewrite Htr, steps_of_app. apply in_or_app. left.
    clear - Hin. induction pre as [|e pre IH]; [destruct Hin|].
    destruct Hin as [->|Hin]; [now left|].
    cbn. destruct (step_of e); [right|]; now apply IH. }
  assert (Hm : truthy (musicTrack o) = true).
  { destruct (run_steps env o p0 exists0) as (secs & _ & Hs' & [l Hl] & _).
    rewrite Hs' in Hsteps.
    assert (H : In mixing_music (expected_steps o)) by (rewrite Hl; apply in_or_app; now left).
    unfold expected_steps in H. destruct (truthy (musicTrack o)); [reflexivity|].
    cbn in H. intuition discriminate. }
  split; [exact Hm|].
  split.
  { assert (H : In (EvFetch AtMusic url) (trace (snd (run env o p0 exists0)))).
    { rewrite Htr. apply in_or_app. right. now left. }
    exact (run_event_ok _ _ _ _ _ H). }
  split; [exact Hin|].
  split; [exact Hs|].
  split; [exact Hsteps|].
  split.
  - intros Hfail cmd Hcmd.
    destruct (run_event_ok _ _ _ _ _ Hcmd) as (r & dur & Hr & Hok & _).
    rewrite (Hfail r Hr) in Hok. discriminate.
  - intros tmpDir polishedPath w. now apply step_mix_begins.
Qed.

Lemma no_pages_empty (r : PagesReply) : pages_of r = [] -> no_pages r = true.
Proof.
  unfold pages_of, no_pages. destruct (pages_data r) as [l|].
  - intros ->. apply orb_true_r.
  - intros _. apply orb_true_r.
Qed.

(** C6. When the workspace was created and the page lookup yields no
    usable page, the invocation fails with the error "No recording pages
    found for session"; it runs no transcoding, and the only step it
    writes is the first one, downloading. *)
Theorem C6_no_pages_fails_early (env : Env) (o : ProcessOptions) (p0 : Purchase)
        (exists0 : bool) :
  mkdirSync_reply env = None ->
  pages_of (listPages_reply env) = [] ->
  let r := run env o p0 exists0 in
  fst r = Throws (JsError "No recording pages found for session") /\
  trace (snd r) =
    [EvMkdir (tmp_dir env o);
     EvUpdateStep (purchaseId o) downloading;
     EvListPages (sessionId o);
     EvConsoleError (sessionId o) "No recording pages found for session";
     EvMarkFailed (purchaseId o) "No recording pages found for session";
     EvRm (tmp_dir env o)] /\
  (forall e, In e (trace (snd r)) -> is_transcode e = false) /\
  steps_of (trace (snd r)) = [downloading] /\
  processing_step (purchase (snd r)) = Some downloading /\
  processing_status (purchase (snd r)) = Some "failed" /\
  error_message (purchase (snd r)) = Some "No recording pages found for session".
Proof.
  intros Hmk Hp r. subst r.
  unfold run, processRecording, finally_block, catch_block, try_block, step_download, initial.
  exec. rewrite Hmk. cbn [fst snd trace purchase workspace_exists].
  rewrite (no_pages_empty _ Hp).
  destruct (rmSync_reply env); cbn.
  all: repeat (split; [reflexivity|]).
  all: split; [|repeat split].
  all: intros e H; repeat (destruct H as [<-|H]; [reflexivity|]); destruct H.
Qed.

(** C9. A page lookup that returns a database error is handled as an
    empty page set: the whole run (result, calls, job record, workspace)
    is the one of a lookup that returned no page and no error, and when
    the workspace was created the run fails with "No recording pages found
    for session", which is the message left in the job record. *)
Theorem C9_lookup_error_looks_like_no_pages (env : Env) (o : ProcessOptions)
        (p0 : Purchase) (exists0 : bool) (data : option (list Page)) (err : string) :
  let failing := with_pages env {| pages_data := data; pages_error := Some err |} in
  let empty := with_pages env {| pages_data := Some []; pages_error := None |} in
  run failing o p0 exists0 = run empty o p0 exists0 /\
  (mkdirSync_reply env = None ->
   fst (run failing o p0 exists0)
     = Throws (JsError "No recording pages found for session") /\
   processing_status (purchase (snd (run failing o p0 exists0))) = Some "failed" /\
   error_message (purchase (snd (run failing o p0 exists0)))
     = Some "No recording pages found for session").
Proof.
  intros failing empty. subst failing empty.
  unfold run, processRecording, finally_block, catch_block, try_block, step_download,
    initial, tmp_dir.
  exec. cbn [with_pages path_join mkdirSync_reply rmSync_reply listPages_reply].
  split.
  - destruct (mkdirSync_reply env); cbn; [reflexivity|].
    destruct (rmSync_reply env); reflexivity.
  - intros ->. cbn. destruct (rmSync_reply env); cbn; repeat split.
Qed.

(** C1, as stated, fails: when the transcoder fails on the first page
    with an [Error] whose message is empty and the removal of the scratch
    directory fails too, the job record holds the empty message and the
    directory is still there. *)
Lemma C1_counterexample :
  fst (run Sample.stuck Sample.opts Sample.fresh false) = Throws (JsError "") /\
  processing_status
    (purchase (snd (run Sample.stuck Sample.opts Sample.fresh false))) = Some "failed" /\
  error_message
    (purchase (snd (run Sample.stuck Sample.opts Sample.fresh false))) = Some "" /\
  workspace_exists (snd (run Sample.stuck Sample.opts Sample.fresh false)) = true /\
  ~ C1_as_stated.
Proof.
  split; [reflexivity|]. split; [reflexivity|]. split; [reflexivity|].
  split; [reflexivity|].
  intros H.
  destruct (H Sample.stuck Sample.opts Sample.fresh false (JsError "") eq_refl)
    as (_ & (m & Hm & Hne) & Hw).
  vm_compute in Hw. discriminate Hw.
Qed.

(** C1, as the code has it. When an invocation throws, the error that reaches the
    caller is the one raised in the [try] block; before it is re-raised
    the job record is given the status failed and the error's message
    (or "Unknown processing error" for a value that is not an [Error]);
    the last calls are the log line, [markFailed] and then the removal of
    the workspace.  The message is not empty for the errors the pipeline
    creates, and for those of the collaborators when theirs are not; the
    workspace is gone whenever its removal succeeds, a failure of the
    removal being swallowed. *)
Theorem C1_failure_is_recorded (env : Env) (o : ProcessOptions) (p0 : Purchase)
        (exists0 : bool) (e : Thrown) :
  fst (run env o p0 exists0) = Throws e ->
  let w := snd (run env o p0 exists0) in
  processing_status (purchase w) = Some "failed" /\
  error_message (purchase w) = Some (message_of e) /\
  (exists before,
      trace w = (before ++ [EvConsoleError (sessionId o) (message_of e);
                            EvMarkFailed (purchaseId o) (message_of e);
                            EvRm (tmp_dir env o)])%list) /\
  (pipeline_error e \/ raised_by env e) /\
  ((forall x, raised_by env x -> message_of x <> "") -> message_of e <> "") /\
  (rmSync_reply env = None -> workspace_exists w = false).
Proof.
  intros He w. subst w.
  destruct (run_structure env o p0 exists0) as (secs & Ht & _ & _ & Hp & Hw & _ & Herr).
  rewrite He in *. cbn [settle_job ending] in *.
  rewrite Hp, Ht, Hw.
  split; [reflexivity|].
  split; [reflexivity|].
  split.
  { exists (EvMkdir (tmp_dir env o) :: flatten (purchaseId o) secs)%list.
    cbn. reflexivity. }
  split; [now apply Herr|].
  split.
  - intros Hne. destruct (Herr e eq_refl) as [H|H].
    + now apply pipeline_error_message.
    + now apply Hne.
  - intros Hrm. unfold workspace_after. now rewrite Hrm.
Qed.

(** ** Successful runs *)

Lemma bind_ok {A B} (m : M A) (f : A -> M B) (w : World) (b : B) (w2 : World) :
  bind m f w = (Ok b, w2) ->
  exists a w1, m w = (Ok a, w1) /\ f a w1 = (Ok b, w2).
Proof.
  unfold bind. destruct (m w) as [[a|e] w1]; [|discriminate].
  intros H. now exists a, w1.
Qed.

Lemma step_upload_ok env o mp3Path w k w' :
  step_upload env o mp3Path w = (Ok k, w') ->
  exists data,
    trace w' = (trace w ++ [EvUpdateStep (purchaseId o) uploading;
                            EvReadFile AtUpload mp3Path;
                            EvUpload AtUpload (output_storage_path o) data
                                     "audio/mpeg" true])%list.
Proof.
  unfold step_upload. exec.
  destruct (readFileSync_reply env AtUpload) as [data|]; [|discriminate].
  cbn [fst snd trace purchase workspace_exists].
  destruct (upload_reply env AtUpload); [discriminate|].
  intros [= _ <-]. exists data. cbn. norm_trace. reflexivity.
Qed.

Lemma try_block_ok env o w k w' :
  try_block env o w = (Ok k, w') ->
  exists mp3Path w5 w6,
    step_upload env o mp3Path w5 = (Ok k, w6) /\
    trace w' = (trace w6 ++ [EvMarkCompleted (purchaseId o) k])%list.
Proof.
  rewrite try_block_unfold. intros H.
  apply bind_ok in H. destruct H as (_ & w1 & _ & H).
  unfold k_download in H. apply bind_ok in H. destruct H as (wavFiles & w2 & _ & H).
  unfold k_stitch in H. apply bind_ok in H. destruct H as (c & w3 & _ & H).
  unfold k_polish in H. apply bind_ok in H. destruct H as (p & w4 & _ & H).
  unfold k_mix in H. apply bind_ok in H. destruct H as (i & w4' & _ & H).
  unfold k_encode in H. apply bind_ok in H. destruct H as (mp3 & w5 & _ & H).
  unfold k_upload in H. apply bind_ok in H. destruct H as (out & w6 & Hup & H).
  exec. injection H as <- <-.
  exists mp3, w5, w6. split; [exact Hup|reflexivity].
Qed.

Lemma run_ok_upload env o p0 exists0 k :
  fst (run env o p0 exists0) = Ok k ->
  exists data,
    In (EvUpload AtUpload (output_storage_path o) data "audio/mpeg" true)
       (trace (snd (run env o p0 exists0))).
Proof.
  unfold run, processRecording, try_finally, try_catch.
  destruct (try_block env o (initial p0 exists0)) as [[k'|e] w1] eqn:Hb.
  - destruct (try_block_ok _ _ _ _ _ Hb) as (mp3 & w5 & w6 & Hup & Ht).
    destruct (step_upload_ok _ _ _ _ _ _ Hup) as (data & Hd).
    intros _. exists data.
    assert (Hin : In (EvUpload AtUpload (output_storage_path o) data "audio/mpeg" true)
                     (trace w1)).
    { rewrite Ht, Hd. apply in_or_app. left. apply in_or_app. right.
      cbn. tauto. }
    unfold finally_block. exec.
    destruct (rmSync_reply env); cbn [fst snd trace]; apply in_or_app; now left.
  - unfold catch_block, finally_block. exec.
    destruct (rmSync_reply env); cbn; discriminate.
Qed.

Lemma record_steps_error_message steps : forall p,
  error_message (record_steps steps p) = error_message p.
Proof.
  unfold record_steps. induction steps as [|s steps IH]; intros p; [reflexivity|].
  cbn. now rewrite IH.
Qed.

(** C5, as stated, fails: [markCompleted] writes the status and the
    final reference and nothing else.  When the sample session is
    processed again after a run that failed on the music host, the second
    run succeeds and returns the key, and the job is completed with the
    error message of the first run still in it. *)
Lemma C5_counterexample :
  error_message after_failed_run = Some "fetch failed" /\
  fst (run Sample.happy Sample.opts after_failed_run false) = Ok "processed/s1.mp3" /\
  processing_status (purchase (snd (run Sample.happy Sample.opts after_failed_run false)))
    = Some "completed" /\
  final_audio_url (purchase (snd (run Sample.happy Sample.opts after_failed_run false)))
    = Some "processed/s1.mp3" /\
  error_message (purchase (snd (run Sample.happy Sample.opts after_failed_run false)))
    = Some "fetch failed" /\
  ~ C5_as_stated.
Proof.
  split; [reflexivity|]. split; [reflexivity|]. split; [reflexivity|].
  split; [reflexivity|]. split; [reflexivity|].
  intros H.
  destruct (H Sample.happy Sample.opts after_failed_run false "processed/s1.mp3" eq_refl)
    as (_ & _ & _ & Hm).
  vm_compute in Hm. discriminate Hm.
Qed.

(** C5, as the code has it.  An invocation that succeeds returns the key
    [processed/{sessionId}.mp3]; it has uploaded the file under that key
    as audio/mpeg with overwrite allowed, and has marked the job completed
    with the same key as its final reference.  It does not touch the
    error message: [markFailed] is not called and the job's error message
    is the one it had at the start, none if it had none.  Invoking the
    pipeline again for the same session, on the job record the first run
    left, returns the same key when it succeeds and leaves the same final
    reference. *)
Theorem C5_success_returns_the_session_key (env : Env) (o : ProcessOptions)
        (p0 : Purchase) (exists0 : bool) (k : string) :
  fst (run env o p0 exists0) = Ok k ->
  let w := snd (run env o p0 exists0) in
  k = "processed/" ++ sessionId o ++ ".mp3" /\
  processing_status (purchase w) = Some "completed" /\
  final_audio_url (purchase w) = Some k /\
  error_message (purchase w) = error_message p0 /\
  (error_message p0 = None -> error_message (purchase w) = None) /\
  (forall pid msg, ~ In (EvMarkFailed pid msg) (trace w)) /\
  In (EvMarkCompleted (purchaseId o) k) (trace w) /\
  (exists data, In (EvUpload AtUpload k data "audio/mpeg" true) (trace w)) /\
  (forall site key data contentType upsert,
      In (EvUpload site key data contentType upsert) (trace w) ->
      key = k /\ contentType = "audio/mpeg" /\ upsert = true) /\
  (forall env' exists' k',
      fst (run env' o (purchase w) exists') = Ok k' ->
      k' = k /\
      final_audio_url (purchase (snd (run env' o (purchase w) exists'))) = Some k).
Proof.
  intros Hk w.
  destruct (run_structure env o p0 exists0) as (secs & Ht & Hf & _ & Hp & _ & Hok & _).
  destruct (Hok k Hk) as [_ Hkey].
  assert (Hmsg : error_message (purchase w) = error_message p0).
  { subst w. rewrite Hp, Hk. cbn. apply record_steps_error_message. }
  split; [exact Hkey|].
  split; [subst w; rewrite Hp, Hk; reflexivity|].
  split; [subst w; rewrite Hp, Hk; reflexivity|].
  split; [exact Hmsg|].
  split; [intros H0; now rewrite Hmsg|].
  split.
  { intros pid msg Hin.
    destruct (run_events _ _ _ _ _ Hin) as [H | [[s H] | [[s [H _]] | [H | H]]]];
      try discriminate.
    rewrite Hk in H. cbn in H. destruct H as [H|[]]. discriminate. }
  split.
  { subst w. rewrite Ht, Hk. cbn. right. apply in_or_app. right. now left. }
  split.
  { rewrite Hkey. now apply run_ok_upload with (k := k). }
  split.
  { intros site key data ct upsert Hin.
    destruct (run_event_ok _ _ _ _ _ Hin) as (-> & -> & ->).
    rewrite Hkey. repeat split. }
  intros env' exists' k' Hk'.
  destruct (run_structure env' o (purchase w) exists') as (secs' & _ & _ & _ & Hp' & _ & Hok' & _).
  destruct (Hok' k' Hk') as [_ ->].
  split; [now rewrite Hkey|].
  rewrite Hp', Hk'. cbn. now rewrite Hkey.
Qed.

(** ** The concat list *)

Lemma concat_loop_interleave (silencePath : string) (rest : list string) :
  forall (i len : Z),
    len = (i + Z.of_nat (List.length rest))%Z ->
    concat_loop silencePath len i rest
    = interleave (file_line silencePath) (map file_line rest).
Proof.
  induction rest as [|w rest IH]; intros i len Hlen; [reflexivity|].
  cbn [concat_loop map]. destruct rest as [|w' rest].
  - cbn in Hlen. replace (i <? len - 1)%Z with false by (symmetry; apply Z.ltb_ge; lia).
    reflexivity.
  - replace (i <? len - 1)%Z with true
      by (symmetry; apply Z.ltb_lt; cbn [List.length] in Hlen; lia).
    rewrite (IH (i + 1)%Z len) by (cbn [List.length] in *; lia).
    reflexivity.
Qed.

Lemma interleave_length (silence : string) (clips : list string) :
  clips <> [] -> List.length (interleave silence clips) = 2 * List.length clips - 1.
Proof.
  induction clips as [|c clips IH]; [congruence|]. intros _.
  destruct clips as [|c' clips]; [reflexivity|].
  change (interleave silence (c :: c' :: clips))
    with (c :: silence :: interleave silence (c' :: clips)).
  cbn [List.length] in *. rewrite IH by discriminate. lia.
Qed.

Lemma interleave_even (silence : string) (clips : list string) :
  forall k, nth_error (interleave silence clips) (2 * k) = nth_error clips k.
Proof.
  induction clips as [|c clips IH]; intros k.
  - cbn [interleave]. now rewrite !nth_error_nil.
  - destruct clips as [|c' clips].
    + destruct k as [|k]; [reflexivity|].
      replace (2 * S k) with (S (S (2 * k))) by lia. cbn [interleave nth_error].
      now rewrite !nth_error_nil.
    + change (interleave silence (c :: c' :: clips))
        with (c :: silence :: interleave silence (c' :: clips)).
      destruct k as [|k]; [reflexivity|].
      replace (2 * S k) with (S (S (2 * k))) by lia.
      cbn [nth_error]. apply IH.
Qed.

Lemma interleave_odd (silence : string) (clips : list string) :
  forall k, k + 1 < List.length clips ->
            nth_error (interleave silence clips) (2 * k + 1) = Some silence.
Proof.
  induction clips as [|c clips IH]; intros k Hk; [cbn in Hk; lia|].
  destruct clips as [|c' clips]; [cbn in Hk; lia|].
  change (interleave silence (c :: c' :: clips))
    with (c :: silence :: interleave silence (c' :: clips)).
  destruct k as [|k]; [reflexivity|].
  replace (2 * S k + 1) with (S (S (2 * k + 1))) by lia.
  cbn [nth_error]. apply IH. cbn [List.length] in *. lia.
Qed.

Lemma no_pages_false (r : PagesReply) : no_pages r = false -> 1 <= List.length (pages_of r).
Proof.
  unfold no_pages, pages_of. destruct (is_some (pages_error r)); [discriminate|].
  destruct (pages_data r) as [l|]; [|discriminate].
  cbn. destruct l; [discriminate|]. cbn. lia.
Qed.

(** A computation that runs stages keeps the calls made before it. *)
Lemma run_spec_keeps (env : Env) (o : ProcessOptions) (steps : list ProcessingStep)
      (m : M string) (w : World) (e : Event) :
  run_spec env o steps m -> In e (trace w) -> In e (trace (snd (m w))).
Proof.
  intros Hm Hin. destruct (Hm w) as (secs & Ht & _).
  rewrite Ht. apply in_or_app. now left.
Qed.

(** When every iteration goes through, the page loop returns the clips
    of all the pages and makes the calls of each in turn. *)
Lemma download_pages_go_through (env : Env) (tmpDir : string)
        (pages : list Page) :
  forall (k : nat) (wavFiles : list string) (w : World),
    (forall i, i < List.length pages -> page_goes_through env (k + i)) ->
    fst (download_pages env tmpDir k pages wavFiles w)
      = Ok (wavFiles ++ map (wav_path env tmpDir) pages)%list /\
    trace (snd (download_pages env tmpDir k pages wavFiles w))
      = (trace w ++ loop_calls env tmpDir k pages)%list.
Proof.
  induction pages as [|page rest IH]; intros k wavFiles w Hall.
  - cbn. now rewrite !app_nil_r.
  - destruct (Hall 0 ltac:(cbn; lia)) as (H1 & H2 & H3 & H4).
    rewrite Nat.add_0_r in *.
    cbn [failing] in H1, H2.
    destruct (fetch_reply env (AtPage k)) as [r|] eqn:Hr; [|discriminate].
    destruct (ok r) eqn:Hok; [|discriminate].
    destruct (arrayBuffer r) as [b|] eqn:Hb; [|discriminate].
    cbn [download_pages]. exec.
    rewrite H1. cbn [fst snd trace purchase workspace_exists].
    rewrite Hr. cbn [fst snd trace purchase workspace_exists].
    rewrite Hok. cbn [negb fst snd trace purchase workspace_exists].
    rewrite Hb. cbn [fst snd trace purchase workspace_exists].
    rewrite H3. cbn [fst snd trace purchase workspace_exists].
    rewrite H4. cbn [fst snd trace purchase workspace_exists].
    name_world w1.
    match goal with
    | |- context [download_pages _ _ _ _ ?ws w1] =>
        destruct (IH (S k) ws w1) as [E1 E2]
    end.
    { intros i Hi. replace (S k + i) with (k + S i) by lia.
      apply Hall. cbn. lia. }
    rewrite E1, E2, Htrace. split.
    + now rewrite <- app_assoc.
    + cbn [loop_calls]. unfold page_calls, page_buffer, wav_path.
      rewrite Hr, Hb. norm_trace. reflexivity.
Qed.

Lemma steps_of_In (pid : string) (step : ProcessingStep) (tr : list Event) :
  In (EvUpdateStep pid step) tr -> In step (steps_of tr).
Proof.
  induction tr as [|e tr IH]; [tauto|].
  intros [->|Hin]; [now left|].
  cbn [steps_of]. destruct (step_of e); [right|]; now apply IH.
Qed.

(** The calls of the [try] block are calls of the run. *)
Lemma run_keeps_try (env : Env) (o : ProcessOptions) (p0 : Purchase) (exists0 : bool)
      (e : Event) :
  In e (trace (snd (try_block env o (initial p0 exists0)))) ->
  In e (trace (snd (run env o p0 exists0))).
Proof.
  unfold run, processRecording, try_finally, try_catch.
  destruct (try_block env o (initial p0 exists0)) as [[k|e'] w1];
    unfold catch_block, finally_block; exec; intros Hin.
  all: destruct (rmSync_reply env); cbn [fst snd trace purchase workspace_exists].
  all: repeat first [exact Hin | apply in_or_app; left].
Qed.

(** A run whose workspace is created and whose pages all go through
    reaches the Stitch stage. *)
Lemma run_reaches_stitch (env : Env) (o : ProcessOptions) (p0 : Purchase) (exists0 : bool) :
  mkdirSync_reply env = None ->
  no_pages (listPages_reply env) = false ->
  (forall k, k < List.length (pages_of (listPages_reply env)) -> page_goes_through env k) ->
  In stitching (steps_of (trace (snd (run env o p0 exists0)))).
Proof.
  intros Hmk Hn Hall.
  apply (steps_of_In (purchaseId o)). apply run_keeps_try.
  rewrite try_block_unfold. exec. rewrite Hmk.
  cbn [fst snd trace purchase workspace_exists].
  name_world w1. unfold k_download, step_download. exec. rewrite Hn.
  name_world w2.
  destruct (download_pages_go_through env (tmp_dir env o) (pages_of (listPages_reply env))
              0 [] w2 Hall) as [Hok _].
  destruct (download_pages env (tmp_dir env o) 0 (pages_of (listPages_reply env)) [] w2)
    as [[wavFiles|e] w3]; [|discriminate Hok].
  cbn [fst] in Hok. injection Hok as ->.
  unfold k_stitch, bind.
  destruct (step_stitch_spec env o Hn eq_refl w3) as (evs & Ht & _).
  assert (Hin : In (EvUpdateStep (purchaseId o) stitching)
                   (trace (snd (step_stitch env o (tmp_dir env o)
                                  (map (wav_path env (tmp_dir env o))
                                       (pages_of (listPages_reply env))) w3)))).
  { rewrite Ht. apply in_or_app. right. now left. }
  destruct (step_stitch env o (tmp_dir env o) _ w3) as [[c|e] w4]; cbn [snd] in Hin.
  - exact (run_spec_keeps env o _ _ w4 _ (k_polish_spec env o c) Hin).
  - exact Hin.
Qed.

(** The Stitch stage builds the concat list from the clips it is given
    and writes it to [concat.txt], once the silence clip is generated. *)
Lemma step_stitch_writes (env : Env) (o : ProcessOptions) (tmpDir : string)
      (wavFiles : list string) (w : World) :
  ffmpeg_reply env AtSilence = None ->
  In (EvWriteFile AtConcat (path_join env tmpDir "concat.txt")
        (Text (join newline
                 (concatEntries wavFiles (path_join env tmpDir "silence.wav")))))
     (trace (snd (step_stitch env o tmpDir wavFiles w))).
Proof.
  intros Hs. unfold step_stitch. exec. rewrite Hs.
  cbn [fst snd trace purchase workspace_exists].
  repeat split_reply; norm_trace; apply in_or_app; right; cbn; tauto.
Qed.

Lemma k_stitch_writes (env : Env) (o : ProcessOptions) (wavFiles : list string) (w : World) :
  ffmpeg_reply env AtSilence = None ->
  In (EvWriteFile AtConcat (path_join env (tmp_dir env o) "concat.txt")
        (Text (join newline
                 (concatEntries wavFiles (path_join env (tmp_dir env o) "silence.wav")))))
     (trace (snd (k_stitch env o wavFiles w))).
Proof.
  intros Hs. pose proof (step_stitch_writes env o (tmp_dir env o) wavFiles w Hs) as Hin.
  unfold k_stitch, bind.
  destruct (step_stitch env o (tmp_dir env o) wavFiles w) as [[c|e] w3]; cbn [snd] in Hin.
  - exact (run_spec_keeps env o _ _ w3 _ (k_polish_spec env o c) Hin).
  - exact Hin.
Qed.

(** A run that reaches the Stitch stage and generates the silence clip
    writes the concat list of the pages the lookup returned. *)
Lemma run_writes_manifest (env : Env) (o : ProcessOptions) (p0 : Purchase) (exists0 : bool) :
  In stitching (steps_of (trace (snd (run env o p0 exists0)))) ->
  ffmpeg_reply env AtSilence = None ->
  In (EvWriteFile AtConcat (path_join env (tmp_dir env o) "concat.txt")
        (Text (join newline (manifest env o (pages_of (listPages_reply env))))))
     (trace (snd (run env o p0 exists0))).
Proof.
  unfold run, processRecording, finally_block, catch_block, initial.
  rewrite try_block_unfold. exec.
  destruct (mkdirSync_reply env) as [e0|]; cbn [fst snd trace purchase workspace_exists].
  { destruct (rmSync_reply env); cbn; tauto. }
  name_world w1. unfold k_download, bind.
  destruct (step_download_spec env o w1) as (evs & Ht & Hf & _ & _ & HQ & _).
  destruct (step_download env o (tmp_dir env o) w1) as [[wavFiles|e] w2];
    cbn [fst snd] in *.
  - destruct (HQ wavFiles eq_refl) as [_ ->]. intros _ Hs.
    pose proof (k_stitch_writes env o
                  (map (wav_path env (tmp_dir env o)) (pages_of (listPages_reply env)))
                  w2 Hs) as Hin.
    fold (manifest env o (pages_of (listPages_reply env))) in Hin.
    destruct (k_stitch env o _ w2) as [[k|e] w3];
      destruct (rmSync_reply env); cbn [fst snd trace purchase workspace_exists] in *;
      repeat first [exact Hin | apply in_or_app; left].
  - intros Hin. exfalso.
    assert (E : forall closing,
               steps_of (trace w2 ++ closing) = (downloading :: steps_of closing)%list).
    { intros closing. rewrite Ht, Htrace, !steps_of_app.
      cbn [steps_of step_of app].
      now rewrite (@steps_of_stage_events downloading _ evs Hf). }
    destruct (rmSync_reply env); cbn [fst snd trace purchase workspace_exists] in Hin;
      revert Hin; norm_trace; rewrite E; cbn; intuition discriminate.
Qed.

(** C2. For a session with [n >= 1] usable pages, the concat list has
    [2n - 1] lines; line [2k] is the clip of the [k]-th page the lookup
    returned (so the first and the last line are pages, and the pages
    keep the order of the lookup, whatever it is), and line [2k + 1] is
    the silence clip.  It is this list, joined by newlines, that a run
    writes to [concat.txt], and a run only writes it when the lookup
    returned at least one page.  A run that reaches the Stitch stage
    builds this list and writes it, as soon as the silence clip has been
    generated; and a run reaches that stage when the workspace is
    created, the lookup returns the pages without an error and every
    page is fetched and converted. *)
Theorem C2_manifest_interleaves_pages (env : Env) (o : ProcessOptions)
        (pages : list Page) (n : nat) :
  n = List.length pages -> 1 <= n ->
  let clip p := file_line (wav_path env (tmp_dir env o) p) in
  let silence := file_line (path_join env (tmp_dir env o) "silence.wav") in
  manifest env o pages = interleave silence (map clip pages) /\
  List.length (manifest env o pages) = 2 * n - 1 /\
  (forall k, k < n ->
             nth_error (manifest env o pages) (2 * k) = option_map clip (nth_error pages k)) /\
  (forall k, k + 1 < n -> nth_error (manifest env o pages) (2 * k + 1) = Some silence) /\
  (forall p0 exists0 path data,
      pages_of (listPages_reply env) = pages ->
      In (EvWriteFile AtConcat path data) (trace (snd (run env o p0 exists0))) ->
      data = Text (join newline (manifest env o pages))) /\
  (forall p0 exists0 path data,
      In (EvWriteFile AtConcat path data) (trace (snd (run env o p0 exists0))) ->
      1 <= List.length (pages_of (listPages_reply env))) /\
  (forall p0 exists0,
      pages_of (listPages_reply env) = pages ->
      In stitching (steps_of (trace (snd (run env o p0 exists0)))) ->
      ffmpeg_reply env AtSilence = None ->
      In (EvWriteFile AtConcat (path_join env (tmp_dir env o) "concat.txt")
            (Text (join newline (manifest env o pages))))
         (trace (snd (run env o p0 exists0)))) /\
  (forall p0 exists0,
      pages_of (listPages_reply env) = pages ->
      pages_error (listPages_reply env) = None ->
      mkdirSync_reply env = None ->
      (forall k, k < n -> page_goes_through env k) ->
      ffmpeg_reply env AtSilence = None ->
      In stitching (steps_of (trace (snd (run env o p0 exists0)))) /\
      In (EvWriteFile AtConcat (path_join env (tmp_dir env o) "concat.txt")
            (Text (join newline (manifest env o pages))))
         (trace (snd (run env o p0 exists0)))).
Proof.
  intros Hn Hpos clip silence.
  assert (E : manifest env o pages = interleave silence (map clip pages)).
  { unfold manifest, concatEntries.
    rewrite concat_loop_interleave by lia. now rewrite map_map. }
  split; [exact E|].
  split.
  { rewrite E, interleave_length, length_map; [lia|].
    destruct pages; [cbn in Hn; lia|discriminate]. }
  split.
  { intros k _. rewrite E, interleave_even. apply nth_error_map. }
  split.
  { intros k Hk. rewrite E. apply interleave_odd. rewrite length_map. lia. }
  split.
  { intros p0 exists0 path data Hp Hin.
    destruct (run_event_ok _ _ _ _ _ Hin) as (_ & _ & ->). now rewrite Hp. }
  split.
  { intros p0 exists0 path data Hin.
    destruct (run_event_ok _ _ _ _ _ Hin) as (H & _ & _). now apply no_pages_false. }
  split.
  - intros p0 exists0 Hp Hst Hs. rewrite <- Hp.
    now apply run_writes_manifest.
  - intros p0 exists0 Hp Herr Hmk Hall Hs.
    assert (Hst : In stitching (steps_of (trace (snd (run env o p0 exists0))))).
    { apply run_reaches_stitch; [exact Hmk| |now rewrite Hp, <- Hn].
      unfold no_pages. rewrite Herr. cbn [is_some orb].
      unfold pages_of in Hp. destruct (pages_data (listPages_reply env)) as [l|].
      - subst l. destruct pages; [cbn in Hn; lia|reflexivity].
      - subst pages. cbn in Hn. lia. }
    split; [exact Hst|]. rewrite <- Hp. now apply run_writes_manifest.
Qed.

(** ** The music filter graph *)

Lemma append_assoc (a b c : string) : (a ++ b) ++ c = a ++ (b ++ c).
Proof.
  induction a as [|x a IH]; [reflexivity|].
  change ((String x a ++ b) ++ c) with (String x ((a ++ b) ++ c)). now rewrite IH.
Qed.

Lemma music_filter_chain (env : Env) (d : float) :
  music_filter env d =
  join "," ["[1:a]aloop=loop=-1:size=2e+09";
            "atrim=duration=" ++ Number_toString env d;
            "afade=t=in:st=0:d=3";
            "afade=t=out:st="
              ++ Number_toString env (Math_max 0%float (PrimFloat.sub d 5%float))
              ++ ":d=5";
            "volume=0.1[music]"].
Proof.
  unfold music_filter, fade_out_start, join. cbn [String.concat].
  rewrite !append_assoc. reflexivity.
Qed.

Lemma step_mix_runs_mix (env : Env) (o : ProcessOptions) (tmpDir polishedPath : string)
      (w : World) (r : Response) (b : Buffer) (dur : option float) :
  truthy (musicTrack o) = true ->
  fetch_reply env AtMusic = Ok r -> ok r = true -> arrayBuffer r = Ok b ->
  writeFileSync_reply env AtMusic = None ->
  ffprobe_reply env AtMusic = Ok dur ->
  trace (snd (step_mix env o tmpDir polishedPath w)) =
    (trace w ++
       [EvUpdateStep (purchaseId o) mixing_music;
        EvFetch AtMusic (music_url env o);
        EvWriteFile AtMusic (path_join env tmpDir "music.mp3") (Bytes b);
        EvFfprobe AtMusic polishedPath;
        EvFfmpeg AtMusic
          (mix_command env polishedPath (path_join env tmpDir "music.mp3")
                       (path_join env tmpDir "mixed.wav") (or_zero dur))])%list.
Proof.
  intros Hm Hr Hok Hb Hw Hd. unfold step_mix, mix_music. rewrite Hm. exec.
  rewrite Hr. cbn [fst snd trace purchase workspace_exists]. rewrite Hok, Hb.
  cbn [fst snd trace purchase workspace_exists]. rewrite Hw, Hd.
  cbn [fst snd trace purchase workspace_exists].
  destruct (ffmpeg_reply env AtMusic); cbn; norm_trace; reflexivity.
Qed.

(** *** The probe comes before the mix *)

Lemma probed_app (polished : string) (tr evs : list Event) :
  probed_before_mix polished tr ->
  (forall cmd, ~ In (EvFfmpeg AtMusic cmd) evs) ->
  probed_before_mix polished (tr ++ evs).
Proof.
  intros H Hn cmd Hin. apply in_app_or in Hin. destruct Hin as [Hin|Hin].
  - destruct (H cmd Hin) as (pre & post & ->).
    exists pre, (post ++ evs)%list. now rewrite <- app_assoc.
  - now destruct (Hn cmd).
Qed.

Lemma probed_mix (polished : string) (tr evs : list Event) (cmd0 : FfmpegCommand) :
  probed_before_mix polished tr ->
  (forall cmd, ~ In (EvFfmpeg AtMusic cmd) evs) ->
  probed_before_mix polished
    (tr ++ evs ++ [EvFfprobe AtMusic polished; EvFfmpeg AtMusic cmd0]).
Proof.
  intros H Hn cmd Hin. apply in_app_or in Hin. destruct Hin as [Hin|Hin].
  - destruct (H cmd Hin) as (pre & post & ->).
    exists pre, (post ++ evs ++ [EvFfprobe AtMusic polished; EvFfmpeg AtMusic cmd0])%list.
    now rewrite <- app_assoc.
  - apply in_app_or in Hin. destruct Hin as [Hin|[Hin|[Hin|[]]]];
      [now destruct (Hn cmd)|discriminate|].
    injection Hin as <-. exists (tr ++ evs)%list, []. now rewrite <- app_assoc.
Qed.

Lemma keeps_bind (P : list Event -> Prop) {A B} (Q : A -> Prop) (m : M A) (f : A -> M B) :
  (forall w a, fst (m w) = Ok a -> Q a) ->
  keeps P m ->
  (forall a, Q a -> keeps P (f a)) ->
  keeps P (bind m f).
Proof.
  intros HQ Hm Hf w Hw. unfold bind. specialize (Hm w Hw). specialize (HQ w).
  destruct (m w) as [[a|e] w1]; cbn [fst snd] in *.
  - now apply (Hf a (HQ a eq_refl)).
  - exact Hm.
Qed.

(** A stage other than the mix submits no mix command. *)
Lemma stage_keeps (env : Env) (o : ProcessOptions) (polished : string) {A}
      (s : ProcessingStep) (Q : A -> Prop) (m : M A) :
  stage_spec env o s Q m -> s <> mixing_music ->
  keeps (probed_before_mix polished) m.
Proof.
  intros Hm Hs w Hw. destruct (Hm w) as (evs & Ht & Hf & _).
  rewrite Ht. apply probed_app; [exact Hw|].
  intros cmd [Hc|Hc]; [discriminate|].
  rewrite Forall_forall in Hf. destruct (Hf _ Hc) as [Hst _].
  cbn in Hst. congruence.
Qed.

Lemma flatten_without_mix (env : Env) (o : ProcessOptions) (pid : string)
      (secs : list (ProcessingStep * list Event)) :
  Forall (section_ok env o) secs -> ~ In mixing_music (map fst secs) ->
  forall cmd, ~ In (EvFfmpeg AtMusic cmd) (flatten pid secs).
Proof.
  induction 1 as [|[s evs] secs Hs _ IH]; cbn; [tauto|].
  intros Hn cmd [Hc|Hc]; [discriminate|].
  apply in_app_or in Hc. destruct Hc as [Hc|Hc].
  - unfold section_ok in Hs. cbn [fst snd] in Hs. rewrite Forall_forall in Hs.
    destruct (Hs _ Hc) as [Hst _]. cbn in Hst. injection Hst as <-. tauto.
  - apply (IH ltac:(tauto) cmd Hc).
Qed.

Lemma run_spec_keeps_probe (env : Env) (o : ProcessOptions) (polished : string)
      (steps : list ProcessingStep) (m : M string) :
  run_spec env o steps m -> ~ In mixing_music steps ->
  keeps (probed_before_mix polished) m.
Proof.
  intros Hm Hs w Hw. destruct (Hm w) as (secs & Ht & Hf & [rest Hpre] & _).
  rewrite Ht. apply probed_app; [exact Hw|].
  intros cmd Hc. apply in_app_or in Hc. destruct Hc as [Hc|Hc].
  - apply (flatten_without_mix env o (purchaseId o) secs Hf) with (cmd := cmd); [|exact Hc].
    intros Hin. apply Hs. rewrite Hpre. apply in_or_app. now left.
  - destruct (fst (m w)); cbn in Hc; [destruct Hc as [Hc|[]]; discriminate|destruct Hc].
Qed.

(** The music block probes the polished track and then submits the mix. *)
Lemma step_mix_keeps (env : Env) (o : ProcessOptions) (polishedPath : string) :
  keeps (probed_before_mix polishedPath) (step_mix env o (tmp_dir env o) polishedPath).
Proof.
  intros w Hw. unfold step_mix, mix_music. exec.
  repeat split_reply; norm_trace.
  all: first
         [ exact Hw
         | apply probed_app;
           [exact Hw | intros cmd Hc; cbn in Hc; solve [intuition discriminate]]
         | apply (probed_mix polishedPath (trace w) [_; _; _] _ Hw);
           intros cmd Hc; cbn in Hc; solve [intuition discriminate] ].
Qed.

Lemma k_mix_keeps (env : Env) (o : ProcessOptions) :
  keeps (probed_before_mix (path_join env (tmp_dir env o) "polished.wav"))
        (k_mix env o (path_join env (tmp_dir env o) "polished.wav")).
Proof.
  unfold k_mix.
  apply keeps_bind with (Q := fun a => a = encoder_input env o).
  - intros w a. destruct (truthy (musicTrack o)) eqn:Hm.
    + unfold step_mix. rewrite Hm.
      apply (stage_spec_result env o mixing_music _ _ (mix_music_spec env o Hm eq_refl)).
    + rewrite (step_mix_skipped env o Hm eq_refl). cbn. now intros [= <-].
  - apply step_mix_keeps.
  - intros a ->. apply (run_spec_keeps_probe env o _ [encoding; uploading]).
    + now apply k_encode_spec.
    + cbn. intuition discriminate.
Qed.

Lemma try_block_keeps (env : Env) (o : ProcessOptions) :
  keeps (probed_before_mix (path_join env (tmp_dir env o) "polished.wav"))
        (try_block env o).
Proof.
  rewrite try_block_unfold.
  apply keeps_bind with (Q := fun _ => True); [intros; exact I| |intros _ _].
  { intros w Hw. exec.
    destruct (mkdirSync_reply env); cbn [fst snd trace];
      (apply probed_app; [exact Hw|]); intros cmd Hc; cbn in Hc; intuition discriminate. }
  unfold k_download.
  eapply keeps_bind;
    [eapply stage_spec_result; apply step_download_spec
    | eapply stage_keeps; [apply step_download_spec|discriminate]
    | intros wavFiles [Hn Hw]].
  unfold k_stitch.
  apply keeps_bind with (Q := fun _ => True);
    [intros; exact I
    | eapply stage_keeps; [now apply step_stitch_spec|discriminate]
    | intros concatenatedPath _].
  unfold k_polish.
  eapply keeps_bind;
    [eapply stage_spec_result; apply step_polish_spec
    | eapply stage_keeps; [apply step_polish_spec|discriminate]
    | intros polishedPath Hp].
  cbv beta in Hp. subst polishedPath. apply k_mix_keeps.
Qed.

(** In a run, each mix command directly follows the probe of the
    polished track. *)
Lemma run_probes_before_mix (env : Env) (o : ProcessOptions) (p0 : Purchase)
      (exists0 : bool) :
  probed_before_mix (path_join env (tmp_dir env o) "polished.wav")
                    (trace (snd (run env o p0 exists0))).
Proof.
  unfold run, processRecording, try_finally, try_catch.
  assert (H0 : probed_before_mix (path_join env (tmp_dir env o) "polished.wav")
                                 (trace (initial p0 exists0)))
    by (intros cmd []).
  pose proof (try_block_keeps env o (initial p0 exists0) H0) as Ht.
  destruct (try_block env o (initial p0 exists0)) as [[k|e] w1];
    unfold catch_block, finally_block; exec; cbn [fst snd] in *.
  all: destruct (rmSync_reply env); cbn [fst snd trace purchase workspace_exists].
  all: norm_trace; (apply probed_app; [exact Ht|]).
  all: intros cmd Hc; cbn in Hc; intuition discriminate.
Qed.

(** *** The graph and its lengths *)

Lemma mix_graph_printed (env : Env) (d : float) :
  map (print_chain env) (mix_graph d) = [music_filter env d; amix_filter].
Proof.
  unfold mix_graph, print_chain, print_filter, print_filter_number, print_label,
    music_filter, amix_filter, join.
  cbn [map chain_inputs chain_filters chain_output String.concat].
  rewrite !append_assoc. reflexivity.
Qed.

(** The mixed stream ends with the first input, whatever the second is. *)
Lemma mix_graph_length (d : float) (voice music : Length) :
  graph_length (mix_graph d) [("0:a", voice); ("1:a", music)] "out" = Some voice.
Proof.
  destruct music as [t|]; cbn; [destruct (PrimFloat.eqb t 0%float); cbn|]; reflexivity.
Qed.

(** The music stream is cut at [d] seconds, when there is music. *)
Lemma music_chain_length (d : float) (voice : Length) (t : float) :
  PrimFloat.eqb t 0%float = false ->
  graph_length (mix_graph d) [("0:a", voice); ("1:a", Seconds t)] "music"
  = Some (Seconds d).
Proof.
  intros Ht. cbn. rewrite Ht. reflexivity.
Qed.

(** C7. A mix command that a run submits directly follows the probe of
    the polished voice track, and is built from the duration [d] that this
    probe returned.  It has the polished track as its first input and the
    music as its second, and maps the stream [out] to its output.  Its
    filter graph is made of the music chain (endless loop, trim to [d],
    fade-in of 3 seconds from 0, fade-out of 5 seconds from
    [Math.max(0, d - 5)], volume 0.1) and of an [amix] of the voice and
    the music with [duration=first]; for a voice track of 3 seconds the
    fade-out starts at 0.  By what ffmpeg documents for these filters, the
    stream [out] lasts as long as the first input, the polished track,
    whatever the length of the music file; when what the probe reported
    is the length of the polished track, that is [d] seconds, and the
    music is cut at [d] seconds too.  When the music response is [ok], the music is
    written and the probe succeeds, this command is submitted. *)
Theorem C7_music_filter_graph (env : Env) (o : ProcessOptions) (p0 : Purchase)
        (exists0 : bool) (cmd : FfmpegCommand) :
  In (EvFfmpeg AtMusic cmd) (trace (snd (run env o p0 exists0))) ->
  let polished := path_join env (tmp_dir env o) "polished.wav" in
  let music := path_join env (tmp_dir env o) "music.mp3" in
  (exists dur,
      ffprobe_reply env AtMusic = Ok dur /\
      (exists pre post,
          trace (snd (run env o p0 exists0))
          = (pre ++ EvFfprobe AtMusic polished :: EvFfmpeg AtMusic cmd :: post)%list) /\
      cmd = mix_command env polished music
                        (path_join env (tmp_dir env o) "mixed.wav") (or_zero dur) /\
      cmd_inputs cmd = [polished; music] /\
      cmd_outputOptions cmd = ["-map"; "[out]"] /\
      cmd_complexFilter cmd =
        [join "," ["[1:a]aloop=loop=-1:size=2e+09";
                   "atrim=duration=" ++ Number_toString env (or_zero dur);
                   "afade=t=in:st=0:d=3";
                   "afade=t=out:st="
                     ++ Number_toString env
                          (Math_max 0%float (PrimFloat.sub (or_zero dur) 5%float))
                     ++ ":d=5";
                   "volume=0.1[music]"];
         "[0:a][music]amix=inputs=2:duration=first:dropout_transition=2[out]"] /\
      cmd_complexFilter cmd = map (print_chain env) (mix_graph (or_zero dur)) /\
      (forall voice music_length,
          graph_length (mix_graph (or_zero dur))
                       [("0:a", voice); ("1:a", music_length)] "out" = Some voice) /\
      (forall x music_length,
          dur = Some x -> is_nan x = false ->
          graph_length (mix_graph (or_zero dur))
                       [("0:a", Seconds x); ("1:a", music_length)] "out"
          = Some (Seconds x) /\
          PrimFloat.eqb x (or_zero dur) = true /\
          (truthy_number x = true -> or_zero dur = x)) /\
      (forall voice t,
          PrimFloat.eqb t 0%float = false ->
          graph_length (mix_graph (or_zero dur))
                       [("0:a", voice); ("1:a", Seconds t)] "music"
          = Some (Seconds (or_zero dur)))) /\
  fade_out_start 3%float = 0%float /\
  fade_out_start 12.5%float = 7.5%float /\
  (forall tmpDir polishedPath w r b dur,
      truthy (musicTrack o) = true ->
      fetch_reply env AtMusic = Ok r -> ok r = true -> arrayBuffer r = Ok b ->
      writeFileSync_reply env AtMusic = None ->
      ffprobe_reply env AtMusic = Ok dur ->
      In (EvFfmpeg AtMusic
            (mix_command env polishedPath (path_join env tmpDir "music.mp3")
                         (path_join env tmpDir "mixed.wav") (or_zero dur)))
         (trace (snd (step_mix env o tmpDir polishedPath w)))).
Proof.
  intros Hin polished music.
  destruct (run_event_ok _ _ _ _ _ Hin) as (r & dur & Hr & Hok & Hd & ->).
  split.
  { exists dur. split; [exact Hd|].
    split; [exact (run_probes_before_mix env o p0 exists0 _ Hin)|].
    split; [reflexivity|]. split; [reflexivity|]. split; [reflexivity|].
    assert (E : cmd_complexFilter (session_mix_command env o (or_zero dur))
                = [music_filter env (or_zero dur); amix_filter]) by reflexivity.
    split; [rewrite E, music_filter_chain; reflexivity|].
    split; [rewrite E; symmetry; apply mix_graph_printed|].
    split; [intros voice music_length; apply mix_graph_length|].
    split.
    - intros x music_length -> Hx.
      split; [apply mix_graph_length|].
      unfold or_zero, truthy_number. rewrite Hx. cbn [negb andb].
      unfold is_nan in Hx. apply negb_false_iff in Hx.
      destruct (PrimFloat.eqb x 0%float) eqn:Hz; cbn [negb]; split;
        [exact Hz|discriminate|exact Hx|reflexivity].
    - intros voice t Ht. now apply music_chain_length. }
  split; [reflexivity|].
  split; [reflexivity|].
  intros tmpDir polishedPath w r' b dur' Hm Hr' Hok' Hb Hw Hd'.
  rewrite (step_mix_runs_mix env o tmpDir polishedPath w r' b dur' Hm Hr' Hok' Hb Hw Hd').
  apply in_or_app. right. cbn. tauto.
Qed.

(** A [fetch] of the music that rejects is not caught in the music block:
    the block throws the error of the fetch. *)
Lemma step_mix_rejected_fetch (env : Env) (o : ProcessOptions) (tmpDir polishedPath : string)
      (w : World) (e : Thrown) :
  truthy (musicTrack o) = true ->
  fetch_reply env AtMusic = Throws e ->
  fst (step_mix env o tmpDir polishedPath w) = Throws e.
Proof.
  intros Hm Hr. unfold step_mix, mix_music. rewrite Hm. exec. now rewrite Hr.
Qed.

(** C3 (the code departs from it). With a music track selected and every
    other collaborator succeeding, a [fetch] of the music that rejects
    (host unreachable) ends the run in the [catch] block: the job is
    marked failed with the error of the fetch and no encoding or upload
    takes place. *)
Theorem C3_rejected_music_fetch_fails_the_run :
  fst (run Sample.music_unreachable Sample.opts Sample.fresh false)
    = Throws (JsError "fetch failed") /\
  processing_status
    (purchase (snd (run Sample.music_unreachable Sample.opts Sample.fresh false)))
    = Some "failed" /\
  error_message
    (purchase (snd (run Sample.music_unreachable Sample.opts Sample.fresh false)))
    = Some "fetch failed" /\
  steps_of (trace (snd (run Sample.music_unreachable Sample.opts Sample.fresh false)))
    = [downloading; stitching; polishing; mixing_music].
Proof.
  vm_compute. repeat split.
Qed.

(* ================================================================== *)
(** * The properties on the sample session *)

Ltac find_in := repeat first [left; reflexivity | right].

(** C1 on a session without pages: the job is failed with the message of
    the pipeline's own error, which is not empty, and the workspace is
    removed. *)
Lemma C1_failure_is_recorded_witness :
  processing_status
    (purchase (snd (run Sample.no_audio Sample.opts Sample.fresh false))) = Some "failed" /\
  error_message
    (purchase (snd (run Sample.no_audio Sample.opts Sample.fresh false)))
    = Some "No recording pages found for session" /\
  "No recording pages found for session" <> "" /\
  workspace_exists (snd (run Sample.no_audio Sample.opts Sample.fresh false)) = false.
Proof.
  destruct (C1_failure_is_recorded Sample.no_audio Sample.opts Sample.fresh false
              (JsError "No recording pages found for session") eq_refl)
    as (H1 & H2 & _ & _ & H5 & H6).
  split; [exact H1|]. split; [exact H2|]. split.
  - apply H5. intros x Hx. destruct Hx as [e H|s e H|s r e H1' H2'|s e H|s e H|s e H|s e H];
      cbn in *; try discriminate.
    injection H1' as <-. discriminate H2'.
  - apply H6. reflexivity.
Defined.

(** C2 on the sample session of three pages: the run writes a concat
    list of five lines, the clips in the order of the pages with the
    silence clip between them. *)
Lemma C2_manifest_interleaves_pages_witness :
  List.length
    (manifest Sample.happy Sample.opts [Sample.page 0; Sample.page 1; Sample.page 2])
  = 2 * 3 - 1 /\
  nth_error
    (manifest Sample.happy Sample.opts [Sample.page 0; Sample.page 1; Sample.page 2]) (2 * 1)
  = Some "file '/tmp/s1/page-1.wav'" /\
  nth_error
    (manifest Sample.happy Sample.opts [Sample.page 0; Sample.page 1; Sample.page 2])
    (2 * 1 + 1)
  = Some "file '/tmp/s1/silence.wav'" /\
  In (EvWriteFile AtConcat "/tmp/s1/concat.txt"
        (Text (join newline
                 ["file '/tmp/s1/page-0.wav'"; "file '/tmp/s1/silence.wav'";
                  "file '/tmp/s1/page-1.wav'"; "file '/tmp/s1/silence.wav'";
                  "file '/tmp/s1/page-2.wav'"])))
     (trace (snd (run Sample.happy Sample.opts Sample.fresh false))).
Proof.
  destruct (C2_manifest_interleaves_pages Sample.happy Sample.opts
              [Sample.page 0; Sample.page 1; Sample.page 2] 3 eq_refl
              (le_S 1 2 (le_S 1 1 (le_n 1))))
    as (_ & H2 & H3 & H4 & _ & _ & _ & H8).
  split; [exact H2|]. split; [exact (H3 1 (le_S 2 2 (le_n 2)))|].
  split; [exact (H4 1 (le_n 3))|].
  apply (H8 Sample.fresh false eq_refl eq_refl eq_refl); [|reflexivity].
  intros k _. repeat split.
Defined.

(** C4 on a session without music: mixing_music is not written. *)
Lemma C4_steps_move_forward_witness :
  ~ In mixing_music
      (steps_of (trace (snd (run Sample.happy Sample.opts_no_music Sample.fresh false)))).
Proof.
  destruct (C4_steps_move_forward Sample.happy Sample.opts_no_music Sample.fresh false)
    as (_ & _ & _ & _ & H).
  apply H. reflexivity.
Defined.

(** C5 on the sample session. *)
Lemma C5_success_returns_the_session_key_witness :
  "processed/s1.mp3" = "processed/" ++ sessionId Sample.opts ++ ".mp3" /\
  final_audio_url
    (purchase (snd (run Sample.happy Sample.opts Sample.fresh false)))
  = Some "processed/s1.mp3" /\
  error_message
    (purchase (snd (run Sample.happy Sample.opts Sample.fresh false))) = None.
Proof.
  assert (Hk : fst (run Sample.happy Sample.opts Sample.fresh false) = Ok "processed/s1.mp3")
    by (vm_compute; reflexivity).
  destruct (C5_success_returns_the_session_key Sample.happy Sample.opts Sample.fresh false
              "processed/s1.mp3" Hk)
    as (H1 & _ & H3 & _ & H5 & _).
  split; [exact H1|]. split; [exact H3|]. apply H5. reflexivity.
Defined.

(** C6 on a session whose pages have no audio. *)
Lemma C6_no_pages_fails_early_witness :
  fst (run Sample.no_audio Sample.opts Sample.fresh false)
    = Throws (JsError "No recording pages found for session") /\
  steps_of (trace (snd (run Sample.no_audio Sample.opts Sample.fresh false)))
    = [downloading].
Proof.
  destruct (C6_no_pages_fails_early Sample.no_audio Sample.opts Sample.fresh false
              eq_refl eq_refl) as (H1 & _ & _ & H4 & _).
  split; [exact H1|exact H4].
Defined.

(** C7 on a session whose polished track lasts 3 seconds: the fade-out
    starts at 0, and the mix lasts 3 seconds with a music file of one
    second as with one of ten minutes. *)
Lemma C7_music_filter_graph_witness :
  cmd_inputs (session_mix_command Sample.short_voice Sample.opts 3%float)
  = ["/tmp/s1/polished.wav"; "/tmp/s1/music.mp3"] /\
  cmd_complexFilter (session_mix_command Sample.short_voice Sample.opts 3%float)
  = ["[1:a]aloop=loop=-1:size=2e+09,atrim=duration=3,afade=t=in:st=0:d=3,afade=t=out:st=0:d=5,volume=0.1[music]";
     "[0:a][music]amix=inputs=2:duration=first:dropout_transition=2[out]"] /\
  graph_length (mix_graph 3%float) [("0:a", Seconds 3%float); ("1:a", Seconds 1%float)] "out"
  = Some (Seconds 3%float) /\
  graph_length (mix_graph 3%float) [("0:a", Seconds 3%float); ("1:a", Seconds 600%float)] "out"
  = Some (Seconds 3%float).
Proof.
  assert (Hin : In (EvFfmpeg AtMusic (session_mix_command Sample.short_voice Sample.opts 3%float))
                   (trace (snd (run Sample.short_voice Sample.opts Sample.fresh false))))
    by (vm_compute; find_in).
  destruct (C7_music_filter_graph Sample.short_voice Sample.opts Sample.fresh false _ Hin)
    as ((dur & H1 & _ & _ & H3 & _ & H4 & _ & _ & H7 & _) & _).
  assert (Hdur : dur = Some 3%float)
    by exact (f_equal (fun r => match r with Ok x => x | Throws _ => None end) (eq_sym H1)).
  split; [exact H3|].
  split; [rewrite H4, Hdur; reflexivity|].
  destruct (H7 3%float (Seconds 1%float) Hdur eq_refl) as [G1 _].
  destruct (H7 3%float (Seconds 600%float) Hdur eq_refl) as [G2 _].
  rewrite Hdur in G1, G2. split; [exact G1|exact G2].
Defined.

(** C8 on the page lookup of the sample session. *)
Lemma C8_step_written_before_stage_witness :
  In (EvUpdateStep "p1" downloading)
     (before is_page_lookup (trace (snd (run Sample.happy Sample.opts Sample.fresh false)))) /\
  current_step
    (before is_page_lookup (trace (snd (run Sample.happy Sample.opts Sample.fresh false))))
  = Some downloading.
Proof.
  apply (C8_step_written_before_stage Sample.happy Sample.opts Sample.fresh false
           (before is_page_lookup
                   (trace (snd (run Sample.happy Sample.opts Sample.fresh false))))
           (EvListPages "s1")
           (after is_page_lookup
                  (trace (snd (run Sample.happy Sample.opts Sample.fresh false))))
           downloading).
  - vm_compute. reflexivity.
  - reflexivity.
Defined.

(** C9 on the sample session. *)
Lemma C9_lookup_error_looks_like_no_pages_witness :
  fst (run (with_pages Sample.happy
                       {| pages_data := None; pages_error := Some "connection refused" |})
           Sample.opts Sample.fresh false)
  = Throws (JsError "No recording pages found for session").
Proof.
  destruct (C9_lookup_error_looks_like_no_pages Sample.happy Sample.opts Sample.fresh false
              None "connection refused") as (_ & H).
  destruct (H eq_refl) as (H1 & _). exact H1.
Defined.

(** C10 on a session whose music file is missing: the step is written,
    no mix is run. *)
Lemma C10_mixing_step_precedes_fetch_witness :
  In mixing_music
     (steps_of (trace (snd (run Sample.music_missing Sample.opts Sample.fresh false)))) /\
  forall cmd,
    ~ In (EvFfmpeg AtMusic cmd)
         (trace (snd (run Sample.music_missing Sample.opts Sample.fresh false))).
Proof.
  destruct (C10_mixing_step_precedes_fetch Sample.music_missing Sample.opts Sample.fresh false
              (before is_music_fetch
                 (trace (snd (run Sample.music_missing Sample.opts Sample.fresh false))))
              "https://voicehearth.example/music/calm.mp3"
              (after is_music_fetch
                 (trace (snd (run Sample.music_missing Sample.opts Sample.fresh false))))
              ltac:(vm_compute; reflexivity))
    as (_ & _ & _ & _ & H5 & H6 & _).
  split; [exact H5|].
  apply H6. intros r Hr. cbn in Hr. injection Hr as <-. reflexivity.
Defined.

(* ================================================================== *)
(** * Further properties of the pipeline *)

(** ** Calls and results *)

Lemma last_nonempty {A} (l : list A) (d d' : A) : l <> [] -> last l d = last l d'.
Proof.
  induction l as [|x l IH]; [congruence|]. intros _.
  destruct l as [|y l]; [reflexivity|].
  change (last (y :: l) d = last (y :: l) d'). apply IH. discriminate.
Qed.

Lemma verdict_app (env : Env) {A} (pre evs : list Event) (r : Outcome A) :
  all_ok env pre = true -> verdict env evs r -> verdict env (pre ++ evs) r.
Proof.
  intros Hpre. destruct r as [a|e]; cbn [verdict].
  - intros H. unfold all_ok in *. now rewrite forallb_app, Hpre, H.
  - intros (Hne & Hok & Hf & He).
    rewrite (removelast_app pre Hne), last_app, (last_nonempty evs _ (EvRm "") Hne).
    split; [destruct pre; [exact Hne|discriminate]|].
    split; [unfold all_ok in *; now rewrite forallb_app, Hpre, Hok|].
    split; assumption.
Qed.

Lemma call_spec_bind (env : Env) (o : ProcessOptions) {A B} (Q : A -> Prop)
      (m : M A) (f : A -> M B) :
  (forall w a, fst (m w) = Ok a -> Q a) ->
  call_spec env o m ->
  (forall a, Q a -> call_spec env o (f a)) ->
  call_spec env o (bind m f).
Proof.
  intros HQ Hm Hf w.
  destruct (Hm w) as (evs1 & Ht1 & Hv1 & Hw1).
  unfold bind. specialize (HQ w).
  destruct (m w) as [[a|e] w1]; cbn [fst snd] in *.
  - destruct (Hf a (HQ a eq_refl) w1) as (evs2 & Ht2 & Hv2 & Hw2).
    exists (evs1 ++ evs2)%list. rewrite Ht2, Ht1, app_assoc.
    split; [reflexivity|]. split; [now apply verdict_app|].
    apply Forall_app. now split.
  - exists evs1. split; [exact Ht1|]. split; [exact Hv1|exact Hw1].
Qed.

Ltac fix_bools :=
  repeat match goal with
         | H : negb _ = false |- _ => apply negb_false_iff in H
         | H : negb _ = true |- _ => apply negb_true_iff in H
         end.

Ltac use_replies :=
  repeat match goal with
         | H : ?x = _ |- context [?x] => rewrite H
         end.

Ltac weigh :=
  repeat (cbn [verdict all_ok forallb removelast last failing error_of];
          use_replies;
          cbn [negb andb orb is_some is_throw]).

(** *** Spaces, separators and file names *)

Lemma count_spaces_app (a b : string) :
  count_spaces (a ++ b) = count_spaces a + count_spaces b.
Proof.
  induction a as [|c a IH]; [reflexivity|].
  change (String c a ++ b) with (String c (a ++ b)).
  cbn [count_spaces]. rewrite IH. lia.
Qed.

Lemma has_slash_app (a b : string) :
  has_slash (a ++ b) = has_slash a || has_slash b.
Proof.
  induction a as [|c a IH]; [reflexivity|].
  change (String c a ++ b) with (String c (a ++ b)).
  cbn [has_slash]. rewrite IH. now rewrite orb_assoc.
Qed.

Lemma split_space_length (s : string) :
  List.length (split_space s) = S (count_spaces s).
Proof.
  induction s as [|c s IH]; [reflexivity|].
  cbn [split_space count_spaces]. destruct (Ascii.eqb c " ").
  - cbn [List.length]. now rewrite IH.
  - destruct (split_space s); [discriminate IH|exact IH].
Qed.

Lemma split_space_plain (a : string) : count_spaces a = 0 -> split_space a = [a].
Proof.
  induction a as [|c a IH]; [reflexivity|].
  cbn [split_space count_spaces]. destruct (Ascii.eqb c " "); [discriminate|].
  intros H. now rewrite IH.
Qed.

Lemma split_space_app (a rest : string) :
  count_spaces a = 0 -> split_space (a ++ " " ++ rest) = a :: split_space rest.
Proof.
  induction a as [|c a IH]; [reflexivity|].
  change (String c a ++ " " ++ rest) with (String c (a ++ " " ++ rest)).
  cbn [split_space count_spaces]. destruct (Ascii.eqb c " "); [discriminate|].
  intros H. now rewrite IH.
Qed.

(** An option is left whole unless it has exactly one space. *)
Lemma split_option_whole (s : string) :
  count_spaces s <> 1 -> Builder.split_option s = [s].
Proof.
  intros H. unfold Builder.split_option. rewrite split_space_length.
  destruct (S (count_spaces s) =? 2)%nat eqn:E; [|reflexivity].
  apply Nat.eqb_eq in E. lia.
Qed.

Lemma split_option_two (a b : string) :
  count_spaces a = 0 -> count_spaces b = 0 ->
  Builder.split_option (a ++ " " ++ b) = [a; b].
Proof.
  intros Ha Hb. unfold Builder.split_option.
  now rewrite (split_space_app a b Ha), (split_space_plain b Hb).
Qed.

Lemma digits_have_no_slash (d : Decimal.uint) :
  has_slash (NilEmpty.string_of_uint d) = false.
Proof.
  induction d; cbn [NilEmpty.string_of_uint has_slash]; try rewrite IHd; reflexivity.
Qed.

Lemma show_int_has_no_slash (n : Z) : has_slash (show_int n) = false.
Proof.
  unfold show_int, NilZero.string_of_int, NilZero.string_of_uint.
  destruct (Z.to_int n) as [d|d]; cbn [has_slash Ascii.eqb orb];
    destruct d; try reflexivity;
    apply (digits_have_no_slash (_ d)) || apply digits_have_no_slash.
Qed.

(** The names of the files of a page are plain. *)
Lemma page_file_is_plain (n : Z) (extension : string) :
  has_slash extension = false ->
  plain_name ("page-" ++ show_int n ++ extension) = true.
Proof.
  intros He. unfold plain_name.
  rewrite !has_slash_app, show_int_has_no_slash, He. reflexivity.
Qed.

Ltac in_ws :=
  first [ assumption
        | eexists; split; [|reflexivity];
          first [reflexivity | apply page_file_is_plain; reflexivity] ].

Ltac well_formed_event :=
  cbn [event_wf]; unfold canonical; cbn;
  repeat match goal with
         | |- _ /\ _ => split
         | |- exists p, Some _ = Some p /\ _ => eexists; split; [reflexivity|]
         | |- Forall _ [] => constructor
         | |- Forall _ (_ :: _) => constructor
         | |- in_workspace _ _ _ => in_ws
         end;
  first [ exact I | reflexivity | solve [eauto 10] ].

Ltac well_formed :=
  repeat (constructor; [well_formed_event|]);
  first [constructor | assumption].

Lemma skipn_cons {A} (k : nat) (l : list A) (x : A) (rest : list A) :
  skipn k l = x :: rest -> nth_error l k = Some x /\ skipn (S k) l = rest.
Proof.
  revert l. induction k as [|k IH]; intros l H.
  - cbn in H. subst l. split; reflexivity.
  - destruct l as [|y l]; [discriminate|]. cbn in H. apply IH in H. exact H.
Qed.

Lemma download_pages_calls (env : Env) (o : ProcessOptions) (rest : list Page) :
  forall k wavFiles w,
    skipn k (pages_of (listPages_reply env)) = rest ->
    exists evs,
      trace (snd (download_pages env (tmp_dir env o) k rest wavFiles w))
        = (trace w ++ evs)%list /\
      verdict env evs (fst (download_pages env (tmp_dir env o) k rest wavFiles w)) /\
      Forall (event_wf env o) evs.
Proof.
  induction rest as [|page rest IH]; intros k wavFiles w Hk.
  - exists []. cbn. rewrite app_nil_r. repeat split. constructor.
  - apply skipn_cons in Hk. destruct Hk as [Hpage Hk].
    cbn [download_pages]. exec.
    repeat split_reply; fix_bools.
    all: try name_world w1.
    all: try match goal with
             | |- context [download_pages _ _ _ _ ?ws ?ww] =>
                 destruct (IH (S k) ws ww Hk) as (evs & Ht & Hv & Hw)
             end.
    all: eexists; rewrite ?Ht, ?Htrace; norm_trace; (split; [reflexivity|]).
    all: split; [|well_formed].
    all: try (apply (verdict_app env [_; _; _; _] evs); [|exact Hv]).
    all: weigh; repeat split; try discriminate; try reflexivity; eauto 10.
Qed.

Ltac close_calls :=
  eexists; norm_trace; (split; [reflexivity|]);
  (split; [|well_formed]);
  weigh; repeat split; try discriminate; try reflexivity; eauto 10.

Lemma step_download_calls (env : Env) (o : ProcessOptions) :
  call_spec env o (step_download env o (tmp_dir env o)).
Proof.
  intros w. unfold step_download. exec.
  split_reply; [close_calls|].
  name_world w1.
  match goal with
  | |- context [download_pages _ _ _ ?ps ?ws w1] =>
      destruct (download_pages_calls env o ps 0 ws w1 eq_refl) as (evs & Ht & Hv & Hw)
  end.
  eexists. rewrite Ht, Htrace. norm_trace. split; [reflexivity|].
  split; [|well_formed].
  apply (verdict_app env [_; _] evs); [|exact Hv].
  weigh. reflexivity.
Qed.

Lemma step_stitch_calls (env : Env) (o : ProcessOptions) (wavFiles : list string) :
  call_spec env o (step_stitch env o (tmp_dir env o) wavFiles).
Proof.
  intros w. unfold step_stitch. exec. repeat split_reply; close_calls.
Qed.

Lemma step_stitch_result (env : Env) (o : ProcessOptions) (wavFiles : list string) :
  forall w a,
    fst (step_stitch env o (tmp_dir env o) wavFiles w) = Ok a ->
    a = path_join env (tmp_dir env o) "concatenated.wav".
Proof.
  intros w a. unfold step_stitch. exec.
  repeat split_reply; try discriminate. now intros [= <-].
Qed.

Lemma step_polish_calls (env : Env) (o : ProcessOptions) (concatenatedPath : string) :
  concatenatedPath = path_join env (tmp_dir env o) "concatenated.wav" ->
  call_spec env o (step_polish env o (tmp_dir env o) concatenatedPath).
Proof.
  intros -> w. unfold step_polish. exec. repeat split_reply; close_calls.
Qed.

Lemma step_mix_calls (env : Env) (o : ProcessOptions) (polishedPath : string) :
  polishedPath = path_join env (tmp_dir env o) "polished.wav" ->
  call_spec env o (step_mix env o (tmp_dir env o) polishedPath).
Proof.
  intros -> w. unfold step_mix, mix_music. exec.
  repeat split_reply; try close_calls.
  exists []. rewrite app_nil_r. repeat split. constructor.
Qed.

(** [inputForEncode] is the mixed or the polished track. *)
Lemma step_mix_result (env : Env) (o : ProcessOptions) :
  forall w a,
    fst (step_mix env o (tmp_dir env o) (path_join env (tmp_dir env o) "polished.wav") w)
      = Ok a ->
    in_workspace env o a.
Proof.
  intros w a. unfold step_mix, mix_music. exec.
  repeat split_reply; try discriminate; intros [= <-]; in_ws.
Qed.

Lemma step_encode_calls (env : Env) (o : ProcessOptions) (inputForEncode : string) :
  in_workspace env o inputForEncode ->
  call_spec env o (step_encode env o (tmp_dir env o) inputForEncode).
Proof.
  intros Hinput w. unfold step_encode. exec. repeat split_reply; close_calls.
Qed.

Lemma step_upload_calls (env : Env) (o : ProcessOptions) (mp3Path : string) :
  mp3Path = path_join env (tmp_dir env o) "output.mp3" ->
  call_spec env o (step_upload env o mp3Path).
Proof.
  intros -> w. unfold step_upload. exec. repeat split_reply; close_calls.
Qed.

Lemma mkdirSync_calls (env : Env) (o : ProcessOptions) :
  call_spec env o (mkdirSync env (tmp_dir env o)).
Proof.
  intros w. exec. repeat split_reply; close_calls.
Qed.

Lemma step_encode_result (env : Env) (o : ProcessOptions) (inputForEncode : string) :
  forall w a,
    fst (step_encode env o (tmp_dir env o) inputForEncode w) = Ok a ->
    a = path_join env (tmp_dir env o) "output.mp3".
Proof.
  intros w a. unfold step_encode. exec.
  split_reply; [discriminate|]. now intros [= <-].
Qed.

Lemma try_block_calls (env : Env) (o : ProcessOptions) :
  call_spec env o (try_block env o).
Proof.
  rewrite try_block_unfold.
  apply call_spec_bind with (Q := fun _ => True);
    [intros; exact I | apply mkdirSync_calls | intros _ _].
  unfold k_download.
  eapply call_spec_bind;
    [eapply stage_spec_result; apply step_download_spec
    | apply step_download_calls | intros wavFiles _].
  unfold k_stitch.
  eapply call_spec_bind;
    [apply step_stitch_result | apply step_stitch_calls | intros concatenatedPath Hc].
  unfold k_polish.
  eapply call_spec_bind;
    [eapply stage_spec_result; apply step_polish_spec
    | now apply step_polish_calls | intros polishedPath Hp].
  unfold k_mix. cbv beta in Hp. subst polishedPath.
  eapply call_spec_bind;
    [apply step_mix_result | now apply step_mix_calls | intros inputForEncode Hi].
  unfold k_encode.
  eapply call_spec_bind;
    [apply step_encode_result
    | now apply step_encode_calls | intros mp3Path Hm].
  unfold k_upload.
  eapply call_spec_bind;
    [eapply stage_spec_result; apply step_upload_spec
    | now apply step_upload_calls | intros out Hout].
  intros w. exec. close_calls.
Qed.

(** The calls of a run are those of the [try] block, then those of the
    [catch] block and the removal of the workspace; the former agree with
    the result and all are well formed. *)
Lemma run_calls (env : Env) (o : ProcessOptions) (p0 : Purchase) (exists0 : bool) :
  exists evs,
    trace (snd (run env o p0 exists0))
      = (evs ++ catch_calls o (fst (run env o p0 exists0)) ++ [EvRm (tmp_dir env o)])%list /\
    verdict env evs (fst (run env o p0 exists0)) /\
    Forall (event_wf env o) (trace (snd (run env o p0 exists0))).
Proof.
  unfold run, processRecording, try_finally, try_catch.
  destruct (try_block_calls env o (initial p0 exists0)) as (evs & Ht & Hv & Hw).
  cbn [initial trace app] in Ht.
  destruct (try_block env o (initial p0 exists0)) as [[k|e] w1];
    unfold catch_block, finally_block; exec; cbn [fst snd] in *.
  all: destruct (rmSync_reply env); cbn [fst snd trace purchase workspace_exists catch_calls].
  all: exists evs; rewrite Ht; norm_trace.
  all: (split; [reflexivity|]); (split; [exact Hv|]).
  all: apply Forall_app; (split; [exact Hw|]).
  all: repeat (constructor; [reflexivity|]); constructor.
Qed.

Lemma all_ok_In (env : Env) (evs : list Event) (c : Event) :
  all_ok env evs = true -> In c evs -> failing env c = false.
Proof.
  unfold all_ok. rewrite forallb_forall. intros H Hin.
  apply H in Hin. now apply negb_true_iff in Hin.
Qed.

Lemma closing_not_failing (env : Env) (o : ProcessOptions) (r : Outcome string) (c : Event) :
  In c (catch_calls o r ++ [EvRm (tmp_dir env o)]) -> failing env c = false.
Proof.
  destruct r; cbn; intros H; repeat (destruct H as [<-|H]; [reflexivity|]); destruct H.
Qed.

Lemma run_verdict (env : Env) (o : ProcessOptions) (p0 : Purchase) (exists0 : bool) :
  (forall k, fst (run env o p0 exists0) = Ok k ->
             forall c, In c (trace (snd (run env o p0 exists0))) -> failing env c = false) /\
  (forall e, fst (run env o p0 exists0) = Throws e ->
             exists before c,
               trace (snd (run env o p0 exists0))
                 = (before ++ [c;
                               EvConsoleError (sessionId o) (message_of e);
                               EvMarkFailed (purchaseId o) (message_of e);
                               EvRm (tmp_dir env o)])%list /\
               (forall c', In c' before -> failing env c' = false) /\
               failing env c = true /\
               error_of env c e).
Proof.
  destruct (run_calls env o p0 exists0) as (evs & Ht & Hv & _).
  split.
  - intros k Hk c Hin. rewrite Hk in *. cbn [verdict] in Hv.
    rewrite Ht in Hin. apply in_app_or in Hin. destruct Hin as [Hin|Hin].
    + exact (all_ok_In env evs c Hv Hin).
    + exact (closing_not_failing env o (Ok k) c Hin).
  - intros e He. rewrite He in *. cbn [verdict catch_calls] in *.
    destruct Hv as (Hne & Hok & Hf & Herr).
    exists (removelast evs), (last evs (EvRm "")).
    split.
    + rewrite Ht. rewrite (app_removelast_last (EvRm "") Hne) at 1.
      rewrite <- app_assoc. reflexivity.
    + split; [|split; assumption].
      intros c' Hc'. exact (all_ok_In env _ c' Hok Hc').
Qed.

(** A call that fails is the last call of the [try] block, and the run
    throws its error. *)
Lemma failing_call_inv (env : Env) (o : ProcessOptions) (p0 : Purchase) (exists0 : bool)
      (c : Event) :
  In c (trace (snd (run env o p0 exists0))) -> failing env c = true ->
  exists e before,
    fst (run env o p0 exists0) = Throws e /\
    error_of env c e /\
    trace (snd (run env o p0 exists0))
      = (before ++ [c;
                    EvConsoleError (sessionId o) (message_of e);
                    EvMarkFailed (purchaseId o) (message_of e);
                    EvRm (tmp_dir env o)])%list.
Proof.
  intros Hin Hc.
  destruct (run_verdict env o p0 exists0) as [Hok Hthrow].
  destruct (fst (run env o p0 exists0)) as [k|e] eqn:Hr.
  - rewrite (Hok k eq_refl c Hin) in Hc. discriminate.
  - destruct (Hthrow e eq_refl) as (before & c' & Ht & Hb & Hf & He).
    exists e, before. split; [reflexivity|].
    rewrite Ht in Hin. apply in_app_or in Hin. destruct Hin as [Hin|Hin].
    + rewrite (Hb c Hin) in Hc. discriminate.
    + destruct Hin as [<-|Hin]; [split; [exact He|exact Ht]|].
      repeat (destruct Hin as [<-|Hin]; [discriminate Hc|]). destruct Hin.
Qed.

(** X1. The result of a run is decided by its calls.  A run that returns
    made no call that fails.  A run that throws made exactly one: it is
    the last call before the failure is logged and recorded and the
    workspace is removed, and the error thrown is the error of that call
    (the collaborator's own error, or the one [processRecording] creates
    for a missing page set, a refused signed URL, a page response that is
    not ok, or a failed upload). *)
Theorem X1_result_is_decided_by_the_calls (env : Env) (o : ProcessOptions)
        (p0 : Purchase) (exists0 : bool) :
  (forall k, fst (run env o p0 exists0) = Ok k ->
             forall c, In c (trace (snd (run env o p0 exists0))) -> failing env c = false) /\
  (forall e, fst (run env o p0 exists0) = Throws e ->
             exists before c,
               trace (snd (run env o p0 exists0))
                 = (before ++ [c;
                               EvConsoleError (sessionId o) (message_of e);
                               EvMarkFailed (purchaseId o) (message_of e);
                               EvRm (tmp_dir env o)])%list /\
               (forall c', In c' before -> failing env c' = false) /\
               failing env c = true /\
               error_of env c e).
Proof.
  exact (run_verdict env o p0 exists0).
Qed.

Lemma record_steps_final_audio_url (steps : list ProcessingStep) : forall p,
  final_audio_url (record_steps steps p) = final_audio_url p.
Proof.
  unfold record_steps. induction steps as [|s steps IH]; intros p; [reflexivity|].
  cbn. now rewrite IH.
Qed.

Lemma run_failed_record (env : Env) (o : ProcessOptions) (p0 : Purchase) (exists0 : bool)
      (e : Thrown) :
  fst (run env o p0 exists0) = Throws e ->
  processing_status (purchase (snd (run env o p0 exists0))) = Some "failed" /\
  error_message (purchase (snd (run env o p0 exists0))) = Some (message_of e) /\
  final_audio_url (purchase (snd (run env o p0 exists0))) = final_audio_url p0.
Proof.
  intros He.
  destruct (run_structure env o p0 exists0) as (secs & _ & _ & _ & Hp & _).
  rewrite Hp, He. cbn. repeat split.
  apply record_steps_final_audio_url.
Qed.

(** X2. No transcode failure is survived or retried: when ffmpeg fails a
    command that a run submitted, that command is the last call of the
    run before the failure is recorded, the run throws ffmpeg's error, and
    the job is marked failed with its message. *)
Theorem X2_failed_transcode_fails_the_run (env : Env) (o : ProcessOptions)
        (p0 : Purchase) (exists0 : bool) (site : Site) (cmd : FfmpegCommand)
        (e : Thrown) :
  In (EvFfmpeg site cmd) (trace (snd (run env o p0 exists0))) ->
  ffmpeg_reply env site = Some e ->
  fst (run env o p0 exists0) = Throws e /\
  processing_status (purchase (snd (run env o p0 exists0))) = Some "failed" /\
  error_message (purchase (snd (run env o p0 exists0))) = Some (message_of e) /\
  exists before,
    trace (snd (run env o p0 exists0))
      = (before ++ [EvFfmpeg site cmd;
                    EvConsoleError (sessionId o) (message_of e);
                    EvMarkFailed (purchaseId o) (message_of e);
                    EvRm (tmp_dir env o)])%list.
Proof.
  intros Hin Hr.
  assert (Hf : failing env (EvFfmpeg site cmd) = true) by (cbn; now rewrite Hr).
  destruct (failing_call_inv env o p0 exists0 _ Hin Hf) as (e' & before & He' & Herr & Ht).
  cbn in Herr. rewrite Hr in Herr. injection Herr as <-.
  split; [exact He'|].
  destruct (run_failed_record env o p0 exists0 e He') as (H1 & H2 & _).
  split; [exact H1|]. split; [exact H2|].
  exists before. exact Ht.
Qed.

(** X3. When the upload returns an error, the run throws "Failed to upload
    processed MP3: " followed by the error's message; the job is marked
    failed with that text, [markCompleted] is not called and the job's
    final reference is left as it was. *)
Theorem X3_failed_upload_fails_the_run (env : Env) (o : ProcessOptions)
        (p0 : Purchase) (exists0 : bool) (site : Site) (key : string) (data : Buffer)
        (contentType : string) (upsert : bool) (message : string) :
  In (EvUpload site key data contentType upsert) (trace (snd (run env o p0 exists0))) ->
  upload_reply env site = Some message ->
  let w := snd (run env o p0 exists0) in
  fst (run env o p0 exists0)
    = Throws (JsError ("Failed to upload processed MP3: " ++ message)) /\
  processing_status (purchase w) = Some "failed" /\
  error_message (purchase w) = Some ("Failed to upload processed MP3: " ++ message) /\
  final_audio_url (purchase w) = final_audio_url p0 /\
  (forall pid path, ~ In (EvMarkCompleted pid path) (trace w)).
Proof.
  intros Hin Hr w. subst w.
  assert (Hf : failing env (EvUpload site key data contentType upsert) = true)
    by (cbn; now rewrite Hr).
  destruct (failing_call_inv env o p0 exists0 _ Hin Hf) as (e' & before & He' & Herr & Ht).
  cbn in Herr. destruct Herr as (m & Hm & ->). rewrite Hr in Hm. injection Hm as <-.
  split; [exact He'|].
  destruct (run_failed_record env o p0 exists0 _ He') as (H1 & H2 & H3).
  split; [exact H1|]. split; [exact H2|]. split; [exact H3|].
  intros pid path Hc.
  destruct (run_events env o p0 exists0 _ Hc) as [H | [[s H] | [[s [H _]] | [H | H]]]];
    try discriminate.
  rewrite He' in H. cbn in H. destruct H as [H|[H|[]]]; discriminate.
Qed.

(** X4. The errors of the page loop name the page: when the signed URL of
    a page is refused, or the response to its download is not ok, the run
    throws "Failed to get signed URL for page N", respectively "Failed to
    download page N", where N is the index of the page the loop was at. *)
Theorem X4_page_errors_name_the_page (env : Env) (o : ProcessOptions)
        (p0 : Purchase) (exists0 : bool) (k : nat) :
  (forall audio ttl,
      In (EvCreateSignedUrl (AtPage k) audio ttl) (trace (snd (run env o p0 exists0))) ->
      failing env (EvCreateSignedUrl (AtPage k) audio ttl) = true ->
      exists page,
        nth_error (pages_of (listPages_reply env)) k = Some page /\
        fst (run env o p0 exists0)
          = Throws (JsError ("Failed to get signed URL for page "
                               ++ show_int (page_index page)))) /\
  (forall url r,
      In (EvFetch (AtPage k) url) (trace (snd (run env o p0 exists0))) ->
      fetch_reply env (AtPage k) = Ok r -> ok r = false ->
      exists page,
        nth_error (pages_of (listPages_reply env)) k = Some page /\
        fst (run env o p0 exists0)
          = Throws (JsError ("Failed to download page " ++ show_int (page_index page)))).
Proof.
  split.
  - intros audio ttl Hin Hf.
    destruct (failing_call_inv env o p0 exists0 _ Hin Hf) as (e & _ & He & Herr & _).
    cbn in Herr. destruct Herr as (k' & page & [= <-] & Hp & ->).
    exists page. split; [exact Hp|exact He].
  - intros url r Hin Hr Hok.
    assert (Hf : failing env (EvFetch (AtPage k) url) = true)
      by (cbn; now rewrite Hr, Hok).
    destruct (failing_call_inv env o p0 exists0 _ Hin Hf) as (e & _ & He & Herr & _).
    cbn in Herr. rewrite Hr in Herr.
    destruct Herr as [Herr|(r' & [= <-] & [[Hok' _]|(_ & k' & page & [= <-] & Hp & ->)])];
      [discriminate|congruence|].
    exists page. split; [exact Hp|exact He].
Qed.

(** *** The metadata options *)

(** Of the metadata only the title can be split: the other options have
    no space, or two and more. *)
Lemma metadata_split (o : ProcessOptions) :
  Builder.split_options (metadata_options o)
  = ("-metadata" :: Builder.split_option ("title=" ++ storyTitle o)%string
       ++ ["-metadata"; "album=VoiceHearth"] ++ artist_options o)%list.
Proof.
  unfold Builder.split_options, metadata_options, artist_options.
  rewrite flat_map_app.
  change (flat_map Builder.split_option
            ["-metadata"; "title=" ++ storyTitle o; "-metadata"; "album=VoiceHearth"])
    with ("-metadata" :: Builder.split_option ("title=" ++ storyTitle o)%string
            ++ ["-metadata"; "album=VoiceHearth"])%list.
  rewrite <- app_comm_cons, <- app_assoc. do 2 f_equal. f_equal.
  destruct (truthy (readerName o)); [|reflexivity].
  cbn [flat_map]. rewrite app_nil_r.
  change (Builder.split_option "-metadata") with ["-metadata"].
  rewrite split_option_whole; [reflexivity|].
  rewrite count_spaces_app. cbn. lia.
Qed.

Lemma metadata_pass_whole (o : ProcessOptions) :
  count_spaces (storyTitle o) <> 1 ->
  Builder.split_options (metadata_options o) = metadata_options o.
Proof.
  intros H. rewrite metadata_split, split_option_whole.
  - unfold metadata_options, artist_options. reflexivity.
  - rewrite count_spaces_app. exact H.
Qed.

Lemma metadata_two_words (o : ProcessOptions) (first second : string) :
  storyTitle o = first ++ " " ++ second ->
  count_spaces first = 0 -> count_spaces second = 0 ->
  Builder.split_options (metadata_options o)
  = (["-metadata"; ("title=" ++ first)%string; second; "-metadata"; "album=VoiceHearth"]
       ++ artist_options o)%list.
Proof.
  intros Ht Hf Hs. rewrite metadata_split, Ht, <- append_assoc.
  rewrite split_option_two; [reflexivity| |exact Hs].
  rewrite count_spaces_app. exact Hf.
Qed.

Lemma run_event_wf (env : Env) (o : ProcessOptions) (p0 : Purchase) (exists0 : bool)
      (e : Event) :
  In e (trace (snd (run env o p0 exists0))) -> event_wf env o e.
Proof.
  destruct (run_calls env o p0 exists0) as (_ & _ & _ & Hw).
  rewrite Forall_forall in Hw. apply Hw.
Qed.

(** X5. How the ffmpeg commands of a run are built.  Each is set to one
    channel at 44100 Hz; the encoder's to mp3 at 192k, every other one to
    wav without a bitrate.  The output a command names, and each of its
    inputs but the generated silence source, is a plain file name joined
    to [/tmp/{sessionId}].  The options it is given through
    [outputOptions] are [-map [out]] for the mix, none for the commands
    before it and, for the encoder, the metadata as fluent-ffmpeg splits
    them: when the title has no space, or more than one, they are the
    metadata pairs themselves. *)
Theorem X5_how_transcodes_are_built (env : Env) (o : ProcessOptions)
        (p0 : Purchase) (exists0 : bool) (site : Site) (cmd : FfmpegCommand) :
  In (EvFfmpeg site cmd) (trace (snd (run env o p0 exists0))) ->
  let entry p :=
    exists name,
      plain_name name = true /\ p = path_join env (path_join env "/tmp" (sessionId o)) name in
  cmd_audioChannels cmd = Some 1%Z /\
  cmd_audioFrequency cmd = Some 44100%Z /\
  (exists p, cmd_output cmd = Some p /\ entry p) /\
  (site = AtEncode -> cmd_format cmd = Some "mp3" /\ cmd_audioBitrate cmd = Some "192k") /\
  (site <> AtEncode -> cmd_format cmd = Some "wav" /\ cmd_audioBitrate cmd = None) /\
  (site = AtSilence ->
   cmd_inputs cmd = ["anullsrc=r=44100:cl=mono"] /\ cmd_inputFormat cmd = Some "lavfi") /\
  (site <> AtSilence ->
   (forall i, In i (cmd_inputs cmd) -> entry i) /\ cmd_inputFormat cmd = None) /\
  (site = AtMusic -> cmd_outputOptions cmd = ["-map"; "[out]"]) /\
  (site <> AtMusic -> site <> AtEncode -> cmd_outputOptions cmd = []) /\
  (site = AtEncode -> count_spaces (storyTitle o) <> 1 ->
   cmd_outputOptions cmd = metadata_options o).
Proof.
  intros Hin entry. pose proof (run_event_wf env o p0 exists0 _ Hin) as H.
  cbn [event_wf] in H. destruct H as ([H1 H2] & Hout & H3 & H4 & H5).
  split; [exact H1|]. split; [exact H2|]. split; [exact Hout|].
  split; [intros ->; exact H3|].
  split; [intros Hs; destruct site; try exact H3; congruence|].
  split; [intros ->; exact H4|].
  split.
  { intros Hs. destruct site; try congruence.
    all: destruct H4 as [Hf Hn]; (split; [|exact Hn]).
    all: intros i Hi; rewrite Forall_forall in Hf; exact (Hf i Hi). }
  split; [intros ->; exact H5|].
  split; [intros Hm He; destruct site; try exact H5; congruence|].
  intros -> Ht. rewrite H5. unfold output_options_at. now apply metadata_pass_whole.
Qed.

(** X6. The paths a run gives to the file system and to the probe: every
    file it writes, reads or probes is a plain file name joined to
    [/tmp/{sessionId}], and that directory is the one it creates and
    removes.  (The files ffmpeg is told to read and write are in X5.) *)
Theorem X6_fs_paths_are_entries_of_the_workspace (env : Env) (o : ProcessOptions)
        (p0 : Purchase) (exists0 : bool) (e : Event) :
  In e (trace (snd (run env o p0 exists0))) ->
  match e with
  | EvWriteFile _ path _ | EvReadFile _ path | EvFfprobe _ path =>
      exists name,
        plain_name name = true /\
        path = path_join env (path_join env "/tmp" (sessionId o)) name
  | EvMkdir path | EvRm path => path = path_join env "/tmp" (sessionId o)
  | _ => True
  end.
Proof.
  intros Hin. pose proof (run_event_wf env o p0 exists0 _ Hin) as H.
  destruct e; cbn in H; try exact I; exact H.
Qed.

(** X7. The signed URLs are requested page by page: each request is for
    the audio reference of the page the loop is at, is valid 300 seconds,
    and the download that follows fetches the URL that request returned. *)
Theorem X7_signed_urls_are_requested_per_page (env : Env) (o : ProcessOptions)
        (p0 : Purchase) (exists0 : bool) (e : Event) :
  In e (trace (snd (run env o p0 exists0))) ->
  match e with
  | EvCreateSignedUrl site audio ttl =>
      ttl = 300%Z /\
      exists k page,
        site = AtPage k /\
        nth_error (pages_of (listPages_reply env)) k = Some page /\
        audio = audio_url page
  | EvFetch (AtPage k) url =>
      url = show_opt (signed_url (createSignedUrl_reply env (AtPage k)))
  | _ => True
  end.
Proof.
  intros Hin. pose proof (run_event_wf env o p0 exists0 _ Hin) as H.
  destruct e; try exact I; [exact H|].
  destruct site; try exact I. exact H.
Qed.

(** ** The workspace and the job record *)

Lemma count_app (P : Event -> bool) (a b : list Event) :
  count P (a ++ b) = count P a + count P b.
Proof.
  induction a as [|e a IH]; [reflexivity|]. cbn. rewrite IH. lia.
Qed.

Lemma count_none (P : Event -> bool) (l : list Event) :
  (forall e, In e l -> P e = false) -> count P l = 0.
Proof.
  induction l as [|e l IH]; intros H; [reflexivity|].
  cbn. rewrite (H e (or_introl eq_refl)), IH; [reflexivity|].
  intros e' He'. apply H. now right.
Qed.

Lemma count_flatten (env : Env) (o : ProcessOptions) (pid : string)
      (secs : list (ProcessingStep * list Event)) (P : Event -> bool) :
  Forall (section_ok env o) secs ->
  (forall e, P e = true -> stage_of e = None /\ step_of e = None) ->
  count P (flatten pid secs) = 0.
Proof.
  intros Hf HP. apply count_none. intros e He.
  destruct (P e) eqn:E; [|reflexivity].
  destruct (HP e E) as [H1 H2].
  destruct (in_flatten env o pid secs e Hf He) as [[s ->]|[s [Hs _]]]; [discriminate|congruence].
Qed.

(** X8. The workspace is created first and removed last, once each: the
    first call of every run is the creation of [/tmp/{sessionId}], the
    last one is its removal, whatever happens in between, and no other
    call creates or removes a directory. *)
Theorem X8_workspace_created_first_removed_last (env : Env) (o : ProcessOptions)
        (p0 : Purchase) (exists0 : bool) :
  exists middle,
    trace (snd (run env o p0 exists0))
      = (EvMkdir (path_join env "/tmp" (sessionId o)) :: middle
           ++ [EvRm (path_join env "/tmp" (sessionId o))])%list /\
    count is_mkdir (trace (snd (run env o p0 exists0))) = 1 /\
    count is_rm (trace (snd (run env o p0 exists0))) = 1.
Proof.
  destruct (run_structure env o p0 exists0) as (secs & Ht & Hf & _).
  exists (flatten (purchaseId o) secs ++ ending o (fst (run env o p0 exists0)))%list.
  rewrite Ht. split; [now rewrite <- app_assoc|].
  cbn [count is_mkdir is_rm]. rewrite !count_app.
  rewrite !(count_flatten env o _ secs _ Hf)
    by (intros [] H; try discriminate H; split; reflexivity).
  destruct (fst (run env o p0 exists0)); cbn; split; reflexivity.
Qed.

(** X9. Every run ends the job exactly once: a run that returns calls
    [markCompleted] once and never [markFailed]; a run that throws calls
    [markFailed] once and never [markCompleted]. *)
Theorem X9_exactly_one_terminal_write (env : Env) (o : ProcessOptions)
        (p0 : Purchase) (exists0 : bool) :
  match fst (run env o p0 exists0) with
  | Ok _ =>
      count is_completed (trace (snd (run env o p0 exists0))) = 1 /\
      count is_failed (trace (snd (run env o p0 exists0))) = 0
  | Throws _ =>
      count is_failed (trace (snd (run env o p0 exists0))) = 1 /\
      count is_completed (trace (snd (run env o p0 exists0))) = 0
  end.
Proof.
  destruct (run_structure env o p0 exists0) as (secs & Ht & Hf & _).
  rewrite Ht. cbn [count is_completed is_failed]. rewrite !count_app.
  rewrite !(count_flatten env o _ secs _ Hf)
    by (intros [] H; try discriminate H; split; reflexivity).
  destruct (fst (run env o p0 exists0)); cbn; split; reflexivity.
Qed.

Lemma record_steps_step (steps : list ProcessingStep) : forall p,
  processing_step (record_steps steps p) = last (map Some steps) (processing_step p).
Proof.
  unfold record_steps. induction steps as [|s steps IH]; intros p; [reflexivity|].
  cbn [fold_left map]. rewrite IH, last_cons. reflexivity.
Qed.

(** X10. After a run the job record shows where the run stopped: its
    step is the last step the run wrote (the step it had before, when the
    run wrote none); a run that throws leaves the final reference as it
    was; a run that returns wrote every step of the sequence and leaves
    the step uploading. *)
Theorem X10_job_record_shows_where_the_run_stopped (env : Env) (o : ProcessOptions)
        (p0 : Purchase) (exists0 : bool) :
  let w := snd (run env o p0 exists0) in
  processing_step (purchase w) = step_after (processing_step p0) (trace w) /\
  (forall e, fst (run env o p0 exists0) = Throws e ->
             final_audio_url (purchase w) = final_audio_url p0) /\
  (forall k, fst (run env o p0 exists0) = Ok k ->
             steps_of (trace w) = expected_steps o /\
             processing_step (purchase w) = Some uploading).
Proof.
  intros w. subst w.
  destruct (run_structure env o p0 exists0) as (secs & _ & _ & _ & Hp & _).
  destruct (run_steps env o p0 exists0) as (secs' & _ & Hs & _ & Hok).
  assert (E : processing_step (purchase (snd (run env o p0 exists0)))
              = step_after (processing_step p0) (trace (snd (run env o p0 exists0)))).
  { destruct (run_structure env o p0 exists0) as (secs2 & Ht2 & Hf2 & _ & Hp2 & _).
    rewrite Hp2. unfold step_after.
    assert (Hs2 : steps_of (trace (snd (run env o p0 exists0))) = map fst secs2).
    { rewrite Ht2. cbn [steps_of step_of].
      rewrite !steps_of_app, (steps_of_flatten (purchaseId o) Hf2).
      destruct (fst (run env o p0 exists0)); cbn; now rewrite app_nil_r. }
    rewrite Hs2, <- record_steps_step.
    destruct (fst (run env o p0 exists0)); reflexivity. }
  split; [exact E|]. split.
  - intros e He. now destruct (run_failed_record env o p0 exists0 e He) as (_ & _ & H).
  - intros k Hk. rewrite E. unfold step_after. rewrite Hs, (Hok k Hk).
    split; [reflexivity|].
    unfold expected_steps. destruct (truthy (musicTrack o)); reflexivity.
Qed.

(** ** The page loop *)

(** X11. When every iteration goes through (the signed URL is granted,
    the response is ok and its body readable, the raw file is written and
    ffmpeg converts it), the page loop returns the wav paths of all the
    pages, in the order of the pages and after the paths it was given, and
    its calls are, page after page, the signed URL request, the download,
    the write of the raw file and the conversion. *)
Theorem X11_pages_are_downloaded_in_order (env : Env) (tmpDir : string)
        (pages : list Page) :
  forall (k : nat) (wavFiles : list string) (w : World),
    (forall i, i < List.length pages -> page_goes_through env (k + i)) ->
    fst (download_pages env tmpDir k pages wavFiles w)
      = Ok (wavFiles ++ map (wav_path env tmpDir) pages)%list /\
    trace (snd (download_pages env tmpDir k pages wavFiles w))
      = (trace w ++ loop_calls env tmpDir k pages)%list.
Proof.
  exact (download_pages_go_through env tmpDir pages).
Qed.

(** ** The encoder and the mix *)

(** X12. What the encoder is given.  Its input is the polished track when
    no music was selected or the music response was not ok, and the mixed
    track when music was selected and the response was ok.  Its metadata
    are the title, the album VoiceHearth and, only when a reader name was
    supplied, the artist "Read by {name}".  They reach ffmpeg as pairs of
    [-metadata] and [key=value] when the title has no space or more than
    one.  A title with exactly one space is split by fluent-ffmpeg: its
    first word stays in the [title=] option and its second word follows
    as an option of its own. *)
Theorem X12_what_the_encoder_is_given (env : Env) (o : ProcessOptions)
        (p0 : Purchase) (exists0 : bool) (cmd : FfmpegCommand) :
  In (EvFfmpeg AtEncode cmd) (trace (snd (run env o p0 exists0))) ->
  let artist :=
    if truthy (readerName o)
    then ["-metadata"; ("artist=Read by " ++ show_opt (readerName o))%string]
    else [] in
  (count_spaces (storyTitle o) <> 1 ->
   cmd_outputOptions cmd
   = (["-metadata"; ("title=" ++ storyTitle o)%string; "-metadata"; "album=VoiceHearth"]
        ++ artist)%list) /\
  (forall first second,
      storyTitle o = (first ++ " " ++ second)%string ->
      count_spaces first = 0 -> count_spaces second = 0 ->
      cmd_outputOptions cmd
      = (["-metadata"; ("title=" ++ first)%string; second;
          "-metadata"; "album=VoiceHearth"] ++ artist)%list) /\
  (truthy (musicTrack o) = false ->
   cmd_inputs cmd = [path_join env (tmp_dir env o) "polished.wav"]) /\
  (forall r, fetch_reply env AtMusic = Ok r -> ok r = false ->
             cmd_inputs cmd = [path_join env (tmp_dir env o) "polished.wav"]) /\
  (forall r, truthy (musicTrack o) = true ->
             fetch_reply env AtMusic = Ok r -> ok r = true ->
             cmd_inputs cmd = [path_join env (tmp_dir env o) "mixed.wav"]).
Proof.
  intros Hin artist. pose proof (run_event_ok env o p0 exists0 _ Hin) as H.
  cbn in H. subst cmd.
  assert (E : forall i out,
             cmd_outputOptions (encode_command o i out)
             = Builder.split_options (metadata_options o)) by reflexivity.
  split; [intros Ht; rewrite E; now apply metadata_pass_whole|].
  split; [intros first second Ht Hf Hs; rewrite E; now apply metadata_two_words|].
  unfold encoder_input. cbn [encode_command cmd_inputs Builder.output Builder.outputOptions
    Builder.format Builder.audioFrequency Builder.audioChannels Builder.audioBitrate
    Builder.Ffmpeg].
  split; [intros ->; reflexivity|]. split.
  - intros r Hr Hok. rewrite Hr, Hok. now destruct (truthy (musicTrack o)).
  - intros r Hm Hr Hok. now rewrite Hm, Hr, Hok.
Qed.

Lemma or_zero_not_nan (d : option float) : is_nan (or_zero d) = false.
Proof.
  unfold or_zero. destruct d as [x|]; [|reflexivity].
  destruct (truthy_number x) eqn:E; [|reflexivity].
  unfold truthy_number in E. apply andb_true_iff in E. destruct E as [E _].
  now apply negb_true_iff in E.
Qed.

(** X13. The duration a mix command is built from is never NaN: it is
    the duration the probe reported when that is a number other than
    zero, and 0 when the probe reported none, NaN or zero. *)
Theorem X13_mix_duration_is_a_number (env : Env) (o : ProcessOptions)
        (p0 : Purchase) (exists0 : bool) (cmd : FfmpegCommand) :
  In (EvFfmpeg AtMusic cmd) (trace (snd (run env o p0 exists0))) ->
  exists dur d,
    ffprobe_reply env AtMusic = Ok dur /\
    cmd = session_mix_command env o d /\
    is_nan d = false /\
    (forall x, dur = Some x -> is_nan x = false -> PrimFloat.eqb x 0%float = false ->
               d = x) /\
    (forall x, dur = Some x -> is_nan x = true \/ PrimFloat.eqb x 0%float = true ->
               d = 0%float) /\
    (dur = None -> d = 0%float).
Proof.
  intros Hin. destruct (run_event_ok env o p0 exists0 _ Hin) as (r & dur & _ & _ & Hd & ->).
  exists dur, (or_zero dur). split; [exact Hd|]. split; [reflexivity|].
  split; [apply or_zero_not_nan|].
  unfold or_zero, truthy_number. split; [|split].
  - intros x -> Hn Hz. now rewrite Hn, Hz.
  - intros x -> [Hn|Hz]; [now rewrite Hn|rewrite Hz].
    now destruct (negb (is_nan x)).
  - now intros ->.
Qed.

(** X14. The start of the fade-out is never negative, whatever the voice
    duration: [Math.max(0, d - 5)] is not below 0. *)
Theorem X14_fade_out_start_is_not_negative (d : float) :
  PrimFloat.ltb (fade_out_start d) 0%float = false.
Proof.
  unfold fade_out_start, Math_max.
  set (x := PrimFloat.sub d 5%float).
  change (is_nan 0%float) with false. cbn [orb].
  destruct (is_nan x) eqn:Hn; [reflexivity|].
  destruct (PrimFloat.ltb 0%float x) eqn:H1.
  - rewrite FloatAxioms.ltb_spec in *.
    change (Prim2SF 0%float) with (S754_zero false) in *.
    unfold SFltb, SFcompare in *.
    destruct (Prim2SF x) as [s|s| |s m e]; try destruct s; cbn in *; congruence.
  - destruct (PrimFloat.ltb x 0%float); reflexivity.
Qed.

(* ================================================================== *)
(** * Properties of the HTTP entry point *)

Lemma bearer_not_empty (API_KEY : string) : truthy_string ("Bearer " ++ API_KEY) = true.
Proof. reflexivity. Qed.

(** [authenticate] lets a request through exactly when its authorization
    header is "Bearer " followed by the key. *)
Lemma authenticate_check (API_KEY : string) (authHeader : option string) :
  negb (truthy authHeader) || negb (show_opt authHeader =? "Bearer " ++ API_KEY) = false
  <-> authHeader = Some ("Bearer " ++ API_KEY).
Proof.
  split.
  - intros H. apply orb_false_iff in H. destruct H as [H1 H2].
    apply negb_false_iff in H1, H2.
    destruct authHeader as [h|]; [|discriminate].
    cbn in H2. apply String.eqb_eq in H2. now subst.
  - intros ->. cbn [truthy show_opt]. rewrite bearer_not_empty, String.eqb_refl.
    reflexivity.
Qed.


(** A value with a truthy property is an object. *)
Lemma truthy_property (b : JsonValue) (key : string) :
  truthy_value (get b key) = true -> exists properties, b = JObject properties.
Proof.
  destruct b; cbn; try discriminate. intros _. eauto.
Qed.

(** What the route does with a request that [express.json()] and
    [authenticate] let through, when the required fields are there. *)
Lemma process_route_started (errors : TypeErrors) (env : Env) (req : Request)
      (p : Purchase) (exists0 : bool) :
  truthy_value (get (body req) "sessionId") = true ->
  truthy_value (get (body req) "storyTitle") = true ->
  truthy_value (get (body req) "purchaseId") = true ->
  process_route errors env req p exists0
  = match get (body req) "sessionId" with
    | JString session =>
        if representable (Number_toString env) (get (body req) "readerName")
           && representable (Number_toString env) (get (body req) "musicTrack")
        then
          let r := run env (process_options env session (body req)) p exists0 in
          Some ((SvReply 200 (JsonStarted "Processing started")
                   :: map SvCall (trace (snd r))
                   ++ [match fst r with
                       | Ok audioPath =>
                           SvLog ("Completed processing for session "
                                    ++ session ++ ": " ++ audioPath)
                       | Throws error =>
                           SvLogError ("Processing failed for session "
                                         ++ session ++ ":") error
                       end])%list,
                purchase (snd r), workspace_exists (snd r))
        else None
    | other =>
        Some ([SvReply 200 (JsonStarted "Processing started");
               SvLogError ("Processing failed for session "
                             ++ text_of (Number_toString env) other ++ ":")
                          (invalid_path errors other)],
              p, exists0)
    end.
Proof.
  intros H1 H2 H3. unfold process_route.
  destruct (truthy_property _ _ H1) as [properties Hb]. rewrite Hb in *.
  rewrite H1, H2, H3. cbn [negb orb].
  destruct (get (JObject properties) "sessionId"); reflexivity.
Qed.

Lemma post_process_accepted (errors : TypeErrors) (API_KEY : string) (env : Env)
      (req : Request) (p : Purchase) (exists0 : bool) :
  accepted API_KEY req ->
  post_process errors API_KEY env req p exists0 = process_route errors env req p exists0.
Proof.
  intros ([b Hb] & Ha & _). unfold post_process, express_json, authenticate.
  rewrite Hb. apply authenticate_check in Ha. now rewrite Ha.
Qed.



(** X16. A request that is turned down changes nothing and is answered
    once.  A body that [express.json()] cannot parse is answered by
    Express with the status of the parser's error, before the key is
    looked at.  A parsed request without the header "Bearer {API_KEY}" is
    answered 401 Unauthorized, whatever its body; with the header, but
    with a sessionId, storyTitle or purchaseId that is missing or falsy,
    the answer is 400.  In each case the job record and the workspace are
    as before. *)
Theorem X16_rejected_requests_change_nothing (errors : TypeErrors) (API_KEY : string)
        (env : Env) (req : Request) (p : Purchase) (exists0 : bool) :
  (forall status,
      parsed req = ParseFails status ->
      post_process errors API_KEY env req p exists0
      = Some ([SvErrorReply status], p, exists0)) /\
  (forall b,
      parsed req = ParseLeaves b ->
      authorization req <> Some ("Bearer " ++ API_KEY) ->
      post_process errors API_KEY env req p exists0
      = Some ([SvReply 401 (JsonFailure "Unauthorized")], p, exists0)) /\
  (forall b,
      parsed req = ParseLeaves b ->
      authorization req = Some ("Bearer " ++ API_KEY) ->
      b <> JUndefined -> b <> JNull ->
      truthy_value (get b "sessionId") = false
      \/ truthy_value (get b "storyTitle") = false
      \/ truthy_value (get b "purchaseId") = false ->
      post_process errors API_KEY env req p exists0
      = Some ([SvReply 400 (JsonFailure "sessionId, storyTitle, and purchaseId are required")],
              p, exists0)).
Proof.
  unfold post_process, express_json, authenticate.
  split; [intros status ->; reflexivity|].
  split.
  - intros b -> Ha.
    destruct (negb (truthy (authorization req))
              || negb (show_opt (authorization req) =? "Bearer " ++ API_KEY)) eqn:E;
      [reflexivity|].
    apply authenticate_check in E. congruence.
  - intros b Hb Ha Hu Hn Hv. rewrite Hb.
    apply authenticate_check in Ha. rewrite Ha.
    unfold process_route, body. rewrite Hb.
    destruct b; try congruence.
    all: destruct Hv as [H|[H|H]]; rewrite H; cbn [negb orb];
      rewrite ?orb_true_r; reflexivity.
Qed.


(** X22. A sessionId that is truthy but not a string passes the check of
    the route: the server answers 200 "Processing started", and
    [processRecording] then throws at [path.join] before its [try] block.
    No call is made, the error is logged by the route, and nothing is
    written to the job record: the failure is not recorded. *)
Theorem X22_session_that_is_not_a_string_is_never_recorded (errors : TypeErrors)
        (API_KEY : string) (env : Env) (req : Request) (p : Purchase) (exists0 : bool) :
  accepted API_KEY req ->
  (forall session, get (body req) "sessionId" <> JString session) ->
  post_process errors API_KEY env req p exists0
  = Some ([SvReply 200 (JsonStarted "Processing started");
           SvLogError ("Processing failed for session "
                         ++ text_of (Number_toString env) (get (body req) "sessionId")
                         ++ ":")
                      (invalid_path errors (get (body req) "sessionId"))],
          p, exists0).
Proof.
  intros Hacc Hn.
  rewrite (post_process_accepted errors API_KEY env req p exists0 Hacc).
  destruct Hacc as (_ & _ & H1 & H2 & H3).
  rewrite (process_route_started errors env req p exists0 H1 H2 H3).
  destruct (get (body req) "sessionId") as [| |x|x|session|items|props]; try reflexivity.
  now destruct (Hn session).
Qed.

(* ================================================================== *)
(** * Runs that must fail, runs that must succeed *)

(** X18. Only a response that is not ok makes the pipeline go on without
    music.  When the fetch of the selected music rejects, or the body of
    an ok response cannot be read, the run throws that error and the job
    is marked failed with its message. *)
Theorem X18_music_errors_other_than_not_ok_are_fatal (env : Env) (o : ProcessOptions)
        (p0 : Purchase) (exists0 : bool) (url : string) (e : Thrown) :
  In (EvFetch AtMusic url) (trace (snd (run env o p0 exists0))) ->
  fetch_reply env AtMusic = Throws e
  \/ (exists r, fetch_reply env AtMusic = Ok r /\ ok r = true /\ arrayBuffer r = Throws e) ->
  fst (run env o p0 exists0) = Throws e /\
  processing_status (purchase (snd (run env o p0 exists0))) = Some "failed" /\
  error_message (purchase (snd (run env o p0 exists0))) = Some (message_of e).
Proof.
  intros Hin Hr.
  assert (Hf : failing env (EvFetch AtMusic url) = true).
  { cbn. destruct Hr as [->|(r & -> & -> & ->)]; reflexivity. }
  destruct (failing_call_inv env o p0 exists0 _ Hin Hf) as (e' & _ & He' & Herr & _).
  assert (E : e' = e).
  { cbn in Herr.
    destruct Hr as [Hr|(r & Hr & Hok & Hb)]; rewrite Hr in Herr.
    - destruct Herr as [[= ->]|(r' & [=] & _)]. reflexivity.
    - destruct Herr as [[=]|(r' & [= <-] & [[_ Hb']|(Hok' & _)])]; congruence. }
  subst e'. split; [exact He'|].
  destruct (run_failed_record env o p0 exists0 e He') as (H1 & H2 & _).
  split; assumption.
Qed.

(** X19. When no collaborator fails, the run succeeds: if the page lookup
    returns pages and every answer of the outside world is a good one,
    [processRecording] returns [processed/{sessionId}.mp3], has written
    every step of the sequence and has marked the job completed with that
    key. *)
Theorem X19_a_run_without_failures_succeeds (env : Env) (o : ProcessOptions)
        (p0 : Purchase) (exists0 : bool) :
  (forall c, failing env c = false) ->
  fst (run env o p0 exists0) = Ok ("processed/" ++ sessionId o ++ ".mp3") /\
  steps_of (trace (snd (run env o p0 exists0))) = expected_steps o /\
  processing_status (purchase (snd (run env o p0 exists0))) = Some "completed" /\
  final_audio_url (purchase (snd (run env o p0 exists0)))
    = Some ("processed/" ++ sessionId o ++ ".mp3").
Proof.
  intros Hgood.
  destruct (run_verdict env o p0 exists0) as [_ Hthrow].
  destruct (run_structure env o p0 exists0) as (secs & _ & _ & _ & Hp & _ & Hok & _).
  destruct (run_steps env o p0 exists0) as (secs' & _ & Hs & _ & Hall).
  destruct (fst (run env o p0 exists0)) as [k|e] eqn:Hr.
  - destruct (Hok k eq_refl) as [_ ->].
    split; [reflexivity|]. split; [rewrite Hs; now apply (Hall _ eq_refl)|].
    rewrite Hp. split; reflexivity.
  - destruct (Hthrow e eq_refl) as (before & c & _ & _ & Hf & _).
    rewrite Hgood in Hf. discriminate.
Qed.

(** X20. When the workspace cannot be created, nothing else is tried:
    the run throws the error of [mkdirSync], its only calls are the
    creation, the log line, [markFailed] and the removal, and the job is
    marked failed without any step having been written. *)
Theorem X20_failed_mkdir_stops_before_the_first_step (env : Env) (o : ProcessOptions)
        (p0 : Purchase) (exists0 : bool) (e : Thrown) :
  mkdirSync_reply env = Some e ->
  fst (run env o p0 exists0) = Throws e /\
  trace (snd (run env o p0 exists0))
    = [EvMkdir (tmp_dir env o);
       EvConsoleError (sessionId o) (message_of e);
       EvMarkFailed (purchaseId o) (message_of e);
       EvRm (tmp_dir env o)] /\
  processing_step (purchase (snd (run env o p0 exists0))) = processing_step p0 /\
  processing_status (purchase (snd (run env o p0 exists0))) = Some "failed" /\
  error_message (purchase (snd (run env o p0 exists0))) = Some (message_of e).
Proof.
  intros Hmk.
  unfold run, processRecording, finally_block, catch_block, try_block, initial.
  exec. rewrite Hmk. cbn [fst snd trace purchase workspace_exists].
  destruct (rmSync_reply env); cbn; repeat split.
Qed.

Lemma try_block_ignores_rm (env : Env) (o : ProcessOptions) (r : option Thrown) (w : World) :
  try_block (with_rm env r) o w = try_block env o w.
Proof. reflexivity. Qed.

(** X21. A failure of the cleanup changes nothing but the workspace:
    whether [rmSync] succeeds or throws, the run has the same result, makes
    the same calls and leaves the same job record; the directory is gone
    when [rmSync] succeeds. *)
Theorem X21_cleanup_errors_are_swallowed (env : Env) (o : ProcessOptions)
        (p0 : Purchase) (exists0 : bool) (r : option Thrown) :
  fst (run (with_rm env r) o p0 exists0) = fst (run env o p0 exists0) /\
  trace (snd (run (with_rm env r) o p0 exists0)) = trace (snd (run env o p0 exists0)) /\
  purchase (snd (run (with_rm env r) o p0 exists0)) = purchase (snd (run env o p0 exists0)) /\
  workspace_exists (snd (run (with_rm env None) o p0 exists0)) = false.
Proof.
  unfold run, processRecording, try_finally, try_catch.
  rewrite !try_block_ignores_rm.
  destruct (try_block env o (initial p0 exists0)) as [[k|e] w1];
    unfold catch_block, finally_block; exec; cbn [with_rm rmSync_reply tmp_dir path_join].
  all: destruct r; destruct (rmSync_reply env); cbn; repeat split.
Qed.

(* ================================================================== *)
(** * The further properties on the sample session *)

(** X1 when the encoder fails: the failing call is followed by the log
    line, [markFailed] and the removal only. *)
Lemma X1_result_is_decided_by_the_calls_witness :
  exists before c,
    trace (snd (run Sample.encoder_fails Sample.opts Sample.fresh false))
      = (before ++ [c;
                    EvConsoleError "s1" "ffmpeg exited with code 1";
                    EvMarkFailed "p1" "ffmpeg exited with code 1";
                    EvRm "/tmp/s1"])%list /\
    failing Sample.encoder_fails c = true.
Proof.
  destruct (X1_result_is_decided_by_the_calls Sample.encoder_fails Sample.opts
              Sample.fresh false) as [_ H].
  destruct (H (JsError "ffmpeg exited with code 1") ltac:(vm_compute; reflexivity))
    as (before & c & Ht & _ & Hf & _).
  exists before, c. split; [exact Ht|exact Hf].
Defined.

(** X2 when the encoder fails. *)
Lemma X2_failed_transcode_fails_the_run_witness :
  fst (run Sample.encoder_fails Sample.opts Sample.fresh false)
    = Throws (JsError "ffmpeg exited with code 1") /\
  error_message (purchase (snd (run Sample.encoder_fails Sample.opts Sample.fresh false)))
    = Some "ffmpeg exited with code 1".
Proof.
  assert (Hin : In (EvFfmpeg AtEncode
                      (encode_command Sample.opts "/tmp/s1/mixed.wav" "/tmp/s1/output.mp3"))
                   (trace (snd (run Sample.encoder_fails Sample.opts Sample.fresh false))))
    by (vm_compute; find_in).
  destruct (X2_failed_transcode_fails_the_run Sample.encoder_fails Sample.opts
              Sample.fresh false AtEncode _ (JsError "ffmpeg exited with code 1")
              Hin eq_refl) as (H1 & _ & H3 & _).
  split; [exact H1|exact H3].
Defined.

(** X3 when the bucket refuses the upload. *)
Lemma X3_failed_upload_fails_the_run_witness :
  fst (run Sample.upload_fails Sample.opts Sample.fresh false)
    = Throws (JsError "Failed to upload processed MP3: Bucket not found") /\
  final_audio_url (purchase (snd (run Sample.upload_fails Sample.opts Sample.fresh false)))
    = None.
Proof.
  assert (Hin : In (EvUpload AtUpload "processed/s1.mp3" [Byte.x49; Byte.x44; Byte.x33]
                             "audio/mpeg" true)
                   (trace (snd (run Sample.upload_fails Sample.opts Sample.fresh false))))
    by (vm_compute; find_in).
  destruct (X3_failed_upload_fails_the_run Sample.upload_fails Sample.opts
              Sample.fresh false AtUpload _ _ _ _ "Bucket not found" Hin eq_refl)
    as (H1 & _ & _ & H4 & _).
  split; [exact H1|exact H4].
Defined.

(** X4 when the signed URL of the second page is refused: the error
    names page 1. *)
Lemma X4_page_errors_name_the_page_witness :
  exists page,
    nth_error (pages_of (listPages_reply Sample.url_refused)) 1 = Some page /\
    fst (run Sample.url_refused Sample.opts Sample.fresh false)
      = Throws (JsError ("Failed to get signed URL for page " ++ show_int (page_index page))).
Proof.
  destruct (X4_page_errors_name_the_page Sample.url_refused Sample.opts
              Sample.fresh false 1) as [H _].
  apply (H (Some "s1/page-1.webm") 300%Z).
  - vm_compute. find_in.
  - reflexivity.
Defined.

(** X5 on the polish command of the sample session. *)
Lemma X5_how_transcodes_are_built_witness :
  cmd_audioChannels (polish_command "/tmp/s1/concatenated.wav" "/tmp/s1/polished.wav")
    = Some 1%Z /\
  cmd_format (polish_command "/tmp/s1/concatenated.wav" "/tmp/s1/polished.wav")
    = Some "wav" /\
  cmd_outputOptions (polish_command "/tmp/s1/concatenated.wav" "/tmp/s1/polished.wav")
    = [].
Proof.
  assert (Hin : In (EvFfmpeg AtPolish
                      (polish_command "/tmp/s1/concatenated.wav" "/tmp/s1/polished.wav"))
                   (trace (snd (run Sample.happy Sample.opts Sample.fresh false))))
    by (vm_compute; find_in).
  destruct (X5_how_transcodes_are_built Sample.happy Sample.opts Sample.fresh false
              AtPolish _ Hin) as (H1 & _ & _ & _ & H5 & _ & _ & _ & H9 & _).
  split; [exact H1|]. split.
  - destruct (H5 ltac:(discriminate)) as [H _]. exact H.
  - apply H9; discriminate.
Defined.

(** X6 on the music file of the sample session. *)
Lemma X6_fs_paths_are_entries_of_the_workspace_witness :
  exists name,
    plain_name name = true /\
    "/tmp/s1/music.mp3" = Sample.join2 (Sample.join2 "/tmp" "s1") name.
Proof.
  apply (X6_fs_paths_are_entries_of_the_workspace
           Sample.happy Sample.opts Sample.fresh false
           (EvWriteFile AtMusic "/tmp/s1/music.mp3"
                        (Bytes [Byte.x52; Byte.x49; Byte.x46; Byte.x46]))).
  vm_compute. find_in.
Defined.

(** X7 on the third page of the sample session. *)
Lemma X7_signed_urls_are_requested_per_page_witness :
  300%Z = 300%Z /\
  exists k page,
    AtPage 2 = AtPage k /\
    nth_error (pages_of (listPages_reply Sample.happy)) k = Some page /\
    Some "s1/page-2.webm" = audio_url page.
Proof.
  apply (X7_signed_urls_are_requested_per_page Sample.happy Sample.opts Sample.fresh false
           (EvCreateSignedUrl (AtPage 2) (Some "s1/page-2.webm") 300)).
  vm_compute. find_in.
Defined.

(** X10 on the sample session: the run returns and leaves the step
    uploading. *)
Lemma X10_job_record_shows_where_the_run_stopped_witness :
  processing_step (purchase (snd (run Sample.happy Sample.opts Sample.fresh false)))
  = Some uploading.
Proof.
  destruct (X10_job_record_shows_where_the_run_stopped Sample.happy Sample.opts
              Sample.fresh false) as (_ & _ & H).
  destruct (H "processed/s1.mp3" ltac:(vm_compute; reflexivity)) as [_ H2]. exact H2.
Defined.

(** X11 on the three pages of the sample session. *)
Lemma X11_pages_are_downloaded_in_order_witness :
  fst (download_pages Sample.happy "/tmp/s1" 0
         [Sample.page 0; Sample.page 1; Sample.page 2] [] (initial Sample.fresh true))
  = Ok ["/tmp/s1/page-0.wav"; "/tmp/s1/page-1.wav"; "/tmp/s1/page-2.wav"].
Proof.
  destruct (X11_pages_are_downloaded_in_order Sample.happy "/tmp/s1"
              [Sample.page 0; Sample.page 1; Sample.page 2] 0 []
              (initial Sample.fresh true)) as [H _].
  - intros i _. repeat split.
  - rewrite H. reflexivity.
Defined.

(** X12 on the sample session, with music and a reader: the title "The
    Owl" is split. *)
Lemma X12_what_the_encoder_is_given_witness :
  cmd_outputOptions (encode_command Sample.opts "/tmp/s1/mixed.wav" "/tmp/s1/output.mp3")
  = ["-metadata"; "title=The"; "Owl"; "-metadata"; "album=VoiceHearth";
     "-metadata"; "artist=Read by Ada"] /\
  cmd_inputs (encode_command Sample.opts "/tmp/s1/mixed.wav" "/tmp/s1/output.mp3")
  = [path_join Sample.happy (tmp_dir Sample.happy Sample.opts) "mixed.wav"].
Proof.
  assert (Hin : In (EvFfmpeg AtEncode
                      (encode_command Sample.opts "/tmp/s1/mixed.wav" "/tmp/s1/output.mp3"))
                   (trace (snd (run Sample.happy Sample.opts Sample.fresh false))))
    by (vm_compute; find_in).
  destruct (X12_what_the_encoder_is_given Sample.happy Sample.opts Sample.fresh false _ Hin)
    as (_ & H2 & _ & _ & H5).
  split.
  - exact (H2 "The" "Owl" eq_refl eq_refl eq_refl).
  - apply (H5 {| ok := true; arrayBuffer := Ok [Byte.x52; Byte.x49; Byte.x46; Byte.x46] |});
      reflexivity.
Defined.

(** X13 on the sample session: the probe reported 12.5 seconds. *)
Lemma X13_mix_duration_is_a_number_witness :
  exists d,
    session_mix_command Sample.happy Sample.opts 12.5%float
      = session_mix_command Sample.happy Sample.opts d /\
    d = 12.5%float.
Proof.
  assert (Hin : In (EvFfmpeg AtMusic (session_mix_command Sample.happy Sample.opts 12.5%float))
                   (trace (snd (run Sample.happy Sample.opts Sample.fresh false))))
    by (vm_compute; find_in).
  destruct (X13_mix_duration_is_a_number Sample.happy Sample.opts Sample.fresh false _ Hin)
    as (dur & d & H1 & H2 & _ & H4 & _).
  exists d. split; [exact H2|].
  apply H4; [|reflexivity|reflexivity].
  exact (f_equal (fun r => match r with Ok x => x | Throws _ => None end) (eq_sym H1)).
Defined.


(** X16 on a request that does not parse, on one with another key, and
    on one without a purchase. *)
Lemma X16_rejected_requests_change_nothing_witness :
  post_process Requests.errors "secret" Sample.happy Requests.request_unparsable
               Sample.fresh false
  = Some ([SvErrorReply 400], Sample.fresh, false) /\
  post_process Requests.errors "secret" Sample.happy Requests.request_with_wrong_key
               Sample.fresh false
  = Some ([SvReply 401 (JsonFailure "Unauthorized")], Sample.fresh, false) /\
  post_process Requests.errors "secret" Sample.happy Requests.request_without_purchase
               Sample.fresh false
  = Some ([SvReply 400 (JsonFailure "sessionId, storyTitle, and purchaseId are required")],
          Sample.fresh, false).
Proof.
  split; [|split].
  - apply (X16_rejected_requests_change_nothing Requests.errors "secret" Sample.happy
             Requests.request_unparsable Sample.fresh false).
    reflexivity.
  - apply (X16_rejected_requests_change_nothing Requests.errors "secret" Sample.happy
             Requests.request_with_wrong_key Sample.fresh false) with (b := Requests.fields).
    + reflexivity.
    + discriminate.
  - eapply (X16_rejected_requests_change_nothing Requests.errors "secret" Sample.happy
              Requests.request_without_purchase Sample.fresh false).
    + reflexivity.
    + reflexivity.
    + discriminate.
    + discriminate.
    + right. right. reflexivity.
Defined.


(** X22 on the request whose session is the number 123. *)
Lemma X22_session_that_is_not_a_string_is_never_recorded_witness :
  post_process Requests.errors "secret" Sample.happy Requests.request_with_numeric_session
               Sample.fresh false
  = Some ([SvReply 200 (JsonStarted "Processing started");
           SvLogError "Processing failed for session 123:"
                      (invalid_path Requests.errors (JNumber 123%float))],
          Sample.fresh, false).
Proof.
  apply (X22_session_that_is_not_a_string_is_never_recorded Requests.errors "secret"
           Sample.happy Requests.request_with_numeric_session Sample.fresh false).
  - split; [eexists; reflexivity|]. repeat split.
  - discriminate.
Defined.

(** X18 when the music host cannot be reached. *)
Lemma X18_music_errors_other_than_not_ok_are_fatal_witness :
  fst (run Sample.music_unreachable Sample.opts Sample.fresh false)
    = Throws (JsError "fetch failed") /\
  processing_status
    (purchase (snd (run Sample.music_unreachable Sample.opts Sample.fresh false)))
    = Some "failed".
Proof.
  destruct (X18_music_errors_other_than_not_ok_are_fatal Sample.music_unreachable
              Sample.opts Sample.fresh false
              "https://voicehearth.example/music/calm.mp3" (JsError "fetch failed"))
    as (H1 & H2 & _).
  - vm_compute. find_in.
  - left. reflexivity.
  - split; [exact H1|exact H2].
Defined.

(** X19 on the sample session, where every collaborator succeeds. *)
Lemma X19_a_run_without_failures_succeeds_witness :
  fst (run Sample.happy Sample.opts Sample.fresh false) = Ok "processed/s1.mp3".
Proof.
  destruct (X19_a_run_without_failures_succeeds Sample.happy Sample.opts
              Sample.fresh false) as (H & _).
  - intros c. destruct c; reflexivity.
  - exact H.
Defined.

(** X20 when [/tmp] is not writable. *)
Lemma X20_failed_mkdir_stops_before_the_first_step_witness :
  fst (run (with_pages
              {| path_join := Sample.join2;
                 Number_toString := Sample.print_number;
                 APP_URL := None;
                 mkdirSync_reply := Some (JsError "EACCES: permission denied, mkdir '/tmp/s1'");
                 rmSync_reply := None;
                 listPages_reply := Sample.three_pages;
                 createSignedUrl_reply := fun _ => Sample.granted;
                 fetch_reply := fun _ => Sample.ok_response;
                 writeFileSync_reply := fun _ => None;
                 readFileSync_reply := fun _ => Ok [];
                 ffmpeg_reply := fun _ => None;
                 ffprobe_reply := fun _ => Ok None;
                 upload_reply := fun _ => None |} Sample.three_pages)
           Sample.opts Sample.fresh false)
  = Throws (JsError "EACCES: permission denied, mkdir '/tmp/s1'").
Proof.
  apply X20_failed_mkdir_stops_before_the_first_step. reflexivity.
Defined.
